(** * Flight fare prediction pipeline: a shallow embedding of [main_model.py]

    The development follows the class [FlightPricePredictor]:
    - [load_and_preprocess_data]  (the DataCleaner),
    - [feature_engineering]       (the FeatureEngineer),
    - the selection step of [train_and_evaluate_models] (the ModelTrainer),
    - [save_model] / [load_model] (the ArtifactStore),
    - [predict_single_flight]     (the Predictor),
    - [analyze_data_distribution], [run_complete_pipeline],
      [demo_predictions], [test_saved_model] and the script.

    Conventions.
    - A Python float is an exact rational ([Qc]) or NaN: [float := option Qc].
      Rounding is not modelled; NaN is, because pandas uses it for missing
      values and every comparison with NaN is false.
    - A pandas [Timestamp] is its [value]: nanoseconds since 1970-01-01
      (naive, no time zone).
    - Library functions whose text is not part of the repository are taken
      as parameters: the scalar date parser behind [pd.to_datetime], the
      sample standard deviation, [cross_val_score] and the fitted
      regressors.
    - The text columns of the table are object columns holding [str] or NaN
      ([option string]); the price column is numeric.
    - What [predict_single_flight] prints is part of its result; the
      progress lines of the training path are left out. *)

From Stdlib Require Import ZArith QArith Qcanon Qround String Ascii List Lqa.
From stdpp Require Import base numbers option list sorting strings gmap fin_maps.

Local Open Scope string_scope.
Local Open Scope Z_scope.

(** ** Numbers *)

Definition float : Type := option Qc.
Abbreviation NaN := (@None Qc) (only parsing).

Definition of_Z (n : Z) : float := Some (Qc_of_Z n).

Module Float.
(** Comparisons: false as soon as one side is NaN. *)
Definition lt (a b : float) : bool :=
  match a, b with
  | Some x, Some y => bool_decide (x < y)%Qc
  | _, _ => false
  end.
Definition le (a b : float) : bool :=
  match a, b with
  | Some x, Some y => bool_decide (x ≤ y)%Qc
  | _, _ => false
  end.
Definition gt (a b : float) : bool := lt b a.
Definition ge (a b : float) : bool := le b a.

(** Arithmetic: NaN propagates. *)
Definition add (a b : float) : float := x ← a; y ← b; Some (x + y)%Qc.
Definition sub (a b : float) : float := x ← a; y ← b; Some (x - y)%Qc.
Definition mul (a b : float) : float := x ← a; y ← b; Some (x * y)%Qc.
End Float.

(** Python's builtin [max(a, b)] and [min(a, b)]: the first argument is kept
    unless the second is strictly better. *)
Definition py_max (a b : float) : float := if Float.gt b a then b else a.
Definition py_min (a b : float) : float := if Float.lt b a then b else a.

(** [np.maximum], [np.minimum] and [np.clip]: NaN propagates, and
    [np.clip x lo hi = np.minimum (np.maximum x lo) hi]. *)
Definition np_maximum (a b : float) : float :=
  x ← a; y ← b; Some (if bool_decide (x < y)%Qc then y else x).
Definition np_minimum (a b : float) : float :=
  x ← a; y ← b; Some (if bool_decide (y < x)%Qc then y else x).
Definition np_clip (x lo hi : float) : float :=
  np_minimum (np_maximum x lo) hi.

(** ** Series helpers (pandas skips missing values in reductions) *)

Definition dropna {A} (s : list (option A)) : list A := omap id s.

Definition series_min (s : list float) : float :=
  foldr (λ x acc, match acc with
                  | None => Some x
                  | Some m => Some (if bool_decide (x < m)%Qc then x else m)
                  end) None (dropna s).

Definition series_max (s : list float) : float :=
  foldr (λ x acc, match acc with
                  | None => Some x
                  | Some m => Some (if bool_decide (m < x)%Qc then x else m)
                  end) None (dropna s).

Definition series_mean (s : list float) : float :=
  match dropna s with
  | [] => None
  | v => Some (foldr Qcplus 0%Qc v / Qc_of_Z (Z.of_nat (length v)))%Qc
  end.

(** [Series.quantile(q)], linear interpolation between the two closest
    order statistics of the non-missing values. *)
Definition quantile (s : list float) (q : Qc) : float :=
  let v := merge_sort Qcle (dropna s) in
  match v with
  | [] => None
  | x0 :: _ =>
      let pos := (q * Qc_of_Z (Z.of_nat (length v) - 1))%Qc in
      let lo := Qfloor pos in
      let frac := (pos - Qc_of_Z lo)%Qc in
      let a := nth (Z.to_nat lo) v x0 in
      let b := nth (Z.to_nat (lo + 1)) v a in
      Some (a + (b - a) * frac)%Qc
  end.

(** ** Timestamps *)

Record Timestamp := { value : Z }.

Global Instance Timestamp_eq_dec : EqDecision Timestamp.
Proof. solve_decision. Defined.

Definition NS_PER_SECOND : Z := 1000000000.
Definition NS_PER_DAY : Z := 86400 * NS_PER_SECOND.

(** Days since the epoch to (year, month, day) in the proleptic Gregorian
    calendar. *)
Definition civil_from_days (days : Z) : Z * Z * Z :=
  let z := days + 719468 in
  let era := z / 146097 in
  let doe := z mod 146097 in
  let yoe := (doe - doe / 1460 + doe / 36524 - doe / 146096) / 365 in
  let doy := doe - (365 * yoe + yoe / 4 - yoe / 100) in
  let mp := (5 * doy + 2) / 153 in
  let d := doy - (153 * mp + 2) / 5 + 1 in
  let m := if mp <? 10 then mp + 3 else mp - 9 in
  let y := yoe + era * 400 + (if m <=? 2 then 1 else 0) in
  (y, m, d).

Definition days_from_civil (y m d : Z) : Z :=
  let y' := if m <=? 2 then y - 1 else y in
  let era := y' / 400 in
  let yoe := y' mod 400 in
  let doy := (153 * (if 2 <? m then m - 3 else m + 9) + 2) / 5 + d - 1 in
  let doe := yoe * 365 + yoe / 4 - yoe / 100 + doy in
  era * 146097 + doe - 719468.

Definition mk_timestamp (y m d hh mm ss : Z) : Timestamp :=
  {| value := (days_from_civil y m d * 86400 + hh * 3600 + mm * 60 + ss)
              * NS_PER_SECOND |}.

Module dt.
Definition hour (t : Timestamp) : Z := (value t mod NS_PER_DAY) / (3600 * NS_PER_SECOND).
(** Monday is 0; 1970-01-01 was a Thursday. *)
Definition dayofweek (t : Timestamp) : Z := (value t / NS_PER_DAY + 3) mod 7.
Definition month (t : Timestamp) : Z := (civil_from_days (value t / NS_PER_DAY)).1.2.
(** [(t2 - t1).dt.days]: whole days of the difference, rounded down. *)
Definition days (t2 t1 : Timestamp) : Z := (value t2 - value t1) / NS_PER_DAY.
End dt.

(** The scalar parser behind [pd.to_datetime]: a string parses to a
    timestamp, is one of the null spellings (NaT), or is rejected. *)
Inductive parse_result :=
  | Parsed (t : Timestamp)
  | NaT
  | ParseError.

(** ** Python string helpers *)

Definition is_whitespace (c : ascii) : bool :=
  let n := nat_of_ascii c in
  ((9 <=? n)%nat && (n <=? 13)%nat) || ((28 <=? n)%nat && (n <=? 32)%nat).

Fixpoint lstrip (s : string) : string :=
  match s with
  | String c s' => if is_whitespace c then lstrip s' else s
  | EmptyString => s
  end.

(** [str.strip()], for ASCII white space *)
Definition strip (s : string) : string :=
  String.rev (lstrip (String.rev (lstrip s))).

(** [c in s] for a one-character needle *)
Fixpoint contains_char (c : ascii) (s : string) : bool :=
  match s with
  | String c' s' => if decide (c = c') then true else contains_char c s'
  | EmptyString => false
  end.

(** [s.split(sep)] for a one-character separator *)
Fixpoint split_go (sep : ascii) (cur : string) (s : string) : list string :=
  match s with
  | EmptyString => [String.rev cur]
  | String c s' =>
      if decide (c = sep) then String.rev cur :: split_go sep "" s'
      else split_go sep (String c cur) s'
  end.
Definition split (sep : ascii) (s : string) : list string := split_go sep "" s.

Definition digit_of (c : ascii) : option Z :=
  let n := nat_of_ascii c in
  if ((48 <=? n)%nat && (n <=? 57)%nat)%bool then Some (Z.of_nat n - 48) else None.

(** Digits of a decimal literal; a single underscore may separate two
    digits, as in Python. [prev] tells whether the previous character was a
    digit. *)
Fixpoint digits_go (acc : Z) (prev : bool) (s : string) : option Z :=
  match s with
  | EmptyString => if prev then Some acc else None
  | String c s' =>
      match digit_of c with
      | Some d => digits_go (10 * acc + d) true s'
      | None =>
          if decide (c = "_"%char) then
            if prev then
              match s' with
              | EmptyString => None
              | _ => digits_go acc false s'
              end
            else None
          else None
      end
  end.

(** [int(s)] on ASCII text: surrounding white space, an optional sign, then
    decimal digits. [None] stands for the [ValueError]. *)
Definition py_int (s : string) : option Z :=
  match strip s with
  | String "-" s' => Z.opp <$> digits_go 0 false s'
  | String "+" s' => digits_go 0 false s'
  | s' => digits_go 0 false s'
  end.

(** [s[:2]] *)
Definition prefix2 (s : string) : string := substring 0 2 s.

(** ** Exceptions *)

Inductive exception :=
  | ValueError (msg : string)
  | KeyError (key : string)
  | TypeError (msg : string).

Inductive result (A : Type) :=
  | Ok (a : A)
  | Raise (e : exception).
Arguments Ok {A} a.
Arguments Raise {A} e.

(** * The table *)

(** One row of the table. The type of the two date columns changes when
    they are parsed, so the record is parametric in them. *)
Record Row (C F : Type) := mkRow {
  create_at : C;
  flight_number : option string;
  type_of_plane : option string;
  departure_airport : option string;
  arrival_airport : option string;
  flight_date : F;
  departure_time : option string;
  arrival_time : option string;
  classes : option string;
  price : float
}.
Arguments mkRow {C F}.
Arguments create_at {C F} r.
Arguments flight_number {C F} r.
Arguments type_of_plane {C F} r.
Arguments departure_airport {C F} r.
Arguments arrival_airport {C F} r.
Arguments flight_date {C F} r.
Arguments departure_time {C F} r.
Arguments arrival_time {C F} r.
Arguments classes {C F} r.
Arguments price {C F} r.

Abbreviation RawRow := (Row (option string) (option string)).
Abbreviation CleanRow := (Row Timestamp Timestamp).

Global Instance Row_eq_dec `{EqDecision C, EqDecision F} : EqDecision (Row C F).
Proof. solve_decision. Defined.

Definition with_create_at {C C' F} (r : Row C F) (c : C') : Row C' F :=
  mkRow c (flight_number r) (type_of_plane r) (departure_airport r)
        (arrival_airport r) (flight_date r) (departure_time r)
        (arrival_time r) (classes r) (price r).

Definition with_flight_date {C F F'} (r : Row C F) (f : F') : Row C F' :=
  mkRow (create_at r) (flight_number r) (type_of_plane r) (departure_airport r)
        (arrival_airport r) f (departure_time r)
        (arrival_time r) (classes r) (price r).

Definition with_type_of_plane {C F} (r : Row C F) (p : option string) : Row C F :=
  mkRow (create_at r) (flight_number r) p (departure_airport r)
        (arrival_airport r) (flight_date r) (departure_time r)
        (arrival_time r) (classes r) (price r).

(** [DataFrame.drop_duplicates()]: the first occurrence of a row is kept. *)
Fixpoint drop_duplicates `{EqDecision A} (df : list A) : list A :=
  match df with
  | [] => []
  | r :: df' => r :: filter (λ r', r' ≠ r) (drop_duplicates df')
  end.

Definition q25 : Qc := Q2Qc (1 # 4).
Definition q75 : Qc := Q2Qc (3 # 4).
Definition one_and_a_half : float := Some (Q2Qc (3 # 2)).

Definition within (lower_bound upper_bound p : float) : bool :=
  Float.ge p lower_bound && Float.le p upper_bound.


(** * LabelEncoder (scikit-learn)

    [fit] stores the sorted distinct values in [classes_]; [transform] maps
    a value to its position in [classes_] and raises [ValueError] on a value
    that is not there; [inverse_transform] reads [classes_] at a code. An
    encoder that was never fitted has no [classes_] attribute, and its
    [transform] raises [NotFittedError], a subclass of [ValueError]. *)

Record LabelEncoder := mkLabelEncoder { classes_ : option (list string) }.

Global Instance LabelEncoder_eq_dec : EqDecision LabelEncoder.
Proof. solve_decision. Defined.

Definition np_unique (y : list string) : list string :=
  merge_sort String.le (remove_dups y).

Module LabelEncoder.
Definition new : LabelEncoder := mkLabelEncoder None.

Definition fit (y : list string) : LabelEncoder :=
  mkLabelEncoder (Some (np_unique y)).

Definition index_of (v : string) (cs : list string) : option nat :=
  fst <$> list_find (λ c, c = v) cs.

Definition transform1 (le : LabelEncoder) (v : string) : result nat :=
  match classes_ le with
  | None => Raise (ValueError "This LabelEncoder instance is not fitted yet")
  | Some cs =>
      match index_of v cs with
      | Some i => Ok i
      | None => Raise (ValueError "y contains previously unseen labels")
      end
  end.

Fixpoint transform (le : LabelEncoder) (y : list string) : result (list nat) :=
  match y with
  | [] => Ok []
  | v :: y' =>
      match transform1 le v with
      | Ok i => match transform le y' with
                | Ok rest => Ok (i :: rest)
                | Raise e => Raise e
                end
      | Raise e => Raise e
      end
  end.

(** [fit_transform] returns the inverse indices of [np.unique]; every
    value of [y] has one, so the default is never used. *)
Definition fit_transform (y : list string) : LabelEncoder * list nat :=
  let cs := np_unique y in
  (mkLabelEncoder (Some cs), (λ v, default 0%nat (index_of v cs)) <$> y).

Definition inverse_transform1 (le : LabelEncoder) (i : nat) : result string :=
  match classes_ le with
  | None => Raise (ValueError "This LabelEncoder instance is not fitted yet")
  | Some cs =>
      match cs !! i with
      | Some v => Ok v
      | None => Raise (ValueError "y contains previously unseen labels")
      end
  end.
End LabelEncoder.

(** [Series.astype(str)] on one cell of an object column. *)
Definition astype_str (c : option string) : string := default "nan" c.

(** * Derived columns of the training table *)

Module Training.
(** The helpers nested in [feature_engineering]. *)
(** [days] is an integer, or NaN ([None]), on which every test is
    false. *)
Definition categorize_advance_booking (days : option Z) : Z :=
  match days with
  | Some d =>
      if d <? 7 then 0
      else if d <? 30 then 1
      else if d <? 90 then 2
      else 3
  | None => 3
  end.

(** [None] is [np.nan]: a cell that is not a string, a string that does
    not split in two at [:], or a part [int] rejects. *)
Definition time_to_minutes (time_str : option string) : option Z :=
  match time_str with
  | Some s =>
      match split ":" s with
      | [h; m] => hour ← py_int h; minute ← py_int m; Some (hour * 60 + minute)
      | _ => None
      end
  | None => None
  end.

(** On NaN, [minutes // 60] is NaN and every test is false. *)
Definition categorize_time_of_day (minutes : option Z) : Z :=
  match minutes with
  | Some m =>
      let hour := m / 60 in
      if (6 <=? hour) && (hour <? 12) then 0
      else if (12 <=? hour) && (hour <? 18) then 1
      else if (18 <=? hour) && (hour <? 22) then 2
      else 3
  | None => 3
  end.
End Training.

Record FeatRow := mkFeatRow {
  src : CleanRow;
  create_hour : Z;
  create_day_of_week : Z;
  create_month : Z;
  flight_month : Z;
  flight_day_of_week : Z;
  days_in_advance : Z;
  is_weekend_booking : Z;
  is_weekend_flight : Z;
  booking_category : Z;
  departure_minutes : option Z;
  arrival_minutes : option Z;
  flight_duration : option Z;
  departure_time_category : Z;
  route_popularity : Z;
  airline : option string;
  airline_popularity : Z;
  flight_number_encoded : Z;
  departure_airport_encoded : Z;
  arrival_airport_encoded : Z;
  classes_encoded : Z;
  type_of_plane_encoded : Z;
  airline_encoded : Z
}.

Definition categorical_cols : list string :=
  ["flight_number"; "departure_airport"; "arrival_airport"; "classes";
   "type_of_plane"; "airline"].

(** The list assigned to [self.feature_columns] before it is restricted to
    the columns of the table. *)
Definition all_feature_columns : list string :=
  ["flight_number_encoded"; "departure_airport_encoded";
   "arrival_airport_encoded"; "classes_encoded"; "type_of_plane_encoded";
   "airline_encoded";
   "create_hour"; "create_day_of_week"; "create_month";
   "flight_month"; "flight_day_of_week";
   "days_in_advance"; "departure_minutes"; "flight_duration";
   "is_weekend_booking"; "is_weekend_flight";
   "booking_category"; "departure_time_category";
   "route_popularity"; "airline_popularity"].

(** [self.df['airline'] = self.df['flight_number'].str[:2]] *)
Definition airline_of {C F} (r : Row C F) : option string :=
  prefix2 <$> flight_number r.

(** The cell of a categorical column, if the table has that column. *)
Definition categorical_cell (col : string) (r : CleanRow) : option (option string) :=
  if decide (col = "flight_number") then Some (flight_number r)
  else if decide (col = "departure_airport") then Some (departure_airport r)
  else if decide (col = "arrival_airport") then Some (arrival_airport r)
  else if decide (col = "classes") then Some (classes r)
  else if decide (col = "type_of_plane") then Some (type_of_plane r)
  else if decide (col = "airline") then Some (airline_of r)
  else None.

(** [groupby(['departure_airport', 'arrival_airport']).size()] read at the
    pair of a row; groups with a missing key do not exist, and [.get]
    answers 0 for them. *)
Definition route_counts (rows : list CleanRow) (dep arr : option string) : Z :=
  match dep, arr with
  | Some d, Some a =>
      Z.of_nat (length (filter (λ r, departure_airport r = Some d
                                     ∧ arrival_airport r = Some a) rows))
  | _, _ => 0
  end.

(** [value_counts()] mapped over the column, then [fillna(0)]. *)
Definition airline_counts (rows : list CleanRow) (a : option string) : Z :=
  match a with
  | Some s => Z.of_nat (length (filter (λ r, airline_of r = Some s) rows))
  | None => 0
  end.

(** The code of a cell under the encoder fitted for its column. *)
Definition encoded (encoders : gmap string LabelEncoder) (col : string)
    (c : option string) : Z :=
  match encoders !! col with
  | Some le =>
      match classes_ le with
      | Some cs => Z.of_nat (default 0%nat (LabelEncoder.index_of (astype_str c) cs))
      | None => 0
      end
  | None => 0
  end.

Definition flag (b : bool) : Z := if b then 1 else 0.

Definition derive (rows : list CleanRow) (encoders : gmap string LabelEncoder)
    (r : CleanRow) : FeatRow :=
  let create_day_of_week := dt.dayofweek (create_at r) in
  let flight_day_of_week := dt.dayofweek (flight_date r) in
  let days_in_advance := dt.days (flight_date r) (create_at r) in
  let departure_minutes := Training.time_to_minutes (departure_time r) in
  let arrival_minutes := Training.time_to_minutes (arrival_time r) in
  let flight_duration :=
    d ← departure_minutes; a ← arrival_minutes; Some (a - d) in
  let flight_duration :=
    (λ x, if x <? 0 then x + 24 * 60 else x) <$> flight_duration in
  {| src := r;
     create_hour := dt.hour (create_at r);
     create_day_of_week := create_day_of_week;
     create_month := dt.month (create_at r);
     flight_month := dt.month (flight_date r);
     flight_day_of_week := flight_day_of_week;
     days_in_advance := days_in_advance;
     is_weekend_booking := flag (5 <=? create_day_of_week);
     is_weekend_flight := flag (5 <=? flight_day_of_week);
     booking_category := Training.categorize_advance_booking (Some days_in_advance);
     departure_minutes := departure_minutes;
     arrival_minutes := arrival_minutes;
     flight_duration := flight_duration;
     departure_time_category := Training.categorize_time_of_day departure_minutes;
     route_popularity := route_counts rows (departure_airport r) (arrival_airport r);
     airline := airline_of r;
     airline_popularity := airline_counts rows (airline_of r);
     flight_number_encoded := encoded encoders "flight_number" (flight_number r);
     departure_airport_encoded :=
       encoded encoders "departure_airport" (departure_airport r);
     arrival_airport_encoded :=
       encoded encoders "arrival_airport" (arrival_airport r);
     classes_encoded := encoded encoders "classes" (classes r);
     type_of_plane_encoded := encoded encoders "type_of_plane" (type_of_plane r);
     airline_encoded := encoded encoders "airline" (airline_of r) |}.

(** The numeric columns of the table after feature engineering. *)
Definition numeric_columns (r : FeatRow) : gmap string float :=
  list_to_map
    [("price", price (src r));
     ("create_hour", of_Z (create_hour r));
     ("create_day_of_week", of_Z (create_day_of_week r));
     ("create_month", of_Z (create_month r));
     ("flight_month", of_Z (flight_month r));
     ("flight_day_of_week", of_Z (flight_day_of_week r));
     ("days_in_advance", of_Z (days_in_advance r));
     ("is_weekend_booking", of_Z (is_weekend_booking r));
     ("is_weekend_flight", of_Z (is_weekend_flight r));
     ("booking_category", of_Z (booking_category r));
     ("departure_minutes", Qc_of_Z <$> departure_minutes r);
     ("arrival_minutes", Qc_of_Z <$> arrival_minutes r);
     ("flight_duration", Qc_of_Z <$> flight_duration r);
     ("departure_time_category", of_Z (departure_time_category r));
     ("route_popularity", of_Z (route_popularity r));
     ("airline_popularity", of_Z (airline_popularity r));
     ("flight_number_encoded", of_Z (flight_number_encoded r));
     ("departure_airport_encoded", of_Z (departure_airport_encoded r));
     ("arrival_airport_encoded", of_Z (arrival_airport_encoded r));
     ("classes_encoded", of_Z (classes_encoded r));
     ("type_of_plane_encoded", of_Z (type_of_plane_encoded r));
     ("airline_encoded", of_Z (airline_encoded r))].

(** [self.df.columns] after the derived columns were added. *)
Definition df_columns : list string :=
  ["create_at"; "flight_number"; "type_of_plane"; "departure_airport";
   "arrival_airport"; "flight_date"; "departure_time"; "arrival_time";
   "classes"; "price";
   "create_hour"; "create_day_of_week"; "create_month"; "flight_month";
   "flight_day_of_week"; "days_in_advance"; "is_weekend_booking";
   "is_weekend_flight"; "booking_category"; "departure_minutes";
   "arrival_minutes"; "flight_duration"; "departure_time_category";
   "route_popularity"; "airline"; "airline_popularity";
   "flight_number_encoded"; "departure_airport_encoded";
   "arrival_airport_encoded"; "classes_encoded"; "type_of_plane_encoded";
   "airline_encoded"].

(** One row of [self.df[available_features]]. *)
Definition feature_row (cols : list string) (r : FeatRow) : list float :=
  (λ col, default NaN (numeric_columns r !! col)) <$> cols.

(** [~(X.isnull().any(axis=1) | y.isnull())] at one row. *)
Definition mask (cols : list string) (r : FeatRow) : bool :=
  forallb (λ v : float, bool_decide (is_Some v)) (feature_row cols r)
  && bool_decide (is_Some (price (src r))).

(** * The predictor object *)

(** A cell of the one-row frame built at inference. *)
Inductive cell :=
  | CStr (s : string)
  | CTime (t : Timestamp)
  | CNum (x : float)
  | CNaT.

(** A fitted regressor: [predict] on one row answers a number or raises
    (a row of the wrong width, a cell that is not a number). *)
Record Model := mkModel { predict : list cell → result float }.

Inductive ratio :=
  | Finite (q : Qc)
  | Infinity.

(** The value stored in [self.results[name]]. *)
Record ModelResult := mkModelResult {
  model : Model;
  cv_mae_mean : Qc;
  cv_mae_std : Qc;
  train_mae : Qc;
  test_mae : Qc;
  train_rmse : Qc;
  test_rmse : Qc;
  train_r2 : Qc;
  test_r2 : Qc;
  overfitting_ratio : ratio
}.

(** The attributes of [FlightPricePredictor]. [None] is Python's [None],
    except that [X], [y] and [feature_columns], which are never read before
    they are assigned, start as empty lists. [derived] holds the columns
    that [feature_engineering] adds to [self.df]. The [results] dictionary
    keeps its insertion order. *)
Record FlightPricePredictor := mkPredictor {
  csv_file : option (list RawRow);
  df : option (list CleanRow);
  derived : list FeatRow;
  X : list (list float);
  y : list float;
  label_encoders : gmap string LabelEncoder;
  best_model : option Model;
  model_type : option string;
  feature_columns : list string;
  results : list (string * ModelResult);
  price_stats : option (gmap string float);
  route_popularity_stats : gmap string float;
  airline_popularity_stats : gmap string float
}.

Definition __init__ (csv_file : option (list RawRow)) : FlightPricePredictor :=
  {| csv_file := csv_file;
     df := None;
     derived := [];
     X := [];
     y := [];
     label_encoders := ∅;
     best_model := None;
     model_type := None;
     feature_columns := [];
     results := [];
     price_stats := None;
     route_popularity_stats := ∅;
     airline_popularity_stats := ∅ |}.

(** * DataCleaner: [load_and_preprocess_data] *)

Section DataCleaner.
Variable to_datetime : string → parse_result.
Variable series_std : list float → float.

(** [pd.to_datetime(column, errors='coerce')], one cell. *)
Definition to_datetime_coerce (c : option string) : option Timestamp :=
  match c with
  | Some s => match to_datetime s with Parsed t => Some t | _ => None end
  | None => None
  end.

(** The nested function [parse_flight_date]. *)
Definition parse_flight_date (date_str : option string) : option Timestamp :=
  match date_str with
  | Some s =>
      if contains_char "T" s then
        match to_datetime s with Parsed t => Some t | _ => None end
      else None
  | None => None
  end.

Definition make_price_stats (Q1 Q3 : float) (prices : list float)
  : gmap string float :=
  <["min" := series_min prices]> (
  <["max" := series_max prices]> (
  <["mean" := series_mean prices]> (
  <["std" := series_std prices]> (
  <["Q1" := Q1]> (
  <["Q3" := Q3]> ∅))))).

Definition load_and_preprocess_data (self : FlightPricePredictor)
  : result FlightPricePredictor :=
  match csv_file self with
  | None => Raise (ValueError "file CSV đâu ?!")
  | Some table =>
      let df0 := drop_duplicates table in
      let Q1 := quantile (price <$> df0) q25 in
      let Q3 := quantile (price <$> df0) q75 in
      let IQR := Float.sub Q3 Q1 in
      let lower_bound := Float.sub Q1 (Float.mul one_and_a_half IQR) in
      let upper_bound := Float.add Q3 (Float.mul one_and_a_half IQR) in
      let df1 := filter (λ r, within lower_bound upper_bound (price r)) df0 in
      let stats := make_price_stats Q1 Q3 (price <$> df1) in
      let df2 :=
        omap (λ r, with_create_at r <$> to_datetime_coerce (create_at r)) df1 in
      let df3 :=
        omap (λ r, with_flight_date r <$> parse_flight_date (flight_date r)) df2 in
      let df4 := (λ r, with_type_of_plane r (strip <$> type_of_plane r)) <$> df3 in
      let df5 := filter (λ r, type_of_plane r ≠ Some "") df4 in
      let df6 := filter (λ r, is_Some (type_of_plane r)) df5 in
      Ok {| csv_file := csv_file self;
            df := Some df6;
            derived := derived self;
            X := X self;
            y := y self;
            label_encoders := label_encoders self;
            best_model := best_model self;
            model_type := model_type self;
            feature_columns := feature_columns self;
            results := results self;
            price_stats := Some stats;
            route_popularity_stats := route_popularity_stats self;
            airline_popularity_stats := airline_popularity_stats self |}
  end.
End DataCleaner.

(** * FeatureEngineer: [feature_engineering] *)

Section FeatureEngineer.
Variable series_std : list float → float.

Definition popularity_stats (column : list float) : gmap string float :=
  <["mean" := series_mean column]> (<["std" := series_std column]> ∅).

(** The loop over [categorical_cols]: one encoder per column the table
    has, fitted on the column as text. *)
Definition fit_encoders (rows : list CleanRow)
    (encoders : gmap string LabelEncoder) : gmap string LabelEncoder :=
  foldl (λ encs col,
           match mapM (categorical_cell col) rows with
           | Some column =>
               <[col := (LabelEncoder.fit_transform (astype_str <$> column)).1]> encs
           | None => encs
           end) encoders categorical_cols.

Definition feature_engineering (self : FlightPricePredictor)
  : result FlightPricePredictor :=
  match df self with
  | None => Raise (TypeError "'NoneType' object is not subscriptable")
  | Some rows =>
      let encoders := fit_encoders rows (label_encoders self) in
      let table := derive rows encoders <$> rows in
      let available_features :=
        filter (λ col, col ∈ df_columns) all_feature_columns in
      let kept := filter (λ r, mask available_features r) table in
      Ok {| csv_file := csv_file self;
            df := df self;
            derived := table;
            X := feature_row available_features <$> kept;
            y := (λ r, price (src r)) <$> kept;
            label_encoders := encoders;
            best_model := best_model self;
            model_type := model_type self;
            feature_columns := available_features;
            results := results self;
            price_stats := price_stats self;
            route_popularity_stats :=
              popularity_stats ((λ r, of_Z (route_popularity r)) <$> table);
            airline_popularity_stats :=
              popularity_stats ((λ r, of_Z (airline_popularity r)) <$> table) |}
  end.
End FeatureEngineer.

(** * ModelTrainer: [train_and_evaluate_models] *)

(** An insertion-ordered dictionary: assigning to an existing key keeps its
    position. *)
Fixpoint dict_set {V} (k : string) (v : V) (d : list (string * V))
  : list (string * V) :=
  match d with
  | [] => [(k, v)]
  | (k', v') :: d' =>
      if decide (k' = k) then (k, v) :: d' else (k', v') :: dict_set k v d'
  end.

Fixpoint dict_get {V} (k : string) (d : list (string * V)) : option V :=
  match d with
  | [] => None
  | (k', v') :: d' => if decide (k' = k) then Some v' else dict_get k d'
  end.

Definition dict_keys {V} (d : list (string * V)) : list string := fst <$> d.

(** Python's [min(iterable, key=...)]: the first element whose key is
    minimal; [None] stands for the [ValueError] on an empty iterable. *)
Fixpoint min_from {A} (key : A → Qc) (best : A) (rest : list A) : A :=
  match rest with
  | [] => best
  | x :: rest' =>
      if bool_decide (key x < key best)%Qc then min_from key x rest'
      else min_from key best rest'
  end.

Definition py_min_by {A} (key : A → Qc) (l : list A) : option A :=
  match l with
  | [] => None
  | x :: rest => Some (min_from key x rest)
  end.

(** Lines 269-270: the name of the best model. The key of a name is read
    back from the dictionary; the default stands for a [KeyError] that
    cannot happen, the names being the dictionary's own keys. *)
Definition best_model_name (results : list (string * ModelResult))
  : option string :=
  py_min_by (λ k, default 0%Qc (cv_mae_mean <$> dict_get k results))
            (dict_keys results).

Definition np_mean (l : list Qc) : Qc :=
  (foldr Qcplus 0 l / Qc_of_Z (Z.of_nat (length l)))%Qc.

Definition model_names : list string :=
  ["Random Forest"; "Gradient Boosting"; "Decision Tree"].

Section ModelTrainer.
Let matrix : Type := list (list float).
Variable train_test_split : matrix → list float → matrix * matrix * list float * list float.
Variable cross_val_score : string → matrix → list float → list Qc.
Variable fit : string → matrix → list float → Model.
Variable mean_absolute_error : Model → matrix → list float → Qc.
Variable root_mean_squared_error : Model → matrix → list float → Qc.
Variable r2_score : Model → matrix → list float → Qc.
Variable np_std : list Qc → Qc.

(** The body of the loop over the candidate models. *)
Definition evaluate (name : string) (X_train X_test : matrix)
    (y_train y_test : list float) : ModelResult :=
  let cv_scores := cross_val_score name X_train y_train in
  let model := fit name X_train y_train in
  let train_mae := mean_absolute_error model X_train y_train in
  let test_mae := mean_absolute_error model X_test y_test in
  let overfitting_check :=
    if bool_decide (0 < test_mae)%Qc then Finite (train_mae / test_mae)%Qc
    else Infinity in
  {| model := model;
     cv_mae_mean := (- np_mean cv_scores)%Qc;
     cv_mae_std := np_std cv_scores;
     train_mae := train_mae;
     test_mae := test_mae;
     train_rmse := root_mean_squared_error model X_train y_train;
     test_rmse := root_mean_squared_error model X_test y_test;
     train_r2 := r2_score model X_train y_train;
     test_r2 := r2_score model X_test y_test;
     overfitting_ratio := overfitting_check |}.

Definition train_and_evaluate_models (self : FlightPricePredictor)
  : result FlightPricePredictor :=
  let '(X_train, X_test, y_train, y_test) := train_test_split (X self) (y self) in
  let results :=
    foldl (λ res name, dict_set name (evaluate name X_train X_test y_train y_test) res)
          (results self) model_names in
  match best_model_name results with
  | None => Raise (ValueError "min() arg is an empty sequence")
  | Some name =>
      match dict_get name results with
      | None => Raise (KeyError name)
      | Some r =>
          Ok {| csv_file := csv_file self;
                df := df self;
                derived := derived self;
                X := X self;
                y := y self;
                label_encoders := label_encoders self;
                best_model := Some (model r);
                model_type := Some name;
                feature_columns := feature_columns self;
                results := results;
                price_stats := price_stats self;
                route_popularity_stats := route_popularity_stats self;
                airline_popularity_stats := airline_popularity_stats self |}
      end
  end.
End ModelTrainer.

(** * ArtifactStore: [save_model] and [load_model] *)

(** The pickled dictionary. A field is [None] when the key is absent; the
    values of ['model'], ['model_type'] and ['price_stats'] may themselves
    be Python's [None]. The scaler is never used and carries no data. *)
Record ModelData := mkModelData {
  md_model : option (option Model);
  md_model_type : option (option string);
  md_feature_columns : option (list string);
  md_label_encoders : option (gmap string LabelEncoder);
  md_scaler : option unit;
  md_price_stats : option (option (gmap string float));
  md_route_popularity_stats : option (gmap string float);
  md_airline_popularity_stats : option (gmap string float)
}.

Definition save_model (self : FlightPricePredictor) : ModelData :=
  {| md_model := Some (best_model self);
     md_model_type := Some (model_type self);
     md_feature_columns := Some (feature_columns self);
     md_label_encoders := Some (label_encoders self);
     md_scaler := Some ();
     md_price_stats := Some (price_stats self);
     md_route_popularity_stats := Some (route_popularity_stats self);
     md_airline_popularity_stats := Some (airline_popularity_stats self) |}.

(** [model_data[key]] *)
Definition getitem {A} (key : string) (field : option A) : result A :=
  match field with
  | Some a => Ok a
  | None => Raise (KeyError key)
  end.

Definition default_route_popularity_stats : gmap string float :=
  <["mean" := of_Z 100]> (<["std" := of_Z 50]> ∅).
Definition default_airline_popularity_stats : gmap string float :=
  <["mean" := of_Z 50]> (<["std" := of_Z 25]> ∅).

Definition load_model (self : FlightPricePredictor) (model_data : ModelData)
  : result FlightPricePredictor :=
  match getitem "model" (md_model model_data) with
  | Raise e => Raise e
  | Ok m =>
  match getitem "model_type" (md_model_type model_data) with
  | Raise e => Raise e
  | Ok mt =>
  match getitem "feature_columns" (md_feature_columns model_data) with
  | Raise e => Raise e
  | Ok cols =>
  match getitem "label_encoders" (md_label_encoders model_data) with
  | Raise e => Raise e
  | Ok encs =>
  match getitem "scaler" (md_scaler model_data) with
  | Raise e => Raise e
  | Ok _ =>
      Ok {| csv_file := csv_file self;
            df := df self;
            derived := derived self;
            X := X self;
            y := y self;
            label_encoders := encs;
            best_model := m;
            model_type := mt;
            feature_columns := cols;
            results := results self;
            price_stats := default (Some ∅) (md_price_stats model_data);
            route_popularity_stats :=
              default default_route_popularity_stats
                      (md_route_popularity_stats model_data);
            airline_popularity_stats :=
              default default_airline_popularity_stats
                      (md_airline_popularity_stats model_data) |}
  end end end end end.

(** * Predictor: [predict_single_flight] *)

(** What [predict_single_flight] prints, in order. *)
Inductive output :=
  | PrintInputData (flight_data : gmap string string)
  | PrintWarning (v col : string)
  | PrintCreateFeature
  | PrintFeature (col : string) (v : cell)
  | PrintMissing (col : string)
  | PrintInputShape (columns : nat)
  | PrintInputValues (values : list cell)
  | PrintRawPrediction (p : float)
  | PrintClippedPrediction (p : float).

Global Instance exception_eq_dec : EqDecision exception.
Proof. solve_decision. Defined.
Global Instance result_eq_dec `{EqDecision A} : EqDecision (result A).
Proof. solve_decision. Defined.
Global Instance cell_eq_dec : EqDecision cell.
Proof. solve_decision. Defined.
Global Instance output_eq_dec : EqDecision output.
Proof. solve_decision. Defined.

(** Computations that print and may raise: the lines printed so far are
    kept when an exception leaves the function. *)
Definition M (A : Type) : Type := list output * result A.

Definition ret {A} (a : A) : M A := ([], Ok a).
Definition raise {A} (e : exception) : M A := ([], Raise e).
Definition print (o : output) : M () := ([o], Ok ()).
Definition lift {A} (r : result A) : M A := ([], r).
Definition bind {A B} (m : M A) (k : A → M B) : M B :=
  match m with
  | (out, Ok a) => let '(out', r) := k a in ((out ++ out')%list, r)
  | (out, Raise e) => (out, Raise e)
  end.

Notation "'do' x <- m ; k" := (bind m (λ x, k))
  (at level 10, x name, m at level 100, k at level 200, only parsing).
Notation "m ;; k" := (bind m (λ _, k))
  (at level 100, k at level 200, right associativity, only parsing).

Fixpoint for_each {A} (l : list A) (body : A → M ()) : M () :=
  match l with
  | [] => ret ()
  | x :: l' => body x ;; for_each l' body
  end.

Module Inference.
(** The helpers nested in [predict_single_flight]. *)
Definition categorize_advance_booking (days : option Z) : Z :=
  match days with
  | Some d =>
      if d <? 7 then 0
      else if d <? 30 then 1
      else if d <? 90 then 2
      else 3
  | None => 3
  end.

Definition time_to_minutes (time_str : string) : Z :=
  match split ":" time_str with
  | [h; m] =>
      match py_int h, py_int m with
      | Some hour, Some minute => hour * 60 + minute
      | _, _ => 0
      end
  | _ => 0
  end.

Definition categorize_time_of_day (minutes : Z) : Z :=
  let hour := minutes / 60 in
  if (6 <=? hour) && (hour <? 12) then 0
  else if (12 <=? hour) && (hour <? 18) then 1
  else if (18 <=? hour) && (hour <? 22) then 2
  else 3.
End Inference.

Definition MIN_PRICE_FLOOR : float := of_Z 100000.
Definition MAX_PRICE_CEILING : float := of_Z 50000000.

(** [d[key]] on a dictionary or on the columns of a frame. *)
Definition lookup_or_raise {V} (key : string) (d : gmap string V) : M V :=
  match d !! key with
  | Some v => ret v
  | None => raise (KeyError key)
  end.

(** [Series.fillna(0)] on one cell. *)
Definition fillna0 (c : cell) : cell :=
  match c with
  | CNum None => CNum (of_Z 0)
  | CNaT => CNum (of_Z 0)
  | _ => c
  end.

(** The timestamp of a cell read through the [.dt] accessor, NaT included. *)
Definition timestamp_of (c : cell) : option Timestamp :=
  match c with
  | CTime t => Some t
  | _ => None
  end.

(** The text of a cell, for the cells built from the request. *)
Definition text_of (c : cell) : string :=
  match c with
  | CStr s => s
  | _ => "nan"
  end.

Section Predictor.
Variable to_datetime : string → parse_result.

(** [pd.to_datetime(column)] on the one cell of a text column. *)
Definition to_datetime_strict (s : string) : M cell :=
  match to_datetime s with
  | Parsed t => ret (CTime t)
  | NaT => ret CNaT
  | ParseError => raise (ValueError "Unknown datetime string format")
  end.

(** The [try] block of the loop over [categorical_cols]. *)
Definition encode_column (le : LabelEncoder) (col v : string) : M Z :=
  match LabelEncoder.transform1 le v with
  | Ok code => ret (Z.of_nat code)
  | Raise (ValueError _) =>
      match classes_ le with
      | Some (_ :: _) => print (PrintWarning v col) ;; ret 0
      | _ => ret 0
      end
  | Raise e => raise e
  end.

(** Lines 359-412: the frame of the request with the calendar, clock
    and popularity columns. *)
Definition base_columns (self : FlightPricePredictor)
    (flight_data : gmap string string) : M (gmap string cell) :=
  let df_input : gmap string cell := CStr <$> flight_data in
  do c <- lookup_or_raise "create_at" flight_data;
  do create_at <- to_datetime_strict c;
  let df_input := <["create_at" := create_at]> df_input in
  do f <- lookup_or_raise "flight_date" flight_data;
  do flight_date <- to_datetime_strict f;
  let df_input := <["flight_date" := flight_date]> df_input in
  let create_at := timestamp_of create_at in
  let flight_date := timestamp_of flight_date in
  let create_day_of_week := dt.dayofweek <$> create_at in
  let flight_day_of_week := dt.dayofweek <$> flight_date in
  let days_in_advance := t2 ← flight_date; t1 ← create_at; Some (dt.days t2 t1) in
  let is_weekend d := flag (default false ((λ x, 5 <=? x) <$> d)) in
  let df_input := <["create_hour" := CNum (Qc_of_Z <$> (dt.hour <$> create_at))]> df_input in
  let df_input := <["create_day_of_week" := CNum (Qc_of_Z <$> create_day_of_week)]> df_input in
  let df_input := <["create_month" := CNum (Qc_of_Z <$> (dt.month <$> create_at))]> df_input in
  let df_input := <["flight_month" := CNum (Qc_of_Z <$> (dt.month <$> flight_date))]> df_input in
  let df_input := <["flight_day_of_week" := CNum (Qc_of_Z <$> flight_day_of_week)]> df_input in
  let df_input := <["days_in_advance" := CNum (Qc_of_Z <$> days_in_advance)]> df_input in
  let df_input := <["is_weekend_booking" := CNum (of_Z (is_weekend create_day_of_week))]> df_input in
  let df_input := <["is_weekend_flight" := CNum (of_Z (is_weekend flight_day_of_week))]> df_input in
  let df_input :=
    <["booking_category" :=
        CNum (of_Z (Inference.categorize_advance_booking days_in_advance))]> df_input in
  do departure_time <- lookup_or_raise "departure_time" flight_data;
  let departure_minutes := Inference.time_to_minutes departure_time in
  let df_input := <["departure_minutes" := CNum (of_Z departure_minutes)]> df_input in
  do arrival_time <- lookup_or_raise "arrival_time" flight_data;
  let arrival_minutes := Inference.time_to_minutes arrival_time in
  let df_input := <["arrival_minutes" := CNum (of_Z arrival_minutes)]> df_input in
  let flight_duration := arrival_minutes - departure_minutes in
  let flight_duration :=
    if flight_duration <? 0 then flight_duration + 24 * 60 else flight_duration in
  let df_input := <["flight_duration" := CNum (of_Z flight_duration)]> df_input in
  let df_input :=
    <["departure_time_category" :=
        CNum (of_Z (Inference.categorize_time_of_day departure_minutes))]> df_input in
  do route_mean <- lookup_or_raise "mean" (route_popularity_stats self);
  let df_input := <["route_popularity" := CNum route_mean]> df_input in
  do flight_number <- lookup_or_raise "flight_number" flight_data;
  let df_input := <["airline" := CStr (prefix2 flight_number)]> df_input in
  do airline_mean <- lookup_or_raise "mean" (airline_popularity_stats self);
  let df_input := <["airline_popularity" := CNum airline_mean]> df_input in
  ret df_input.

(** Lines 416-426: one pass of the loop over [categorical_cols]. *)
Definition encode_categorical (self : FlightPricePredictor)
    (df_input : gmap string cell) (col : string) : M (gmap string cell) :=
  match df_input !! col, label_encoders self !! col with
  | Some c, Some le =>
      do code <- encode_column le col (text_of c);
      ret (<[col +:+ "_encoded" := CNum (of_Z code)]> df_input)
  | _, _ => ret df_input
  end.

Fixpoint encode_categoricals (self : FlightPricePredictor)
    (df_input : gmap string cell) (cols : list string) : M (gmap string cell) :=
  match cols with
  | [] => ret df_input
  | col :: cols' =>
      do df_input <- encode_categorical self df_input col;
      encode_categoricals self df_input cols'
  end.

(** [df_input[self.feature_columns].fillna(0)]: selecting a column the
    frame does not have raises [KeyError] (reported here with the first
    such column). *)
Fixpoint select_columns (df_input : gmap string cell) (cols : list string)
  : M (list cell) :=
  match cols with
  | [] => ret []
  | col :: cols' =>
      do c <- lookup_or_raise col df_input;
      do rest <- select_columns df_input cols';
      ret (fillna0 c :: rest)
  end.

(** Lines 443-447: the clipping step. *)
Definition clip_prediction (self : FlightPricePredictor) (prediction : float)
  : M float :=
  match price_stats self with
  | Some stats =>
      if decide (stats = ∅) then ret prediction
      else
        do lo <- lookup_or_raise "min" stats;
        let min_price := py_max lo MIN_PRICE_FLOOR in
        do hi <- lookup_or_raise "max" stats;
        let max_price := py_min hi MAX_PRICE_CEILING in
        let prediction := np_clip prediction min_price max_price in
        print (PrintClippedPrediction prediction) ;;
        ret prediction
  | None => ret prediction
  end.

(** Lines 357-441: from the request to the raw output of the model. *)
Definition raw_prediction (self : FlightPricePredictor) (best_model : Model)
    (flight_data : gmap string string) : M float :=
  print (PrintInputData flight_data) ;;
  do df_input <- base_columns self flight_data;
  do df_input <- encode_categoricals self df_input categorical_cols;
  print PrintCreateFeature ;;
  for_each (feature_columns self) (λ col,
    match df_input !! col with
    | Some c => print (PrintFeature col c)
    | None => print (PrintMissing col)
    end) ;;
  do X_input <- select_columns df_input (feature_columns self);
  print (PrintInputShape (length X_input)) ;;
  print (PrintInputValues X_input) ;;
  do prediction <- lift (predict best_model X_input);
  print (PrintRawPrediction prediction) ;;
  ret prediction.

Definition predict_single_flight (self : FlightPricePredictor)
    (flight_data : gmap string string) : M float :=
  match best_model self with
  | None => raise (ValueError "? model đâu ??")
  | Some best_model =>
      do prediction <- raw_prediction self best_model flight_data;
      clip_prediction self prediction
  end.
End Predictor.

(** * A concrete instance of the parameters, to run the model

    [iso_to_datetime] reads the two spellings used in the repository,
    [YYYY-MM-DD HH:MM:SS] and [YYYY-MM-DDTHH:MM:SS] with an optional
    fraction of a second; on these [pd.to_datetime] answers the same
    timestamp. The empty string and the null spellings answer NaT. Other
    text is rejected, which is what pandas does with text that holds no
    date. *)

Fixpoint take_number (n : nat) (acc : Z) (s : string) : option (Z * string) :=
  match n with
  | O => Some (acc, s)
  | S n' =>
      match s with
      | String c s' =>
          match digit_of c with
          | Some d => take_number n' (10 * acc + d) s'
          | None => None
          end
      | EmptyString => None
      end
  end.

Definition take_char (c : ascii) (s : string) : option string :=
  match s with
  | String c' s' => if decide (c = c') then Some s' else None
  | EmptyString => None
  end.

Definition is_leap (y : Z) : bool :=
  ((y mod 4 =? 0) && negb (y mod 100 =? 0)) || (y mod 400 =? 0).

Definition days_in_month (y m : Z) : Z :=
  if m =? 2 then (if is_leap y then 29 else 28)
  else if (m =? 4) || (m =? 6) || (m =? 9) || (m =? 11) then 30
  else 31.

Fixpoint fraction_ns (digits : nat) (acc : Z) (s : string) : option Z :=
  match s with
  | EmptyString => Some (acc * 10 ^ Z.of_nat digits)
  | String c s' =>
      match digits, digit_of c with
      | S digits', Some d => fraction_ns digits' (10 * acc + d) s'
      | _, _ => None
      end
  end.

Definition iso_fields (s : string) : option Timestamp :=
  '(y, s) ← take_number 4 0 s;
  s ← take_char "-" s;
  '(m, s) ← take_number 2 0 s;
  s ← take_char "-" s;
  '(d, s) ← take_number 2 0 s;
  s ← match take_char " " s with Some s' => Some s' | None => take_char "T" s end;
  '(hh, s) ← take_number 2 0 s;
  s ← take_char ":" s;
  '(mm, s) ← take_number 2 0 s;
  s ← take_char ":" s;
  '(ss, s) ← take_number 2 0 s;
  ns ← match s with
       | EmptyString => Some 0
       | String "." (String c s') => fraction_ns 9 0 (String c s')
       | _ => None
       end;
  if (1 <=? m) && (m <=? 12) && (1 <=? d) && (d <=? days_in_month y m)
     && (hh <? 24) && (mm <? 60) && (ss <? 60)
  then Some {| value := value (mk_timestamp y m d hh mm ss) + ns |}
  else None.

Definition iso_to_datetime (s : string) : parse_result :=
  if decide (s = "") then NaT
  else if decide (s = "NaT") then NaT
  else if decide (s = "nan") then NaT
  else match iso_fields s with
       | Some t => Parsed t
       | None => ParseError
       end.

(** The standard deviation is only stored, never read: the instance used to
    run the model answers NaN. *)
Definition no_std (s : list float) : float := NaN.


(** ** Fixtures: the requests of [demo_predictions] and a small bundle *)

Definition flight1 : gmap string string :=
  list_to_map
    [("flight_number", "VJ1198"); ("departure_airport", "SGN");
     ("arrival_airport", "HAN"); ("departure_time", "08:00");
     ("arrival_time", "10:15"); ("classes", "Eco");
     ("type_of_plane", "Airbus A321");
     ("create_at", "2024-01-15 10:30:00");
     ("flight_date", "2024-01-20T08:00:00")].

Definition flight2 : gmap string string :=
  list_to_map
    [("flight_number", "VJ124"); ("departure_airport", "SGN");
     ("arrival_airport", "HAN"); ("departure_time", "14:30");
     ("arrival_time", "16:45"); ("classes", "Eco");
     ("type_of_plane", "Airbus A320");
     ("create_at", "2024-01-01 09:00:00");
     ("flight_date", "2024-02-15T14:30:00")].

Definition constant_model (p : Z) : Model := mkModel (λ _, Ok (of_Z p)).

Definition demo_encoders : gmap string LabelEncoder :=
  list_to_map
    [("flight_number", LabelEncoder.fit ["VJ124"; "VJ196"; "VJ1198"]);
     ("departure_airport", LabelEncoder.fit ["SGN"; "HAN"]);
     ("arrival_airport", LabelEncoder.fit ["HAN"; "SGN"]);
     ("classes", LabelEncoder.fit ["Eco"; "Business"]);
     ("type_of_plane", LabelEncoder.fit ["Airbus A320"]);
     ("airline", LabelEncoder.fit ["VJ"; "VN"])].

(** The price statistics of a training table with the two fares [lo] and
    [hi]. *)
Definition price_stats_of (lo hi : Z) : gmap string float :=
  let prices := [of_Z lo; of_Z hi] in
  make_price_stats no_std (quantile prices q25) (quantile prices q75) prices.

Definition demo_bundle (m : Model) (stats : option (gmap string float))
  : ModelData :=
  {| md_model := Some (Some m);
     md_model_type := Some (Some "Random Forest");
     md_feature_columns := Some all_feature_columns;
     md_label_encoders := Some demo_encoders;
     md_scaler := Some ();
     md_price_stats := Some <$> stats;
     md_route_popularity_stats := None;
     md_airline_popularity_stats := None |}.

(** * Definitions used in the statements *)

(** The advance in days of two cells read through [.dt]. *)
Definition days_between (flight_date create_at : cell) : option Z :=
  t2 ← timestamp_of flight_date; t1 ← timestamp_of create_at; Some (dt.days t2 t1).

(** The duration column of a request. *)
Definition duration_of (departure_time arrival_time : string) : Z :=
  let d := Inference.time_to_minutes arrival_time - Inference.time_to_minutes departure_time in
  if d <? 0 then d + 24 * 60 else d.

(** The frame [base_columns] answers, as a function of what it read. *)
Definition base_frame (flight_data : gmap string string)
    (create_at flight_date : cell) (departure_time arrival_time : string)
    (route_mean : float) (flight_number : string) (airline_mean : float)
  : gmap string cell :=
  let is_weekend c := flag (default false ((λ x, 5 <=? x) <$> (dt.dayofweek <$> timestamp_of c))) in
  <["airline_popularity" := CNum airline_mean]> (
  <["airline" := CStr (prefix2 flight_number)]> (
  <["route_popularity" := CNum route_mean]> (
  <["departure_time_category" :=
      CNum (of_Z (Inference.categorize_time_of_day
                    (Inference.time_to_minutes departure_time)))]> (
  <["flight_duration" := CNum (of_Z (duration_of departure_time arrival_time))]> (
  <["arrival_minutes" := CNum (of_Z (Inference.time_to_minutes arrival_time))]> (
  <["departure_minutes" := CNum (of_Z (Inference.time_to_minutes departure_time))]> (
  <["booking_category" :=
      CNum (of_Z (Inference.categorize_advance_booking
                    (days_between flight_date create_at)))]> (
  <["is_weekend_flight" := CNum (of_Z (is_weekend flight_date))]> (
  <["is_weekend_booking" := CNum (of_Z (is_weekend create_at))]> (
  <["days_in_advance" := CNum (Qc_of_Z <$> days_between flight_date create_at)]> (
  <["flight_day_of_week" := CNum (Qc_of_Z <$> (dt.dayofweek <$> timestamp_of flight_date))]> (
  <["flight_month" := CNum (Qc_of_Z <$> (dt.month <$> timestamp_of flight_date))]> (
  <["create_month" := CNum (Qc_of_Z <$> (dt.month <$> timestamp_of create_at))]> (
  <["create_day_of_week" := CNum (Qc_of_Z <$> (dt.dayofweek <$> timestamp_of create_at))]> (
  <["create_hour" := CNum (Qc_of_Z <$> (dt.hour <$> timestamp_of create_at))]> (
  <["flight_date" := flight_date]> (
  <["create_at" := create_at]> (CStr <$> flight_data)))))))))))))))))).

Definition encoded_name (col : string) : string := col +:+ "_encoded".

(** Every feature column can be selected once the encoding loop has run:
    it is a column of the frame of the request, or the encoded column of a
    categorical column that the request has and the bundle can encode. *)
Definition features_derivable (self : FlightPricePredictor)
    (df0 : gmap string cell) : Prop :=
Forall (λ f,
          is_Some (df0 !! f)
          ∨ Exists (λ col, f = encoded_name col
                           ∧ is_Some (df0 !! col)
                           ∧ is_Some (label_encoders self !! col))
                   categorical_cols)
       (feature_columns self).

(** The model answers on every row that has one cell per feature column. *)
Definition model_accepts (self : FlightPricePredictor) (m : Model) : Prop :=
∀ X_input, length X_input = length (feature_columns self) →
  ∃ raw, predict m X_input = Ok raw.

(** The price statistics are absent, empty, or hold both bounds. *)
Definition price_stats_usable (self : FlightPricePredictor) : Prop :=
match price_stats self with
| Some stats => stats = ∅ ∨ (is_Some (stats !! "min") ∧ is_Some (stats !! "max"))
| None => True
end.

(** The names of the candidates with their cross-validated error: all that
    the selection reads. *)
Definition cv_table (results : list (string * ModelResult)) : list (string * Qc) :=
(λ kr, (kr.1, cv_mae_mean kr.2)) <$> results.

(** The text of a categorical column of the table. *)
Definition categorical_column (rows : list CleanRow) (col : string)
  : option (list string) :=
fmap astype_str <$> mapM (categorical_cell col) rows.

Section CleanerInSpecOrder.
Variable to_datetime : string → parse_result.
Variable series_std : list float → float.

(** What the three filters that follow the outlier removal make of one
    row: both timestamps parsed, the aircraft type trimmed and not empty. *)
Definition clean_row (r : RawRow) : option CleanRow :=
t1 ← to_datetime_coerce to_datetime (create_at r);
t2 ← parse_flight_date to_datetime (flight_date r);
p ← type_of_plane r;
if decide (strip p = "") then None
else Some (mkRow t1 (flight_number r) (Some (strip p)) (departure_airport r)
                 (arrival_airport r) t2 (departure_time r) (arrival_time r)
                 (classes r) (price r)).

(** The DataCleaner in the order of the specification (section 4.1):
    duplicates, creation timestamp, flight date, aircraft type, and only
    then the price statistics, on the surviving rows, and the outliers. *)
Definition cleaner_in_spec_order (table : list RawRow)
  : list CleanRow * gmap string float :=
let surviving := omap clean_row (drop_duplicates table) in
let Q1 := quantile (price <$> surviving) q25 in
let Q3 := quantile (price <$> surviving) q75 in
let IQR := Float.sub Q3 Q1 in
let lower_bound := Float.sub Q1 (Float.mul one_and_a_half IQR) in
let upper_bound := Float.add Q3 (Float.mul one_and_a_half IQR) in
(filter (λ r, within lower_bound upper_bound (price r)) surviving,
 make_price_stats series_std Q1 Q3 (price <$> surviving)).
End CleanerInSpecOrder.

(** ** More fixtures: loaded bundles and small tables *)

(** The object after [load_model] on a bundle ([__init__] when the bundle
    cannot be loaded). *)
Definition loaded (model_data : ModelData) : FlightPricePredictor :=
match load_model (__init__ None) model_data with
| Ok self => self
| Raise _ => __init__ None
end.

(** A bundle trained on fares between 500 000 and 3 000 000. *)
Definition usual_predictor : FlightPricePredictor :=
loaded (demo_bundle (constant_model 60000) (Some (price_stats_of 500000 3000000))).

(** A bundle whose training fares all lie under the fixed floor. *)
Definition cheap_predictor : FlightPricePredictor :=
loaded (demo_bundle (constant_model 60000) (Some (price_stats_of 50000 80000))).

(** An older bundle, saved without price statistics. *)
Definition old_predictor : FlightPricePredictor :=
loaded (demo_bundle (constant_model 60000) None).

(** A bundle whose encoder of the fare class was fitted on an empty
    column. *)
Definition blank_predictor : FlightPricePredictor :=
loaded {| md_model := Some (Some (constant_model 60000));
          md_model_type := Some (Some "Random Forest");
          md_feature_columns := Some all_feature_columns;
          md_label_encoders :=
            Some (<["classes" := LabelEncoder.fit []]> demo_encoders);
          md_scaler := Some ();
          md_price_stats := None;
          md_route_popularity_stats := None;
          md_airline_popularity_stats := None |}.

(** The frame of the first request of [demo_predictions]. *)
Definition flight1_frame : gmap string cell :=
match (base_columns iso_to_datetime usual_predictor flight1).2 with
| Ok d => d
| Raise _ => ∅
end.

(** The second request of [demo_predictions], without its fare class. *)
Definition request_without_classes : gmap string string :=
delete "classes" flight2.

Definition raw_row (create_at flight_number type_of_plane departure_airport
    arrival_airport flight_date departure_time arrival_time classes : string)
    (price : Z) : RawRow :=
mkRow (Some create_at) (Some flight_number) (Some type_of_plane)
      (Some departure_airport) (Some arrival_airport) (Some flight_date)
      (Some departure_time) (Some arrival_time) (Some classes) (of_Z price).

(** Four listings; the last one lands after midnight. *)
Definition demo_csv : list RawRow :=
[ raw_row "2024-01-15 10:30:00" "VJ1198" "Airbus A321" "SGN" "HAN"
          "2024-01-20T08:00:00" "08:00" "10:15" "Eco" 1500000;
  raw_row "2024-01-01 09:00:00" "VJ124" "Airbus A320" "SGN" "HAN"
          "2024-02-15T14:30:00" "14:30" "16:45" "Eco" 1200000;
  raw_row "2024-01-18 15:20:00" "VJ196" "Airbus A320" "SGN" "HAN"
          "2024-01-25T19:00:00" "19:00" "21:15" "Business" 3100000;
  raw_row "2024-01-18 15:20:00" "VN250" " Boeing 787 " "HAN" "SGN"
          "2024-01-25T23:30:00" "23:30" "01:00" "Eco" 1800000 ].

(** One listing whose arrival is written [24:00]. *)
Definition midnight_csv : list RawRow :=
[ raw_row "2024-01-15 10:30:00" "VJ1198" "Airbus A321" "SGN" "HAN"
          "2024-01-20T00:00:00" "00:00" "24:00" "Eco" 1500000 ].

(** Three listings and a fourth whose creation timestamp is not a date. *)
Definition stale_csv : list RawRow :=
[ raw_row "2024-01-15 10:30:00" "VJ1198" "Airbus A321" "SGN" "HAN"
          "2024-01-20T08:00:00" "08:00" "10:15" "Eco" 1000000;
  raw_row "2024-01-01 09:00:00" "VJ124" "Airbus A320" "SGN" "HAN"
          "2024-02-15T14:30:00" "14:30" "16:45" "Eco" 2000000;
  raw_row "2024-01-18 15:20:00" "VJ196" "Airbus A320" "SGN" "HAN"
          "2024-01-25T19:00:00" "19:00" "21:15" "Business" 3000000;
  raw_row "unknown" "VN250" "Boeing 787" "HAN" "SGN"
          "2024-01-25T23:30:00" "23:30" "01:00" "Eco" 4000000 ].

(** The object after [load_and_preprocess_data] on a table, and after
    [feature_engineering] on top. *)
Definition cleaned (csv : list RawRow) : FlightPricePredictor :=
match load_and_preprocess_data iso_to_datetime no_std (__init__ (Some csv)) with
| Ok self => self
| Raise _ => __init__ None
end.

Definition engineered (csv : list RawRow) : FlightPricePredictor :=
match feature_engineering no_std (cleaned csv) with
| Ok self => self
| Raise _ => __init__ None
end.

(** * More of [main_model.py]: the report, the pipeline and the script *)

(** ** [demo_predictions] *)

Definition flight3 : gmap string string :=
  list_to_map
    [("flight_number", "VJ196"); ("departure_airport", "SGN");
     ("arrival_airport", "HAN"); ("departure_time", "19:00");
     ("arrival_time", "21:15"); ("classes", "Business");
     ("type_of_plane", "Airbus A320");
     ("create_at", "2024-01-18 15:20:00");
     ("flight_date", "2024-01-25T19:00:00")].

Definition demo_flights : list (string * gmap string string) :=
  [("Economy SGN-HAN", flight1); ("book vé sớm", flight2);
   ("Business class", flight3)].

(** What [demo_predictions] prints: the lines of [predict_single_flight],
    then the seven lines of the flight. *)
Inductive demo_line :=
  | Predicted (o : output)
  | PrintDemoName (name : string)
  | PrintDemoRoute (departure_airport arrival_airport : string)
  | PrintDemoTime (departure_time arrival_time : string)
  | PrintDemoClass (classes : string)
  | PrintDemoAircraft (type_of_plane : string)
  | PrintAdvanceBooking (advance_days : option Z)
  | PrintDemoPrice (price : float).

(** Computations that print demo lines and may raise. *)
Definition D (A : Type) : Type := list demo_line * result A.

Definition dbind {A B} (m : D A) (k : A → D B) : D B :=
  match m with
  | (out, Ok a) => let '(out', r) := k a in ((out ++ out')%list, r)
  | (out, Raise e) => (out, Raise e)
  end.

(** [flight[key]] *)
Definition demo_key (flight : gmap string string) (key : string) : D string :=
  match flight !! key with
  | Some v => ([], Ok v)
  | None => ([], Raise (KeyError key))
  end.

Definition demo_print (l : demo_line) : D () := ([l], Ok ()).

Section Demo.
Variable to_datetime : string → parse_result.

(** [pd.to_datetime] on one string: a timestamp, NaT ([None]), or a
    [ValueError]. *)
Definition scalar_to_datetime (s : string) : D (option Timestamp) :=
  match to_datetime s with
  | Parsed t => ([], Ok (Some t))
  | NaT => ([], Ok None)
  | ParseError => ([], Raise (ValueError "Unknown datetime string format"))
  end.

(** The body of the loop of [demo_predictions]. The [days] of a
    difference with NaT is NaN. *)
Definition demo_flight (self : FlightPricePredictor) (name : string)
    (flight : gmap string string) : D () :=
  dbind (let '(out, r) := predict_single_flight to_datetime self flight in
         (Predicted <$> out, r)) (λ price,
  dbind (demo_key flight "flight_date") (λ f,
  dbind (scalar_to_datetime f) (λ flight_date,
  dbind (demo_key flight "create_at") (λ c,
  dbind (scalar_to_datetime c) (λ create_at,
  let advance_days := t2 ← flight_date; t1 ← create_at; Some (dt.days t2 t1) in
  dbind (demo_print (PrintDemoName name)) (λ _,
  dbind (demo_key flight "departure_airport") (λ departure_airport,
  dbind (demo_key flight "arrival_airport") (λ arrival_airport,
  dbind (demo_print (PrintDemoRoute departure_airport arrival_airport)) (λ _,
  dbind (demo_key flight "departure_time") (λ departure_time,
  dbind (demo_key flight "arrival_time") (λ arrival_time,
  dbind (demo_print (PrintDemoTime departure_time arrival_time)) (λ _,
  dbind (demo_key flight "classes") (λ classes,
  dbind (demo_print (PrintDemoClass classes)) (λ _,
  dbind (demo_key flight "type_of_plane") (λ type_of_plane,
  dbind (demo_print (PrintDemoAircraft type_of_plane)) (λ _,
  dbind (demo_print (PrintAdvanceBooking advance_days)) (λ _,
  demo_print (PrintDemoPrice price)))))))))))))))))).

Fixpoint demo_loop (self : FlightPricePredictor)
    (flights : list (string * gmap string string)) : D () :=
  match flights with
  | [] => ([], Ok ())
  | (name, flight) :: flights' =>
      dbind (demo_flight self name flight) (λ _, demo_loop self flights')
  end.

Definition demo_predictions (self : FlightPricePredictor) : D () :=
  demo_loop self demo_flights.
End Demo.

(** ** [analyze_data_distribution] *)

(** The lines [analyze_data_distribution] prints that carry a value. *)
Inductive report_line :=
  | PrintDataWhere
  | PrintTotalRecords (n : nat)
  | PrintPriceRange (lowest highest : float)
  | PrintMeanPrice (mean : float)
  | PrintMedianPrice (median : float).

Definition q50 : Qc := Q2Qc (1 # 2).

Definition analyze_data_distribution (self : FlightPricePredictor)
  : list report_line :=
  match df self with
  | None => [PrintDataWhere]
  | Some rows =>
      let prices := price <$> rows in
      [PrintTotalRecords (length rows);
       PrintPriceRange (series_min prices) (series_max prices);
       PrintMeanPrice (series_mean prices);
       PrintMedianPrice (quantile prices q50)]
  end.

(** ** [run_complete_pipeline] *)

Section Pipeline.
Let matrix : Type := list (list float).
Variable to_datetime : string → parse_result.
Variable series_std : list float → float.
Variable train_test_split : matrix → list float → matrix * matrix * list float * list float.
Variable cross_val_score : string → matrix → list float → list Qc.
Variable fit : string → matrix → list float → Model.
Variable mean_absolute_error : Model → matrix → list float → Qc.
Variable root_mean_squared_error : Model → matrix → list float → Qc.
Variable r2_score : Model → matrix → list float → Qc.
Variable np_std : list Qc → Qc.

(** The steps in their order; an exception of a step leaves the function.
    The result holds the object as the run leaves it, the dictionary that
    [save_model] pickles, and the pair the method returns. *)
Definition run_complete_pipeline (self : FlightPricePredictor)
  : list report_line
    * result (FlightPricePredictor * ModelData
              * (option Model * list (string * ModelResult))) :=
  match load_and_preprocess_data to_datetime series_std self with
  | Raise e => ([], Raise e)
  | Ok self =>
      let report := analyze_data_distribution self in
      match feature_engineering series_std self with
      | Raise e => (report, Raise e)
      | Ok self =>
          match train_and_evaluate_models train_test_split cross_val_score fit
                  mean_absolute_error root_mean_squared_error r2_score np_std
                  self with
          | Raise e => (report, Raise e)
          | Ok self =>
              (report, Ok (self, save_model self, (best_model self, results self)))
          end
      end
  end.
End Pipeline.

(** ** [test_saved_model] *)

Definition test_flight : gmap string string :=
  list_to_map
    [("flight_number", "VJ1126"); ("departure_airport", "SGN");
     ("arrival_airport", "HAN"); ("departure_time", "08:10");
     ("arrival_time", "10:20"); ("classes", "Eco");
     ("type_of_plane", "Airbus A320");
     ("create_at", "2025-06-23 22:13:00");
     ("flight_date", "2025-08-15T17:00:00.000")].

(** What [test_saved_model] prints: the lines of [predict_single_flight],
    then the lines of the [try] block or the line of the handler. *)
Inductive test_line :=
  | Predicting (o : output)
  | PrintTestFlight
  | PrintRoute (departure_airport arrival_airport : string)
  | PrintPredictedPrice (price : float)
  | PrintTestFailed (e : exception).

Section SavedModel.
Variable to_datetime : string → parse_result.

(** [model_data] is the content of the pickle file. [load_model] runs
    outside the [try] block; [except Exception] catches whatever
    [predict_single_flight] raises. *)
Definition test_saved_model (model_data : ModelData)
  : list test_line * result () :=
  let predictor := __init__ None in
  match load_model predictor model_data with
  | Raise e => ([], Raise e)
  | Ok predictor =>
      match predict_single_flight to_datetime predictor test_flight with
      | (out, Ok price) =>
          (((Predicting <$> out)
            ++ [PrintTestFlight;
                PrintRoute (default "" (test_flight !! "departure_airport"))
                           (default "" (test_flight !! "arrival_airport"));
                PrintPredictedPrice price])%list,
           Ok ())
      | (out, Raise e) =>
          (((Predicting <$> out) ++ [PrintTestFailed e])%list, Ok ())
      end
  end.
End SavedModel.

(** ** The script: [__main__] *)

Section Main.
Let matrix : Type := list (list float).
Variable to_datetime : string → parse_result.
Variable series_std : list float → float.
Variable train_test_split : matrix → list float → matrix * matrix * list float * list float.
Variable cross_val_score : string → matrix → list float → list Qc.
Variable fit : string → matrix → list float → Model.
Variable mean_absolute_error : Model → matrix → list float → Qc.
Variable root_mean_squared_error : Model → matrix → list float → Qc.
Variable r2_score : Model → matrix → list float → Qc.
Variable np_std : list Qc → Qc.

(** [csv] is the content of the file the script names. The pickle file
    that [test_saved_model] reads is the one the pipeline wrote. *)
Definition __main__ (csv : list RawRow)
  : list report_line * list test_line * result () :=
  let predictor := __init__ (Some csv) in
  match run_complete_pipeline to_datetime series_std train_test_split
          cross_val_score fit mean_absolute_error root_mean_squared_error
          r2_score np_std predictor with
  | (report, Raise e) => (report, [], Raise e)
  | (report, Ok (_, model_data, _)) =>
      let '(lines, r) := test_saved_model to_datetime model_data in
      (report, lines, r)
  end.
End Main.

(** ** More definitions used in the statements *)

(** The bounds of lines 55-59, as a function of the price column. *)
Definition price_fence (prices : list float) : float * float :=
  let Q1 := quantile prices q25 in
  let Q3 := quantile prices q75 in
  let IQR := Float.sub Q3 Q1 in
  (Float.sub Q1 (Float.mul one_and_a_half IQR),
   Float.add Q3 (Float.mul one_and_a_half IQR)).

(** The rows that lines 53 and 61-62 keep. *)
Definition inlier_rows (table : list RawRow) : list RawRow :=
  let df0 := drop_duplicates table in
  filter (λ r, within (price_fence (price <$> df0)).1 (price_fence (price <$> df0)).2 (price r))
         df0.

(** The feature columns that both paths compute from the two timestamps
    and the two clock times of a listing. *)
Definition clock_and_calendar_columns : list string :=
  ["create_hour"; "create_day_of_week"; "create_month";
   "flight_month"; "flight_day_of_week";
   "days_in_advance"; "departure_minutes"; "flight_duration";
   "is_weekend_booking"; "is_weekend_flight";
   "booking_category"; "departure_time_category"].

(** Two frames that hold the texts [v] and [c] in the column [col] and
    agree on every other column. *)
Definition twin_frames (col v c : string) (d1 d2 : gmap string cell) : Prop :=
  (∀ k, k ≠ col → d1 !! k = d2 !! k)
  ∧ d1 !! col = Some (CStr v) ∧ d2 !! col = Some (CStr c).

(** Two runs that raise the same exception, or answer twin frames. *)
Definition twin_runs (col v c : string) (x y : M (gmap string cell)) : Prop :=
  match x.2, y.2 with
  | Ok d1, Ok d2 => twin_frames col v c d1 d2
  | Raise e1, Raise e2 => e1 = e2
  | _, _ => False
  end.

(** The categorical columns a request supplies that no other column is
    derived from. *)
Definition plain_categorical_cols : list string :=
  ["departure_airport"; "arrival_airport"; "classes"; "type_of_plane"].

(** The keys of a request that [predict_single_flight] reads by
    subscript. *)
Definition required_keys : list string :=
  ["create_at"; "flight_date"; "departure_time"; "arrival_time";
   "flight_number"].

(** The first of the keys [load_model] reads by subscript that a pickled
    dictionary lacks. *)
Definition first_missing_key (model_data : ModelData) : option string :=
  if decide (md_model model_data = None) then Some "model"
  else if decide (md_model_type model_data = None) then Some "model_type"
  else if decide (md_feature_columns model_data = None) then Some "feature_columns"
  else if decide (md_label_encoders model_data = None) then Some "label_encoders"
  else if decide (md_scaler model_data = None) then Some "scaler"
  else None.

(** The keys of a request that carry a categorical column or are read by
    subscript. *)
Definition request_keys : list string :=
  ["departure_time"; "arrival_time"; "flight_number"; "departure_airport";
   "arrival_airport"; "classes"; "type_of_plane"].

(** ** More fixtures *)

Global Instance Qcle_transitive : Transitive Qcle.
Proof. intros x y z. apply Qcle_trans. Defined.

Global Instance parse_result_eq_dec : EqDecision parse_result.
Proof. solve_decision. Defined.
Global Instance FeatRow_eq_dec : EqDecision FeatRow.
Proof. solve_decision. Defined.
Global Instance report_line_eq_dec : EqDecision report_line.
Proof. solve_decision. Defined.
Global Instance test_line_eq_dec : EqDecision test_line.
Proof. solve_decision. Defined.
Global Instance demo_line_eq_dec : EqDecision demo_line.
Proof. solve_decision. Defined.

(** The first listing of [demo_csv], cleaned, and the table it is in. *)
Definition demo_row : CleanRow :=
  mkRow (mk_timestamp 2024 1 15 10 30 0) (Some "VJ1198") (Some "Airbus A321")
        (Some "SGN") (Some "HAN") (mk_timestamp 2024 1 20 8 0 0)
        (Some "08:00") (Some "10:15") (Some "Eco") (of_Z 1500000).

Definition demo_rows : list CleanRow := default [] (df (cleaned demo_csv)).

(** Its row in the table after [feature_engineering]. *)
Definition demo_feature_row : FeatRow :=
  derive demo_rows (label_encoders (engineered demo_csv)) demo_row.

(** Stand-ins for the scikit-learn calls, to run the training path: the
    split keeps every row on both sides, the cross-validated error is
    500 000 for every candidate but Gradient Boosting, at 480 000, every
    fit answers the same constant, and the other metrics are 0. *)
Definition demo_train_test_split (X : list (list float)) (y : list float)
  : list (list float) * list (list float) * list float * list float :=
  (X, X, y, y).

Definition demo_cross_val_score (name : string) (X : list (list float))
    (y : list float) : list Qc :=
  if decide (name = "Gradient Boosting") then [Qc_of_Z (-480000)]
  else [Qc_of_Z (-500000)].

(** The same, with the three candidates tied. *)
Definition tied_cross_val_score (name : string) (X : list (list float))
    (y : list float) : list Qc :=
  [Qc_of_Z (-500000)].

Definition demo_fit (name : string) (X : list (list float)) (y : list float)
  : Model :=
  constant_model 1500000.

Definition demo_metric (m : Model) (X : list (list float)) (y : list float)
  : Qc :=
  0%Qc.

Definition demo_np_std (l : list Qc) : Qc := 0%Qc.

(** The object after [train_and_evaluate_models] on top of [engineered],
    for a given cross-validation. *)
Definition trained
    (cross_val_score : string → list (list float) → list float → list Qc)
    (csv : list RawRow) : FlightPricePredictor :=
  match train_and_evaluate_models demo_train_test_split cross_val_score
          demo_fit demo_metric demo_metric demo_metric demo_np_std
          (engineered csv) with
  | Ok self => self
  | Raise _ => __init__ None
  end.

(** The first request of [demo_predictions] without its creation
    timestamp, and with a null one. *)
Definition request_without_create_at : gmap string string :=
  delete "create_at" flight1.

Definition request_with_null_create_at : gmap string string :=
  <["create_at" := "NaT"]> flight1.

(** The frame of a request on a bundle, when it derives. *)
Definition frame_of (self : FlightPricePredictor)
    (flight_data : gmap string string) : gmap string cell :=
  match (base_columns iso_to_datetime self flight_data).2 with
  | Ok d => d
  | Raise _ => ∅
  end.

(** ** Tactics *)

Ltac float_cases :=
  unfold np_clip, np_maximum, np_minimum, py_max, py_min,
         Float.gt, Float.ge, Float.lt, Float.le in *;
  simpl in *;
  repeat case_bool_decide; simplify_eq; try done;
  try (exfalso; unfold Qclt, Qcle in *; lra).

(** From the order on [Qc] to the order on [Q]. *)
Ltac Qc_to_Q :=
  unfold Qcle, Qclt, q25, q75 in *;
  cbn [this Qcplus Qcminus Qcmult Qcopp Q2Qc Qc_of_Z] in *;
  rewrite ?Qred_correct in *.

(** * Properties *)

(** ** The monad *)

Lemma bind_Ok {A B} (m : M A) (k : A → M B) out1 a out2 r :
  m = (out1, Ok a) → k a = (out2, r) → bind m k = ((out1 ++ out2)%list, r).
Proof. intros -> Hk. unfold bind. by rewrite Hk. Qed.

Lemma bind_Raise {A B} (m : M A) (k : A → M B) out e :
  m = (out, Raise e) → bind m k = (out, Raise e).
Proof. by intros ->. Qed.

Lemma bind_Ok_inv {A B} (m : M A) (k : A → M B) out b :
  bind m k = (out, Ok b) →
  ∃ out1 a out2, m = (out1, Ok a) ∧ k a = (out2, Ok b) ∧ out = (out1 ++ out2)%list.
Proof.
  destruct m as [out1 [a|e]]; simpl; [|done].
  destruct (k a) as [out2 r] eqn:Hk. intros [= <- ->]. by exists out1, a, out2.
Qed.

Lemma lookup_or_raise_Some {V} key (d : gmap string V) v :
  d !! key = Some v → lookup_or_raise key d = ret v.
Proof. unfold lookup_or_raise. by intros ->. Qed.

Lemma lookup_or_raise_None {V} key (d : gmap string V) :
  d !! key = None → lookup_or_raise key d = raise (KeyError key).
Proof. unfold lookup_or_raise. by intros ->. Qed.

(** ** Booking category *)

Lemma categorize_advance_booking_same days :
  Inference.categorize_advance_booking days
  = Training.categorize_advance_booking days.
Proof. reflexivity. Qed.

Lemma categorize_advance_booking_cases (d : Z) :
  (Training.categorize_advance_booking (Some d) = 0 ↔ d < 7)
  ∧ (Training.categorize_advance_booking (Some d) = 1 ↔ 7 ≤ d < 30)
  ∧ (Training.categorize_advance_booking (Some d) = 2 ↔ 30 ≤ d < 90)
  ∧ (Training.categorize_advance_booking (Some d) = 3 ↔ 90 ≤ d).
Proof.
  unfold Training.categorize_advance_booking.
  destruct (Z.ltb_spec d 7), (Z.ltb_spec d 30), (Z.ltb_spec d 90);
    repeat split; intros; try lia; try discriminate.
Qed.

Lemma bind_ret_l {A B} (a : A) (k : A → M B) : bind (ret a) k = k a.
Proof. unfold bind, ret. by destruct (k a). Qed.

Lemma bind_raise_l {A B} e (k : A → M B) : bind (raise e) k = raise e.
Proof. reflexivity. Qed.

Section PredictorFacts.
Variable to_datetime : string → parse_result.

Lemma base_columns_unfold self flight_data :
  base_columns to_datetime self flight_data =
    (do c <- lookup_or_raise "create_at" flight_data;
     do create_at <- to_datetime_strict to_datetime c;
     do f <- lookup_or_raise "flight_date" flight_data;
     do flight_date <- to_datetime_strict to_datetime f;
     do departure_time <- lookup_or_raise "departure_time" flight_data;
     do arrival_time <- lookup_or_raise "arrival_time" flight_data;
     do route_mean <- lookup_or_raise "mean" (route_popularity_stats self);
     do flight_number <- lookup_or_raise "flight_number" flight_data;
     do airline_mean <- lookup_or_raise "mean" (airline_popularity_stats self);
     ret (base_frame flight_data create_at flight_date departure_time
                     arrival_time route_mean flight_number airline_mean)).
Proof. reflexivity. Qed.

Lemma to_datetime_strict_Ok s out c :
  to_datetime_strict to_datetime s = (out, Ok c) →
  out = [] ∧ to_datetime s ≠ ParseError
  ∧ (c = CNaT ∨ ∃ t, c = CTime t).
Proof.
  unfold to_datetime_strict. destruct (to_datetime s); intros [= <- <-]; eauto.
  all: split; [done|split; [done|eauto]].
Qed.

Lemma lookup_or_raise_Ok {V} key (d : gmap string V) out v :
  lookup_or_raise key d = (out, Ok v) → out = [] ∧ d !! key = Some v.
Proof. unfold lookup_or_raise. destruct (d !! key); by intros [= <- <-]. Qed.

(** What a successful run of [base_columns] read, and what it built. *)
Lemma base_columns_Ok self flight_data out df_input :
  base_columns to_datetime self flight_data = (out, Ok df_input) →
  ∃ c create_at f flight_date departure_time arrival_time route_mean
    flight_number airline_mean,
    flight_data !! "create_at" = Some c
    ∧ to_datetime_strict to_datetime c = ([], Ok create_at)
    ∧ flight_data !! "flight_date" = Some f
    ∧ to_datetime_strict to_datetime f = ([], Ok flight_date)
    ∧ flight_data !! "departure_time" = Some departure_time
    ∧ flight_data !! "arrival_time" = Some arrival_time
    ∧ route_popularity_stats self !! "mean" = Some route_mean
    ∧ flight_data !! "flight_number" = Some flight_number
    ∧ airline_popularity_stats self !! "mean" = Some airline_mean
    ∧ out = []
    ∧ df_input = base_frame flight_data create_at flight_date departure_time
                   arrival_time route_mean flight_number airline_mean.
Proof.
  rewrite base_columns_unfold. intros H.
  repeat match type of H with
  | bind _ _ = _ =>
      let E := fresh "E" in
      apply bind_Ok_inv in H as (? & ? & ? & E & H & ->);
      first [apply lookup_or_raise_Ok in E as [-> E]
            |pose proof E as E'; apply to_datetime_strict_Ok in E' as [-> _] ]
  end.
  injection H as <- <-.
  do 9 eexists. repeat split; eauto.
Qed.
End PredictorFacts.

(** ** Label encoding at inference *)

Lemma index_of_Some v cs i :
  LabelEncoder.index_of v cs = Some i → cs !! i = Some v.
Proof.
  unfold LabelEncoder.index_of. intros H.
  apply fmap_Some in H as ([j x] & H & ->).
  apply list_find_Some in H as (H & -> & _). done.
Qed.

Lemma index_of_None v cs :
  LabelEncoder.index_of v cs = None ↔ v ∉ cs.
Proof.
  unfold LabelEncoder.index_of. rewrite fmap_None, list_find_None, Forall_forall.
  split.
  - intros H Hin. by apply (H v).
  - intros H x Hx ->. done.
Qed.

Lemma index_of_elem v cs :
  v ∈ cs → ∃ i, LabelEncoder.index_of v cs = Some i.
Proof.
  intros Hin. destruct (LabelEncoder.index_of v cs) as [i|] eqn:E; [by eexists|].
  by apply index_of_None in E.
Qed.

Lemma index_of_NoDup v cs i :
  NoDup cs → cs !! i = Some v → LabelEncoder.index_of v cs = Some i.
Proof.
  intros Hnd Hi.
  destruct (index_of_elem v cs) as [j Hj]; [by eapply list_elem_of_lookup_2|].
  rewrite Hj. f_equal. apply index_of_Some in Hj.
  by eapply NoDup_lookup.
Qed.

Lemma encode_column_unseen le col v c cs :
  classes_ le = Some (c :: cs) → v ∉ c :: cs →
  encode_column le col v = ([PrintWarning v col], Ok 0).
Proof.
  intros Hcs Hv. unfold encode_column, LabelEncoder.transform1.
  rewrite Hcs. apply index_of_None in Hv. by rewrite Hv.
Qed.

Lemma encode_column_no_vocabulary le col v :
  classes_ le = None ∨ classes_ le = Some [] →
  encode_column le col v = ([], Ok 0).
Proof.
  unfold encode_column, LabelEncoder.transform1. by intros [-> | ->].
Qed.

Lemma encode_column_seen le col v cs :
  classes_ le = Some cs → v ∈ cs →
  ∃ i, encode_column le col v = ([], Ok (Z.of_nat i)) ∧ cs !! i = Some v.
Proof.
  intros Hcs Hv. destruct (index_of_elem v cs Hv) as [i Hi].
  exists i. split; [|by apply index_of_Some].
  unfold encode_column, LabelEncoder.transform1. by rewrite Hcs, Hi.
Qed.

(** The [try] block never lets an exception out. *)
Lemma encode_column_total le col v :
  ∃ out code, encode_column le col v = (out, Ok code).
Proof.
  unfold encode_column, LabelEncoder.transform1.
  destruct (classes_ le) as [[|c cs]|]; simpl; eauto.
  destruct (LabelEncoder.index_of v (c :: cs)); simpl; eauto.
Qed.

Lemma encode_categorical_total self df_input col :
  ∃ out df', encode_categorical self df_input col = (out, Ok df')
    ∧ (∀ k, k ≠ encoded_name col → df' !! k = df_input !! k)
    ∧ (∀ k, is_Some (df_input !! k) → is_Some (df' !! k)).
Proof.
  unfold encode_categorical.
  destruct (df_input !! col) as [c|] eqn:Hc;
    [destruct (label_encoders self !! col) as [le|] eqn:Hle|];
    try by (exists [], df_input).
  destruct (encode_column_total le col (text_of c)) as (out & code & E).
  rewrite E. simpl. eexists _, _. split; [reflexivity|]. split.
  - intros k Hk. by rewrite lookup_insert_ne.
  - intros k Hk. rewrite lookup_insert. case_decide; eauto.
Qed.

Lemma encode_categoricals_total self cols : ∀ df_input,
  ∃ out df', encode_categoricals self df_input cols = (out, Ok df')
    ∧ (∀ k, k ∉ encoded_name <$> cols → df' !! k = df_input !! k)
    ∧ (∀ k, is_Some (df_input !! k) → is_Some (df' !! k)).
Proof.
  induction cols as [|col cols IH]; intros df_input; simpl.
  - by exists [], df_input.
  - destruct (encode_categorical_total self df_input col) as (o1 & df1 & E1 & Hne1 & Hs1).
    destruct (IH df1) as (o2 & df2 & E2 & Hne2 & Hs2).
    exists (o1 ++ o2)%list, df2. split; [by eapply bind_Ok|]. split.
    + intros k Hk. cbn [fmap list_fmap] in Hk. apply not_elem_of_cons in Hk.
      destruct Hk as [Hk1 Hk2]. by rewrite Hne2, Hne1.
    + eauto.
Qed.

(** No categorical column is the encoded column of another, and two of
    them have different encoded columns. *)
Lemma categorical_cols_separate :
  Forall (λ col, Forall (λ col', col ≠ encoded_name col'
                                 ∧ (encoded_name col = encoded_name col' → col = col'))
                        categorical_cols) categorical_cols.
Proof.
  unfold encoded_name. compute_done.
Qed.

Lemma categorical_cols_NoDup : NoDup categorical_cols.
Proof. compute_done. Qed.

Lemma categorical_not_encoded col col' :
  col ∈ categorical_cols → col' ∈ categorical_cols → col ≠ encoded_name col'.
Proof.
  intros H H'. pose proof categorical_cols_separate as S.
  rewrite Forall_forall in S. specialize (S col H).
  rewrite Forall_forall in S. by apply S.
Qed.

Lemma encoded_name_inj_categorical col col' :
  col ∈ categorical_cols → col' ∈ categorical_cols →
  encoded_name col = encoded_name col' → col = col'.
Proof.
  intros H H'. pose proof categorical_cols_separate as S.
  rewrite Forall_forall in S. specialize (S col H).
  rewrite Forall_forall in S. by apply S.
Qed.

(** The loop over the categorical columns, seen from one column whose value
    the encoder has never met: a warning is printed and the encoded column
    holds 0 when the loop ends. *)
Lemma encode_categoricals_unseen self col le c cs v cols : ∀ df_input,
  cols ⊆ categorical_cols → NoDup cols → col ∈ cols →
  df_input !! col = Some (CStr v) →
  label_encoders self !! col = Some le →
  classes_ le = Some (c :: cs) → v ∉ c :: cs →
  ∃ out df', encode_categoricals self df_input cols = (out, Ok df')
    ∧ PrintWarning v col ∈ out
    ∧ df' !! encoded_name col = Some (CNum (of_Z 0)).
Proof.
  induction cols as [|col0 cols IH]; intros df_input Hsub Hnd Hin Hcell Hle Hcs Hv.
  { by apply elem_of_nil in Hin. }
  apply NoDup_cons in Hnd as [Hnotin Hnd].
  assert (Hcat : col ∈ categorical_cols) by (apply Hsub, Hin).
  assert (Hsub' : cols ⊆ categorical_cols) by (intros x Hx; apply Hsub; by right).
  simpl. apply elem_of_cons in Hin as [<- | Hin].
  - unfold encode_categorical at 1. rewrite Hcell, Hle. simpl.
    rewrite (encode_column_unseen le col v c cs Hcs Hv). cbn [bind ret].
    destruct (encode_categoricals_total self cols
                (<[col +:+ "_encoded" := CNum (of_Z 0)]> df_input))
      as (o2 & df2 & E2 & Hne2 & _).
    rewrite E2. eexists _, _. split; [reflexivity|]. split.
    + simpl. by left.
    + rewrite Hne2.
      * by rewrite lookup_insert_eq.
      * intros Hk. apply list_elem_of_fmap in Hk as (col' & Heq & Hcol').
        apply encoded_name_inj_categorical in Heq; [|done|by apply Hsub'].
        by subst.
  - destruct (encode_categorical_total self df_input col0) as (o1 & df1 & E1 & Hne1 & _).
    destruct (IH df1) as (o2 & df2 & E2 & Hw & Hz); try done.
    { rewrite Hne1; [done|]. apply categorical_not_encoded; [done|].
      apply Hsub. by left. }
    exists (o1 ++ o2)%list, df2. split; [by eapply bind_Ok|]. split; [|done].
    apply elem_of_app. by right.
Qed.

(** ** Selecting the feature columns *)

Lemma select_columns_Ok df_input cols :
  (∀ col, col ∈ cols → is_Some (df_input !! col)) →
  ∃ X_input, select_columns df_input cols = ([], Ok X_input)
    ∧ Forall2 (λ col c, fillna0 <$> df_input !! col = Some c) cols X_input.
Proof.
  induction cols as [|col cols IH]; intros H; simpl.
  - exists []. split; [done|constructor].
  - destruct (H col) as [c Hc]; [by left|].
    destruct IH as (X & E & HX); [intros; apply H; by right|].
    exists (fillna0 c :: X). split.
    + rewrite (lookup_or_raise_Some _ _ _ Hc), bind_ret_l, E. done.
    + constructor; [by rewrite Hc|done].
Qed.

Lemma select_columns_missing df_input cols col :
  col ∈ cols → df_input !! col = None →
  ∃ k, select_columns df_input cols = ([], Raise (KeyError k))
       ∧ k ∈ cols ∧ df_input !! k = None.
Proof.
  induction cols as [|col0 cols IH]; intros Hin Hnone.
  { by apply elem_of_nil in Hin. }
  simpl. destruct (df_input !! col0) as [c|] eqn:Hc.
  - apply elem_of_cons in Hin as [-> | Hin]; [congruence|].
    destruct (IH Hin Hnone) as (k & E & Hk & Hkn).
    exists k. rewrite (lookup_or_raise_Some _ _ _ Hc), bind_ret_l, E.
    repeat split; [by right|done].
  - exists col0. rewrite (lookup_or_raise_None _ _ Hc).
    repeat split; [by left|done].
Qed.

(** The listing of the features prints a line per column and goes on. *)
Lemma print_features_total (df_input : gmap string cell) cols :
  ∃ out,
    for_each cols (λ col, match df_input !! col with
                          | Some c => print (PrintFeature col c)
                          | None => print (PrintMissing col)
                          end) = (out, Ok ())
    ∧ (∀ col, col ∈ cols → df_input !! col = None → PrintMissing col ∈ out)
    ∧ (∀ col c, col ∈ cols → df_input !! col = Some c → PrintFeature col c ∈ out).
Proof.
  induction cols as [|col0 cols (out & E & Hm & Hf)]; simpl.
  - exists []. split; [done|]. split; intros; by apply elem_of_nil in H.
  - rewrite E. destruct (df_input !! col0) as [c|] eqn:Hc; simpl;
      eexists; (split; [reflexivity|]); split; intros col.
    + intros [->|Hin]%elem_of_cons Hn; [congruence|]. right. by apply Hm.
    + intros c' [->|Hin]%elem_of_cons Hs; [rewrite Hc in Hs; injection Hs as <-; by left|]. right. by apply Hf.
    + intros [->|Hin]%elem_of_cons Hn; [by left|]. right. by apply Hm.
    + intros c' [->|Hin]%elem_of_cons Hs; [congruence|]. right. by apply Hf.
Qed.

Lemma encode_categoricals_defined self col cols : ∀ df_input out df',
  cols ⊆ categorical_cols → col ∈ cols →
  is_Some (df_input !! col) → is_Some (label_encoders self !! col) →
  encode_categoricals self df_input cols = (out, Ok df') →
  is_Some (df' !! encoded_name col).
Proof.
  induction cols as [|col0 cols IH]; intros df_input out df' Hsub Hin Hcell Hle E.
  { by apply elem_of_nil in Hin. }
  simpl in E. apply bind_Ok_inv in E as (o1 & df1 & o2 & E1 & E2 & ->).
  assert (Hsub' : cols ⊆ categorical_cols) by (intros x Hx; apply Hsub; by right).
  apply elem_of_cons in Hin as [<- | Hin].
  - destruct (encode_categoricals_total self cols df1) as (o & d & E & _ & Hs).
    rewrite E in E2. injection E2 as -> ->. apply Hs.
    unfold encode_categorical in E1.
    destruct Hcell as [c Hc], Hle as [le Hle]. rewrite Hc, Hle in E1.
    apply bind_Ok_inv in E1 as (? & code & ? & _ & E1 & _).
    injection E1 as _ <-. rewrite lookup_insert_eq. by eexists.
  - eapply (IH df1); try done.
    destruct (encode_categorical_total self df_input col0) as (o & d & E & Hne & _).
    rewrite E in E1. injection E1 as -> ->. rewrite Hne; [done|].
    apply categorical_not_encoded; [by apply Hsub; right|by apply Hsub; left].
Qed.

(** ** Clipping *)

Lemma clip_prediction_skipped self prediction :
  price_stats self = None ∨ price_stats self = Some ∅ →
  clip_prediction self prediction = ([], Ok prediction).
Proof.
  unfold clip_prediction. intros [-> | ->]; [done|]. by rewrite decide_True.
Qed.

Lemma clip_prediction_applied self stats lo hi prediction :
  price_stats self = Some stats →
  stats !! "min" = Some lo → stats !! "max" = Some hi →
  let clipped := np_clip prediction (py_max lo MIN_PRICE_FLOOR)
                         (py_min hi MAX_PRICE_CEILING) in
  clip_prediction self prediction = ([PrintClippedPrediction clipped], Ok clipped).
Proof.
  intros Hs Hlo Hhi. unfold clip_prediction. rewrite Hs.
  rewrite decide_False by (intros ->; by rewrite lookup_empty in Hlo).
  by rewrite (lookup_or_raise_Some _ _ _ Hlo), bind_ret_l,
             (lookup_or_raise_Some _ _ _ Hhi), bind_ret_l.
Qed.

Lemma np_clip_below x lo hi :
  Float.le lo hi = true → Float.lt x lo = true → np_clip x lo hi = lo.
Proof. destruct x as [x|], lo as [lo|], hi as [hi|]; float_cases. Qed.

Lemma np_clip_above x lo hi :
  Float.le lo hi = true → Float.gt x hi = true → np_clip x lo hi = hi.
Proof. destruct x as [x|], lo as [lo|], hi as [hi|]; float_cases. Qed.

Lemma np_clip_inside x lo hi :
  Float.le lo x = true → Float.le x hi = true → np_clip x lo hi = x.
Proof. destruct x as [x|], lo as [lo|], hi as [hi|]; float_cases. Qed.

Section PredictorRuns.
Variable to_datetime : string → parse_result.

Lemma predict_single_flight_unfold self m flight_data :
  best_model self = Some m →
  predict_single_flight to_datetime self flight_data
  = (do prediction <- raw_prediction to_datetime self m flight_data;
     clip_prediction self prediction).
Proof. unfold predict_single_flight. by intros ->. Qed.

(** A run of [raw_prediction] in which no step raises: what the
    encoding loop printed is part of the output, and so is the line of
    every feature. *)
Lemma raw_prediction_run self m flight_data df0 out_enc df_input X_input raw :
  base_columns to_datetime self flight_data = ([], Ok df0) →
  encode_categoricals self df0 categorical_cols = (out_enc, Ok df_input) →
  select_columns df_input (feature_columns self) = ([], Ok X_input) →
  predict m X_input = Ok raw →
  ∃ out,
    raw_prediction to_datetime self m flight_data = (out, Ok raw)
    ∧ (∀ o, o ∈ out_enc → o ∈ out)
    ∧ (∀ col c, col ∈ feature_columns self → df_input !! col = Some c →
                PrintFeature col c ∈ out)
    ∧ PrintRawPrediction raw ∈ out.
Proof.
  intros Hb He Hs Hp.
  destruct (print_features_total df_input (feature_columns self))
    as (op & Ep & _ & Hf).
  eexists. split.
  { unfold raw_prediction.
    eapply bind_Ok; [reflexivity|].
    eapply bind_Ok; [exact Hb|].
    eapply bind_Ok; [exact He|].
    eapply bind_Ok; [reflexivity|].
    eapply bind_Ok; [exact Ep|].
    eapply bind_Ok; [exact Hs|].
    eapply bind_Ok; [reflexivity|].
    eapply bind_Ok; [reflexivity|].
    eapply bind_Ok; [unfold lift; by rewrite Hp|].
    eapply bind_Ok; reflexivity. }
  repeat split.
  - intros o Ho. rewrite !elem_of_app. tauto.
  - intros col c Hin Hc. specialize (Hf col c Hin Hc).
    rewrite !elem_of_app. tauto.
  - rewrite !elem_of_app, !elem_of_cons. tauto.
Qed.
End PredictorRuns.

Lemma bind_ret_r {A} (m : M A) : bind m ret = m.
Proof.
destruct m as [out [a|e]]; [|done]. unfold bind, ret. by rewrite app_nil_r.
Qed.

(** ** The artifact *)

(** Loading what [save_model] wrote restores every attribute that
    [predict_single_flight] reads. *)
Lemma load_model_save_model self0 self :
  ∃ self', load_model self0 (save_model self) = Ok self'
    ∧ best_model self' = best_model self
    ∧ model_type self' = model_type self
    ∧ feature_columns self' = feature_columns self
    ∧ label_encoders self' = label_encoders self
    ∧ price_stats self' = price_stats self
    ∧ route_popularity_stats self' = route_popularity_stats self
    ∧ airline_popularity_stats self' = airline_popularity_stats self.
Proof. eexists. split; [reflexivity|]. repeat split. Qed.

(** ** Claims on the predictor *)

Section PredictorClaims.
Variable to_datetime : string → parse_result.

(** C9. Calling [predict_single_flight] on an object whose [best_model] is
    still [None] (nothing loaded, nothing trained) raises [ValueError] for
    every request: nothing is printed and no price is returned. *)
Theorem predict_before_load_raises self flight_data :
  best_model self = None →
  predict_single_flight to_datetime self flight_data
  = ([], Raise (ValueError "? model đâu ??")).
Proof. unfold predict_single_flight. by intros ->. Qed.

(** C10. A bundle without the [price_stats] key loads with an empty
    record of price statistics (the popularity statistics fall back to
    their documented defaults), and every prediction of the loaded object
    is the run of [raw_prediction] itself: same output, same result, no
    clipping line and no clipping. *)
Theorem load_without_price_stats_disables_clipping self model_data self' :
  md_price_stats model_data = None →
  load_model self model_data = Ok self' →
  price_stats self' = Some ∅
  ∧ (md_route_popularity_stats model_data = None →
     route_popularity_stats self' = default_route_popularity_stats)
  ∧ (md_airline_popularity_stats model_data = None →
     airline_popularity_stats self' = default_airline_popularity_stats)
  ∧ ∀ m flight_data,
      best_model self' = Some m →
      predict_single_flight to_datetime self' flight_data
      = raw_prediction to_datetime self' m flight_data.
Proof.
intros Hnone Hload. unfold load_model in Hload.
repeat match type of Hload with
| match getitem ?k ?f with _ => _ end = _ => destruct (getitem k f); [|done]
end.
injection Hload as <-. rewrite Hnone. simpl. split; [done|].
split; [by intros ->|]. split; [by intros ->|].
intros m flight_data Hm.
rewrite (predict_single_flight_unfold _ _ m) by done.
rewrite <- (bind_ret_r (raw_prediction _ _ _ _)) at 2.
f_equal.
Qed.

(** C2, amended. When the bundle's price statistics hold a minimum and a
    maximum and the floor [max(min, 100000)] does not exceed the ceiling
    [min(max, 50000000)], a request whose raw model output is [raw] returns
    [raw] clipped into [[floor, ceiling]]: the floor when [raw] is below
    it, the ceiling when [raw] is above it, and [raw] itself in between. *)
Theorem predict_clips_into_training_range
    self m flight_data out raw stats lo hi :
  best_model self = Some m →
  raw_prediction to_datetime self m flight_data = (out, Ok raw) →
  price_stats self = Some stats →
  stats !! "min" = Some lo → stats !! "max" = Some hi →
  let floor := py_max lo MIN_PRICE_FLOOR in
  let ceiling := py_min hi MAX_PRICE_CEILING in
  Float.le floor ceiling = true →
  ∃ p,
    predict_single_flight to_datetime self flight_data
    = ((out ++ [PrintClippedPrediction p])%list, Ok p)
    ∧ p = np_clip raw floor ceiling
    ∧ (Float.lt raw floor = true → p = floor)
    ∧ (Float.gt raw ceiling = true → p = ceiling)
    ∧ (Float.le floor raw = true → Float.le raw ceiling = true → p = raw).
Proof.
intros Hm Hraw Hstats Hlo Hhi floor ceiling Hle.
exists (np_clip raw floor ceiling). split; [|split; [done|]].
- rewrite (predict_single_flight_unfold _ _ m) by done.
  eapply bind_Ok; [exact Hraw|].
  exact (clip_prediction_applied self stats lo hi raw Hstats Hlo Hhi).
- repeat split.
  + by apply np_clip_below.
  + by apply np_clip_above.
  + by apply np_clip_inside.
Qed.
End PredictorClaims.

(** C9, at a fresh object and the first request of [demo_predictions]. *)
Lemma predict_before_load_raises_witness :
  best_model (__init__ None) = None
  ∧ predict_single_flight iso_to_datetime (__init__ None) flight1
    = ([], Raise (ValueError "? model đâu ??")).
Proof.
split; [reflexivity|].
apply (predict_before_load_raises iso_to_datetime (__init__ None) flight1).
reflexivity.
Defined.

(** C10, at an older bundle: the raw output 60 000, under the fixed floor,
    is returned as it is. *)
Lemma load_without_price_stats_disables_clipping_witness :
  price_stats old_predictor = Some ∅
  ∧ (predict_single_flight iso_to_datetime old_predictor flight2).2
    = Ok (of_Z 60000).
Proof.
destruct (load_without_price_stats_disables_clipping iso_to_datetime
            (__init__ None) (demo_bundle (constant_model 60000) None)
            old_predictor eq_refl eq_refl) as (Hstats & _ & _ & Hrun).
split; [exact Hstats|].
rewrite (Hrun (constant_model 60000) flight2 eq_refl).
vm_compute. reflexivity.
Defined.

(** C2, at a usual bundle: the raw output 60 000 is lifted to the training
    minimum 500 000. *)
Lemma predict_clips_into_training_range_witness :
  Float.le (py_max (of_Z 500000) MIN_PRICE_FLOOR)
           (py_min (of_Z 3000000) MAX_PRICE_CEILING) = true
  ∧ (predict_single_flight iso_to_datetime usual_predictor flight2).2
    = Ok (py_max (of_Z 500000) MIN_PRICE_FLOOR).
Proof.
split; [by vm_compute|].
destruct (predict_clips_into_training_range iso_to_datetime
            usual_predictor (constant_model 60000) flight2
            (raw_prediction iso_to_datetime usual_predictor
                            (constant_model 60000) flight2).1
            (of_Z 60000)
            (price_stats_of 500000 3000000) (of_Z 500000) (of_Z 3000000))
  as (p & Hrun & _ & Hbelow & _).
- reflexivity.
- vm_compute. reflexivity.
- reflexivity.
- reflexivity.
- reflexivity.
- by vm_compute.
- rewrite Hrun. simpl. f_equal. apply Hbelow. by vm_compute.
Defined.

(** C2 as stated fails when the training fares lie under the fixed floor:
    the floor is 100 000 and the ceiling 80 000, the raw output 60 000 is
    below the floor, and the prediction is the ceiling. *)
Lemma clip_floor_above_ceiling_counterexample :
  price_stats cheap_predictor = Some (price_stats_of 50000 80000)
  ∧ (raw_prediction iso_to_datetime cheap_predictor (constant_model 60000)
                    flight2).2 = Ok (of_Z 60000)
  ∧ py_max (of_Z 50000) MIN_PRICE_FLOOR = of_Z 100000
  ∧ py_min (of_Z 80000) MAX_PRICE_CEILING = of_Z 80000
  ∧ Float.lt (of_Z 60000) (of_Z 100000) = true
  ∧ (predict_single_flight iso_to_datetime cheap_predictor flight2).2
    = Ok (of_Z 80000)
  ∧ of_Z 80000 ≠ of_Z 100000.
Proof. compute_done. Qed.

Section EncodingClaims.
Variable to_datetime : string → parse_result.

Lemma clip_prediction_total self prediction :
  price_stats_usable self →
  ∃ out p, clip_prediction self prediction = (out, Ok p).
Proof.
unfold price_stats_usable. destruct (price_stats self) as [stats|] eqn:Hs.
- intros [-> | [[lo Hlo] [hi Hhi]]].
  + eexists _, _. apply clip_prediction_skipped. by right.
  + eexists _, _. exact (clip_prediction_applied self stats lo hi prediction Hs Hlo Hhi).
- intros _. eexists _, _. apply clip_prediction_skipped. by left.
Qed.

Lemma select_columns_length df_input cols : ∀ out X_input,
  select_columns df_input cols = (out, Ok X_input) →
  out = [] ∧ length X_input = length cols.
Proof.
induction cols as [|col cols IH]; intros out X_input; simpl.
- by intros [= <- <-].
- unfold lookup_or_raise. destruct (df_input !! col); [|done].
  rewrite bind_ret_l.
  destruct (select_columns df_input cols) as [o [r|e]] eqn:E; [|done].
  destruct (IH o r eq_refl) as [-> Hlen].
  simpl. intros [= <- <-]. simpl. by rewrite Hlen.
Qed.

(** C3, amended. Take a categorical column whose encoder was fitted on a
    non-empty vocabulary, and a request whose text in that column is not in
    the vocabulary. Encoding the text answers code 0 and prints a warning
    without raising; the loop over the categorical columns completes with 0
    in the encoded column; and, the rest of the request being usable (the
    base columns derive, every feature column can be selected, the model
    accepts the row, the price statistics can be read), the prediction
    returns a price and its output holds the warning. *)
Theorem unseen_category_falls_back_to_zero
    self m flight_data df0 col le c cs v :
  best_model self = Some m →
  base_columns to_datetime self flight_data = ([], Ok df0) →
  col ∈ categorical_cols →
  df0 !! col = Some (CStr v) →
  label_encoders self !! col = Some le →
  classes_ le = Some (c :: cs) →
  v ∉ c :: cs →
  features_derivable self df0 →
  model_accepts self m →
  price_stats_usable self →
  encode_column le col v = ([PrintWarning v col], Ok 0)
  ∧ ∃ out_enc df_input out p,
      encode_categoricals self df0 categorical_cols = (out_enc, Ok df_input)
      ∧ df_input !! encoded_name col = Some (CNum (of_Z 0))
      ∧ predict_single_flight to_datetime self flight_data = (out, Ok p)
      ∧ PrintWarning v col ∈ out.
Proof.
intros Hm Hbase Hcol Hcell Hle Hcs Hv Hfeat Hmodel Hstats.
split; [by eapply encode_column_unseen|].
destruct (encode_categoricals_unseen self col le c cs v categorical_cols df0)
  as (out_enc & df_input & Henc & Hwarn & Hzero);
  [done|apply categorical_cols_NoDup|done..|].
destruct (encode_categoricals_total self categorical_cols df0)
  as (o' & d' & Henc' & _ & Hkeep).
rewrite Henc in Henc'. injection Henc' as <- <-.
destruct (select_columns_Ok df_input (feature_columns self)) as (X_input & Hsel & _).
{ intros f Hf. unfold features_derivable in Hfeat.
  rewrite Forall_forall in Hfeat.
  destruct (Hfeat f Hf) as [Hbase_col | (col' & Hc' & -> & Hcell' & Hle')%Exists_exists].
  - by apply Hkeep.
  - by eapply (encode_categoricals_defined self col' categorical_cols df0). }
destruct (Hmodel X_input) as [raw Hraw]; [by destruct (select_columns_length _ _ _ _ Hsel)|].
destruct (raw_prediction_run to_datetime self m flight_data df0 out_enc df_input
            X_input raw Hbase Henc Hsel Hraw) as (out & Hrun & Hsub & _).
destruct (clip_prediction_total self raw Hstats) as (out_clip & p & Hclip).
exists out_enc, df_input, (out ++ out_clip)%list, p.
repeat split; [done|done| |].
- rewrite (predict_single_flight_unfold _ _ m) by done. by eapply bind_Ok.
- apply elem_of_app. left. by apply Hsub.
Qed.
End EncodingClaims.

Lemma flight1_frame_derives :
  base_columns iso_to_datetime usual_predictor flight1 = ([], Ok flight1_frame).
Proof.
vm_cast_no_check (eq_refl (A := M (gmap string cell)) (x := ([], Ok flight1_frame))).
Qed.

(** C3, at the first request of [demo_predictions]: the aircraft type
    [Airbus A321] is not in the vocabulary of the encoder. *)
Lemma unseen_category_falls_back_to_zero_witness :
  ("Airbus A321" ∉ ["Airbus A320"])
  ∧ encode_column (LabelEncoder.fit ["Airbus A320"]) "type_of_plane" "Airbus A321"
    = ([PrintWarning "Airbus A321" "type_of_plane"], Ok 0)
  ∧ ∃ out p,
      predict_single_flight iso_to_datetime usual_predictor flight1 = (out, Ok p)
      ∧ PrintWarning "Airbus A321" "type_of_plane" ∈ out.
Proof.
assert (Hv : "Airbus A321" ∉ ["Airbus A320"]) by compute_done.
destruct (unseen_category_falls_back_to_zero iso_to_datetime usual_predictor
            (constant_model 60000) flight1 flight1_frame "type_of_plane"
            (LabelEncoder.fit ["Airbus A320"]) "Airbus A320" [] "Airbus A321")
  as (Hcode & _ & _ & out & p & _ & _ & Hrun & Hwarn).
- reflexivity.
- exact flight1_frame_derives.
- compute_done.
- compute_done.
- compute_done.
- reflexivity.
- exact Hv.
- compute_done.
- intros X_input _. eexists. reflexivity.
- compute_done.
- split; [exact Hv|]. split; [exact Hcode|].
  exists out, p. split; [exact Hrun|exact Hwarn].
Defined.

(** C3 as stated fails on an encoder fitted on an empty vocabulary: the
    fare class [Eco] is absent from it, its code is 0, the prediction
    completes, and no warning is printed. *)
Lemma unseen_category_empty_vocabulary_counterexample :
  label_encoders blank_predictor !! "classes" = Some (LabelEncoder.fit [])
  ∧ classes_ (LabelEncoder.fit []) = Some []
  ∧ flight2 !! "classes" = Some "Eco"
  ∧ ("Eco" ∉ @nil string)
  ∧ encode_column (LabelEncoder.fit []) "classes" "Eco" = ([], Ok 0)
  ∧ (predict_single_flight iso_to_datetime blank_predictor flight2).2
    = Ok (of_Z 60000)
  ∧ PrintWarning "Eco" "classes"
    ∉ (predict_single_flight iso_to_datetime blank_predictor flight2).1.
Proof. compute_done. Qed.

(** ** Feature columns that cannot be derived *)

(** C4 on the code: the bundle lists [classes_encoded], the request has no
    [classes] key, so the encoding loop skips the column; the listing of the
    features prints it as missing, and the selection of the feature columns
    raises [KeyError] instead of filling the column with 0. *)
Theorem missing_feature_column_raises :
  "classes_encoded" ∈ feature_columns usual_predictor
  ∧ request_without_classes !! "classes" = None
  ∧ (predict_single_flight iso_to_datetime usual_predictor
                           request_without_classes).2
    = Raise (KeyError "classes_encoded")
  ∧ PrintMissing "classes_encoded"
    ∈ (predict_single_flight iso_to_datetime usual_predictor
                             request_without_classes).1.
Proof. compute_done. Qed.

(** When every feature column is in the frame, the row handed to the model
    lists them in the order of [feature_columns], missing values replaced
    by 0. *)
Lemma select_columns_in_order df_input cols X_input :
  select_columns df_input cols = ([], Ok X_input) →
  Forall2 (λ col c, fillna0 <$> df_input !! col = Some c) cols X_input.
Proof.
intros H.
destruct (select_columns_Ok df_input cols) as (X' & E & HX).
- intros col Hcol. destruct (df_input !! col) eqn:Hc; [done|].
  destruct (select_columns_missing df_input cols col Hcol Hc) as (k & E & _).
  congruence.
- congruence.
Qed.

(** ** Booking category on both paths *)

Lemma base_frame_days flight_data create_at flight_date departure_time
    arrival_time route_mean flight_number airline_mean :
  let df_input := base_frame flight_data create_at flight_date departure_time
                    arrival_time route_mean flight_number airline_mean in
  df_input !! "days_in_advance"
  = Some (CNum (Qc_of_Z <$> days_between flight_date create_at))
  ∧ df_input !! "booking_category"
    = Some (CNum (of_Z (Inference.categorize_advance_booking
                          (days_between flight_date create_at)))).
Proof.
unfold base_frame. split;
  repeat (rewrite lookup_insert; case_decide; [try done|]; try done).
Qed.

(** C7. [booking_category] is 0 below 7 days, 1 from 7 to 29, 2 from 30 to
    89 and 3 from 90 on, for every integer number of days; the function
    nested in [predict_single_flight] is the function nested in
    [feature_engineering]; the training table and the frame of a request
    both hold its value at their own [days_in_advance]. *)
Theorem booking_category_partition (d : Z) :
  (Training.categorize_advance_booking (Some d) = 0 ↔ d < 7)
  ∧ (Training.categorize_advance_booking (Some d) = 1 ↔ 7 ≤ d < 30)
  ∧ (Training.categorize_advance_booking (Some d) = 2 ↔ 30 ≤ d < 90)
  ∧ (Training.categorize_advance_booking (Some d) = 3 ↔ 90 ≤ d)
  ∧ Inference.categorize_advance_booking (Some d)
    = Training.categorize_advance_booking (Some d)
  ∧ (∀ rows encoders r,
       booking_category (derive rows encoders r)
       = Training.categorize_advance_booking
           (Some (days_in_advance (derive rows encoders r))))
  ∧ (∀ to_datetime self flight_data out df_input,
       base_columns to_datetime self flight_data = (out, Ok df_input) →
       ∃ days,
         df_input !! "days_in_advance" = Some (CNum (Qc_of_Z <$> days))
         ∧ df_input !! "booking_category"
           = Some (CNum (of_Z (Inference.categorize_advance_booking days)))).
Proof.
destruct (categorize_advance_booking_cases d) as (H0 & H1 & H2 & H3).
repeat split; try (by apply H0); try (by apply H1); try (by apply H2);
  try (by apply H3).
intros to_datetime self flight_data out df_input Hbase.
apply base_columns_Ok in Hbase
  as (c & create_at & f & flight_date & dep & arr & rm & fn & am & Hbase).
destruct Hbase as (_ & _ & _ & _ & _ & _ & _ & _ & _ & _ & ->).
exists (days_between flight_date create_at). apply base_frame_days.
Qed.

(** The examples of the specification: 08:00 to 10:15 lasts 135 minutes
    and 23:30 to 01:00 lasts 90. *)
Example flight_duration_examples :
  duration_of "08:00" "10:15" = 135 ∧ duration_of "23:30" "01:00" = 90.
Proof. split; reflexivity. Qed.

(** The example of the specification: 2024-01-01 09:00 to 2024-02-15 14:30
    is 45 days ahead, category 2. *)
Example booking_category_of_flight2 :
  dt.days (mk_timestamp 2024 2 15 14 30 0) (mk_timestamp 2024 1 1 9 0 0) = 45
  ∧ Training.categorize_advance_booking (Some 45) = 2.
Proof. split; reflexivity. Qed.

(** ** Model selection *)

Lemma min_from_elem {A} (key : A → Qc) rest : ∀ best,
  min_from key best rest ∈ best :: rest.
Proof.
induction rest as [|x rest IH]; intros best; simpl.
- by left.
- case_bool_decide.
  + right. apply IH.
  + specialize (IH best). apply elem_of_cons in IH as [-> | IH].
    * by left.
    * right. by right.
Qed.

Lemma min_from_le {A} (key : A → Qc) rest : ∀ best,
  (key (min_from key best rest) ≤ key best)%Qc
  ∧ ∀ x, x ∈ rest → (key (min_from key best rest) ≤ key x)%Qc.
Proof.
induction rest as [|x rest IH]; intros best; simpl.
- split; [apply Qcle_refl|]. intros x Hx. by apply elem_of_nil in Hx.
- case_bool_decide as Hlt.
  + destruct (IH x) as [Hx Hrest]. split.
    * eapply Qcle_trans; [exact Hx|]. by apply Qclt_le_weak.
    * intros z [-> | Hz]%elem_of_cons; [done|by apply Hrest].
  + destruct (IH best) as [Hb Hrest]. split; [done|].
    intros z [-> | Hz]%elem_of_cons; [|by apply Hrest].
    eapply Qcle_trans; [exact Hb|]. by apply Qcnot_lt_le.
Qed.

Lemma py_min_by_spec {A} (key : A → Qc) l :
  match py_min_by key l with
  | Some a => a ∈ l ∧ ∀ x, x ∈ l → (key a ≤ key x)%Qc
  | None => l = []
  end.
Proof.
destruct l as [|x rest]; simpl; [done|]. split; [apply min_from_elem|].
destruct (min_from_le key rest x) as [Hx Hrest].
intros z [-> | Hz]%elem_of_cons; [done|by apply Hrest].
Qed.

Lemma dict_get_keys {V} k (d : list (string * V)) :
  k ∈ dict_keys d ↔ is_Some (dict_get k d).
Proof.
unfold dict_keys. induction d as [|[k' v'] d IH]; simpl.
- split; [by intros ?%elem_of_nil|by intros [? ?]].
- rewrite elem_of_cons. case_decide as Hk.
  + split; [by eexists|]. intros _. by left.
  + rewrite IH. split; [|by right]. intros [-> | H]; [done|done].
Qed.

Lemma dict_get_set {V} k v (d : list (string * V)) :
  dict_get k (dict_set k v d) = Some v.
Proof.
induction d as [|[k' v'] d IH]; simpl.
- by rewrite decide_True.
- case_decide; simpl; [by rewrite decide_True|]. by rewrite decide_False.
Qed.

Lemma dict_get_set_ne {V} k k' v (d : list (string * V)) :
  k' ≠ k → dict_get k' (dict_set k v d) = dict_get k' d.
Proof.
intros Hne. induction d as [|[k0 v0] d IH]; simpl.
- by rewrite decide_False.
- case_decide as Hk; simpl.
  + subst. by rewrite !decide_False.
  + case_decide; [done|apply IH].
Qed.

Lemma dict_get_cv_table k results :
  dict_get k (cv_table results) = cv_mae_mean <$> dict_get k results.
Proof.
induction results as [|[k' r] results IH]; simpl; [done|]. by case_decide.
Qed.

Lemma dict_keys_cv_table results :
  dict_keys (cv_table results) = dict_keys results.
Proof. unfold dict_keys, cv_table. rewrite <- list_fmap_compose. done. Qed.

Lemma min_from_ext {A} (key1 key2 : A → Qc) rest :
  (∀ x, key1 x = key2 x) → ∀ best, min_from key1 best rest = min_from key2 best rest.
Proof.
intros Hext. induction rest as [|x rest IH]; intros best; simpl; [done|].
rewrite !Hext. case_bool_decide; apply IH.
Qed.

Lemma best_model_name_cv_table results :
  best_model_name results
  = py_min_by (λ k, default 0%Qc (dict_get k (cv_table results)))
              (dict_keys (cv_table results)).
Proof.
unfold best_model_name. rewrite dict_keys_cv_table.
destruct (dict_keys results) as [|k ks]; simpl; [done|]. f_equal.
apply min_from_ext. intros x. by rewrite dict_get_cv_table.
Qed.

Lemma foldl_dict_set_other {V} (f : string → V) name names : ∀ res,
  name ∉ names →
  dict_get name (foldl (λ res n, dict_set n (f n) res) res names)
  = dict_get name res.
Proof.
induction names as [|n names IH]; intros res Hnot; simpl; [done|].
apply not_elem_of_cons in Hnot as [Hne Hnot].
rewrite IH by done. by apply dict_get_set_ne.
Qed.

Lemma foldl_dict_set_lookup {V} (f : string → V) name names : ∀ res,
  NoDup names → name ∈ names →
  dict_get name (foldl (λ res n, dict_set n (f n) res) res names)
  = Some (f name).
Proof.
induction names as [|n names IH]; intros res Hnd Hin; simpl.
- by apply elem_of_nil in Hin.
- apply NoDup_cons in Hnd as [Hnot Hnd].
  apply elem_of_cons in Hin as [-> | Hin].
  + rewrite foldl_dict_set_other by done. apply dict_get_set.
  + by apply IH.
Qed.

Lemma model_names_NoDup : NoDup model_names.
Proof. compute_done. Qed.

Section ModelTrainerClaims.
Let matrix : Type := list (list float).
Variable train_test_split : matrix → list float → matrix * matrix * list float * list float.
Variable cross_val_score : string → matrix → list float → list Qc.
Variable fit : string → matrix → list float → Model.
Variable mean_absolute_error : Model → matrix → list float → Qc.
Variable root_mean_squared_error : Model → matrix → list float → Qc.
Variable r2_score : Model → matrix → list float → Qc.
Variable np_std : list Qc → Qc.

(** C5. [train_and_evaluate_models] always returns, and the model it
    selects is a candidate of [self.results] whose [cv_mae_mean] is lowest:
    no candidate has a lower one. The three candidates of this run are in
    the dictionary, each with the negated mean of its cross-validation
    scores on the training split. The selection reads the names and
    [cv_mae_mean] only: two dictionaries that agree on these select the
    same name, whatever their test errors. *)
Theorem best_model_is_cv_argmin self :
  ∃ self' name r,
    train_and_evaluate_models train_test_split cross_val_score fit
      mean_absolute_error root_mean_squared_error r2_score np_std self = Ok self'
    ∧ model_type self' = Some name
    ∧ dict_get name (results self') = Some r
    ∧ best_model self' = Some (model r)
    ∧ (∀ name' r', dict_get name' (results self') = Some r' →
                   (cv_mae_mean r ≤ cv_mae_mean r')%Qc)
    ∧ (∀ name', name' ∈ model_names →
         ∃ r', dict_get name' (results self') = Some r'
               ∧ cv_mae_mean r'
                 = (- np_mean (cross_val_score name'
                                 (train_test_split (X self) (y self)).1.1.1
                                 (train_test_split (X self) (y self)).1.2))%Qc)
    ∧ (∀ results1 results2,
         cv_table results1 = cv_table results2 →
         best_model_name results1 = best_model_name results2).
Proof.
unfold train_and_evaluate_models.
destruct (train_test_split (X self) (y self)) as [[[X_train X_test] y_train] y_test] eqn:Hsplit.
set (f := evaluate cross_val_score fit mean_absolute_error
            root_mean_squared_error r2_score np_std).
set (res := foldl (λ res name, dict_set name (f name X_train X_test y_train y_test) res)
                  (results self) model_names).
assert (Hlookup : ∀ name', name' ∈ model_names →
          dict_get name' res = Some (f name' X_train X_test y_train y_test)).
{ intros name' Hin. subst res.
  apply (foldl_dict_set_lookup (λ n, f n X_train X_test y_train y_test));
    [apply model_names_NoDup|done]. }
pose proof (py_min_by_spec
              (λ k, default 0%Qc (cv_mae_mean <$> dict_get k res))
              (dict_keys res)) as Hmin.
fold (best_model_name res) in Hmin.
destruct (best_model_name res) as [name|] eqn:Hbest.
- destruct Hmin as [Hin Hle].
  apply dict_get_keys in Hin as [r Hr]. rewrite Hr.
  eexists _, name, r. repeat split; try done; simpl.
  + intros name' r' Hr'.
    specialize (Hle name'). rewrite Hr, Hr' in Hle. simpl in Hle.
    apply Hle. apply dict_get_keys. by eexists.
  + intros name' Hin'. eexists. split; [by apply Hlookup|]. done.
  + intros results1 results2 Heq.
    by rewrite !best_model_name_cv_table, Heq.
- exfalso.
  assert (Hk : "Random Forest" ∈ dict_keys res).
  { apply dict_get_keys. rewrite Hlookup; [by eexists|]. compute_done. }
  rewrite Hmin in Hk. by apply elem_of_nil in Hk.
Qed.
End ModelTrainerClaims.

(** The example of the specification: cross-validated errors 500 000,
    480 000 and 510 000 select the second candidate, whatever the other
    metrics are. *)
Example second_candidate_selected m1 m2 m3 s1 s2 s3 a1 a2 a3 t1 t2 t3
    b1 b2 b3 c1 c2 c3 d1 d2 d3 e1 e2 e3 o1 o2 o3 :
  best_model_name
    [("Random Forest",
      mkModelResult m1 (Qc_of_Z 500000) s1 a1 t1 b1 c1 d1 e1 o1);
     ("Gradient Boosting",
      mkModelResult m2 (Qc_of_Z 480000) s2 a2 t2 b2 c2 d2 e2 o2);
     ("Decision Tree",
      mkModelResult m3 (Qc_of_Z 510000) s3 a3 t3 b3 c3 d3 e3 o3)]
  = Some "Gradient Boosting".
Proof. reflexivity. Qed.

(** ** Fitted encoders *)

Lemma np_unique_NoDup y : NoDup (np_unique y).
Proof.
unfold np_unique. rewrite merge_sort_Permutation. apply NoDup_remove_dups.
Qed.

Lemma np_unique_elem v y : v ∈ np_unique y ↔ v ∈ y.
Proof.
unfold np_unique. rewrite merge_sort_Permutation. apply elem_of_remove_dups.
Qed.

Lemma np_unique_sorted y : Sorted String.le (np_unique y).
Proof. apply Sorted_merge_sort. apply _. Qed.

(** Encode then decode, and decode then encode, on a list of distinct
    classes. *)
Lemma transform_inverse le cs v :
  classes_ le = Some cs → v ∈ cs →
  ∃ code, LabelEncoder.transform1 le v = Ok code
          ∧ (code < length cs)%nat
          ∧ LabelEncoder.inverse_transform1 le code = Ok v.
Proof.
intros Hcs Hv. destruct (index_of_elem v cs Hv) as [i Hi].
exists i. unfold LabelEncoder.transform1, LabelEncoder.inverse_transform1.
rewrite Hcs, Hi. apply index_of_Some in Hi.
split; [done|]. split; [by eapply lookup_lt_Some|]. by rewrite Hi.
Qed.

Lemma inverse_transform le cs code :
  classes_ le = Some cs → NoDup cs → (code < length cs)%nat →
  ∃ v, LabelEncoder.inverse_transform1 le code = Ok v
       ∧ v ∈ cs
       ∧ LabelEncoder.transform1 le v = Ok code.
Proof.
intros Hcs Hnd Hlt. destruct (lookup_lt_is_Some_2 cs code Hlt) as [v Hv].
exists v. unfold LabelEncoder.transform1, LabelEncoder.inverse_transform1.
rewrite Hcs, Hv. split; [done|]. split; [by eapply list_elem_of_lookup_2|].
by rewrite (index_of_NoDup v cs code Hnd Hv).
Qed.

Lemma categorical_cell_defined col r :
  col ∈ categorical_cols → is_Some (categorical_cell col r).
Proof.
intros H. unfold categorical_cols in H.
repeat (apply elem_of_cons in H as [-> | H]); try (by eexists).
by apply elem_of_nil in H.
Qed.

Lemma categorical_column_defined rows col :
  col ∈ categorical_cols →
  ∃ column, mapM (categorical_cell col) rows = Some column
            ∧ Forall2 (λ r c, categorical_cell col r = Some c) rows column.
Proof.
intros Hcol. induction rows as [|r rows (column & E & HF)].
- exists []. split; [done|constructor].
- destruct (categorical_cell_defined col r Hcol) as [c Hc].
  exists (c :: column). split.
  + cbn. rewrite Hc. cbn. by rewrite E.
  + by constructor.
Qed.

Section FeatureEngineerFacts.
Variable series_std : list float → float.

Lemma fit_encoders_step (rows : list CleanRow) col cols :
  ∀ encoders : gmap string LabelEncoder,
  foldl (λ (encs : gmap string LabelEncoder) c,
           match mapM (categorical_cell c) rows with
           | Some column =>
               <[c := (LabelEncoder.fit_transform (astype_str <$> column)).1]> encs
           | None => encs
           end) encoders cols !! col
  = if decide (col ∈ cols ∧ is_Some (mapM (categorical_cell col) rows))
    then LabelEncoder.fit <$> categorical_column rows col
    else encoders !! col.
Proof.
induction cols as [|c cols IH]; intros encoders.
- case_decide as H; [|done]. destruct H as [H _]. by apply elem_of_nil in H.
- cbn [foldl]. rewrite IH. clear IH.
  destruct (decide (col ∈ cols ∧ is_Some (mapM (categorical_cell col) rows)))
    as [[Hin Hs]|Hnot];
  destruct (decide (col ∈ c :: cols ∧ is_Some (mapM (categorical_cell col) rows)))
    as [[Hin' Hs']|Hnot']; try done.
  + exfalso. apply Hnot'. split; [by right|done].
  + apply elem_of_cons in Hin' as [->|Hin']; [|exfalso; by apply Hnot].
    destruct Hs' as [column E]. rewrite E, lookup_insert_eq.
    unfold categorical_column. by rewrite E.
  + destruct (mapM (categorical_cell c) rows) as [column|] eqn:E; [|done].
    rewrite lookup_insert_ne; [done|]. intros ->. apply Hnot'.
    split; [by left|by eexists].
Qed.

Lemma fit_encoders_lookup rows encoders col :
  col ∈ categorical_cols →
  ∃ column, categorical_column rows col = Some column
            ∧ fit_encoders rows encoders !! col = Some (LabelEncoder.fit column).
Proof.
intros Hcol.
destruct (categorical_column_defined rows col Hcol) as (cells & E & _).
exists (astype_str <$> cells). unfold fit_encoders.
rewrite fit_encoders_step. case_decide as H.
- unfold categorical_column. by rewrite E.
- exfalso. apply H. split; [done|by eexists].
Qed.
End FeatureEngineerFacts.

(** ** The training table *)

Lemma available_features_all :
  filter (λ col, col ∈ df_columns) all_feature_columns = all_feature_columns.
Proof. vm_cast_no_check (eq_refl all_feature_columns). Qed.

Lemma numeric_columns_clock r :
  numeric_columns r !! "departure_minutes" = Some (Qc_of_Z <$> departure_minutes r)
  ∧ numeric_columns r !! "flight_duration" = Some (Qc_of_Z <$> flight_duration r).
Proof. split; reflexivity. Qed.

Lemma feature_row_duration r :
  feature_row all_feature_columns r !! 13%nat = Some (Qc_of_Z <$> flight_duration r).
Proof. reflexivity. Qed.

Lemma feature_columns_clock :
  "departure_minutes" ∈ all_feature_columns
  ∧ "flight_duration" ∈ all_feature_columns.
Proof. split; compute_done. Qed.

(** From here on the table of numeric columns and the list of features are
    read through the lemmas above only. *)
Opaque numeric_columns all_feature_columns.

Lemma mask_clock r :
  mask all_feature_columns r →
  is_Some (departure_minutes r) ∧ is_Some (flight_duration r).
Proof.
unfold mask. intros H.
destruct (proj1 (andb_True _ _) H) as [Hrow _].
pose proof (proj1 (Forall_forall _ _) (proj1 (forallb_True _ _) Hrow)) as Hall.
destruct (numeric_columns_clock r) as [Hdep Hdur].
destruct feature_columns_clock as [Cdep Cdur].
assert (Hcell : ∀ col v, col ∈ all_feature_columns →
                  numeric_columns r !! col = Some v → is_Some v).
{ intros col v Hcol Hv. apply (bool_decide_unpack _).
  apply Hall. unfold feature_row. apply list_elem_of_fmap. exists col.
  rewrite Hv. split; [reflexivity|exact Hcol]. }
split.
- apply (fmap_is_Some Qc_of_Z). exact (Hcell "departure_minutes" _ Cdep Hdep).
- apply (fmap_is_Some Qc_of_Z). exact (Hcell "flight_duration" _ Cdur Hdur).
Qed.

Lemma Ok_inj {A} (a b : A) : Ok a = Ok b → a = b.
Proof. by intros [= ->]. Qed.

Section FeatureEngineerClaims.
Variable series_std : list float → float.

Lemma feature_engineering_Ok self self' :
  feature_engineering series_std self = Ok self' →
  ∃ rows,
    df self = Some rows
    ∧ label_encoders self' = fit_encoders rows (label_encoders self)
    ∧ derived self' = derive rows (label_encoders self') <$> rows
    ∧ feature_columns self' = all_feature_columns
    ∧ X self' = feature_row all_feature_columns
                <$> filter (λ r, mask all_feature_columns r) (derived self')
    ∧ y self' = (λ r, price (src r))
                <$> filter (λ r, mask all_feature_columns r) (derived self').
Proof.
unfold feature_engineering. destruct (df self) as [rows|]; [|done].
rewrite available_features_all. intros <-%Ok_inj. exists rows.
repeat split; reflexivity.
Qed.

(** C6, amended. A row that survives [feature_engineering] has both clock
    times parsed, and its [flight_duration], which is also cell 13 of its
    row of [X], lies in [[0, 1440)] exactly when the arrival is less than a
    day after the departure and at most a day before it; this is so
    whenever both are minutes of a day, in [[0, 1440)]. *)
Theorem flight_duration_in_day self self' r :
  feature_engineering series_std self = Ok self' →
  r ∈ filter (λ r, mask (feature_columns self') r) (derived self') →
  ∃ dep arr dur,
    departure_minutes r = Some dep
    ∧ arrival_minutes r = Some arr
    ∧ flight_duration r = Some dur
    ∧ feature_row (feature_columns self') r !! 13%nat = Some (of_Z dur)
    ∧ dur = (if arr - dep <? 0 then arr - dep + 1440 else arr - dep)
    ∧ (0 ≤ dur < 1440 ↔ -1440 ≤ arr - dep < 1440)
    ∧ (0 ≤ dep < 1440 → 0 ≤ arr < 1440 → 0 ≤ dur < 1440).
Proof.
intros Hfe Hr.
apply feature_engineering_Ok in Hfe as (rows & _ & _ & Hderived & Hcols & _).
rewrite Hcols in Hr. rewrite Hcols. clear Hcols.
apply list_elem_of_filter in Hr as [Hmask Hr].
destruct (mask_clock r Hmask) as [[dep Hdep] [dur Hdur]].
rewrite feature_row_duration, Hdur. clear Hmask.
rewrite Hderived in Hr. apply list_elem_of_fmap in Hr as (r0 & Hr0 & _).
clear Hderived.
assert (Hd : departure_minutes r = Training.time_to_minutes (departure_time r0))
  by (rewrite Hr0; reflexivity).
assert (Ha : arrival_minutes r = Training.time_to_minutes (arrival_time r0))
  by (rewrite Hr0; reflexivity).
assert (Hf : flight_duration r
             = (λ x, if x <? 0 then x + 24 * 60 else x)
               <$> (d ← departure_minutes r; a ← arrival_minutes r; Some (a - d)))
  by (rewrite Hr0; reflexivity).
clear Hr0. rewrite Ha. rewrite Hf, Ha, Hdep in Hdur. clear Hf Ha Hd.
destruct (Training.time_to_minutes (arrival_time r0)) as [arr|];
  [|discriminate Hdur].
cbn [mbind option_bind fmap option_fmap option_map] in Hdur.
apply (inj Some) in Hdur. subst dur.
exists dep, arr, (if arr - dep <? 0 then arr - dep + 24 * 60 else arr - dep).
split; [exact Hdep|]. split; [reflexivity|]. split; [reflexivity|].
split; [reflexivity|]. split; [reflexivity|].
destruct (Z.ltb_spec (arr - dep) 0); split; lia.
Qed.
End FeatureEngineerClaims.

Transparent numeric_columns all_feature_columns.

Section EncoderClaims.
Variable series_std : list float → float.

(** C8. After [feature_engineering], every categorical column has an
    encoder whose classes are the distinct texts of the column; encoding a
    text of the vocabulary gives a code below the number of classes and
    decoding that code gives the text back; decoding a code below the
    number of classes gives a text of the vocabulary that encodes to the
    same code. *)
Theorem label_encoding_round_trip self self' col :
  feature_engineering series_std self = Ok self' →
  col ∈ categorical_cols →
  ∃ rows column le cs,
    df self = Some rows
    ∧ categorical_column rows col = Some column
    ∧ label_encoders self' !! col = Some le
    ∧ classes_ le = Some cs
    ∧ NoDup cs
    ∧ (∀ v, v ∈ cs ↔ v ∈ column)
    ∧ (∀ v, v ∈ cs →
         ∃ code, LabelEncoder.transform1 le v = Ok code
                 ∧ (code < length cs)%nat
                 ∧ LabelEncoder.inverse_transform1 le code = Ok v)
    ∧ (∀ code, (code < length cs)%nat →
         ∃ v, LabelEncoder.inverse_transform1 le code = Ok v
              ∧ v ∈ cs
              ∧ LabelEncoder.transform1 le v = Ok code).
Proof.
intros Hfe Hcol.
apply feature_engineering_Ok in Hfe as (rows & Hdf & Hencs & _).
destruct (fit_encoders_lookup rows (label_encoders self) col Hcol)
  as (column & Hcolumn & Hle).
exists rows, column, (LabelEncoder.fit column), (np_unique column).
rewrite Hencs. repeat split; try done.
- apply np_unique_NoDup.
- by apply np_unique_elem.
- by apply np_unique_elem.
- intros v Hv. by apply transform_inverse.
- intros code Hcode. apply inverse_transform; [done|apply np_unique_NoDup|done].
Qed.
End EncoderClaims.

Lemma engineered_demo :
  feature_engineering no_std (cleaned demo_csv) = Ok (engineered demo_csv).
Proof.
vm_cast_no_check (eq_refl (Ok (engineered demo_csv))).
Qed.

(** C8, at the fare class of the four listings. *)
Lemma label_encoding_round_trip_witness :
  ∃ le code,
    label_encoders (engineered demo_csv) !! "classes" = Some le
    ∧ LabelEncoder.transform1 le "Eco" = Ok code
    ∧ LabelEncoder.inverse_transform1 le code = Ok "Eco".
Proof.
destruct (label_encoding_round_trip no_std (cleaned demo_csv)
            (engineered demo_csv) "classes" engineered_demo)
  as (rows & column & le & cs & Hdf & Hcolumn & Hle & Hcs & _ & Hvoc & Hrt & _).
{ compute_done. }
assert (Hc : (df (cleaned demo_csv) ≫= λ rows, categorical_column rows "classes")
             = Some ["Eco"; "Eco"; "Business"; "Eco"]) by compute_done.
rewrite Hdf in Hc. cbn [mbind option_bind] in Hc. rewrite Hcolumn in Hc.
apply (inj Some) in Hc. subst column.
destruct (Hrt "Eco") as (code & Henc & _ & Hdec).
{ apply Hvoc. compute_done. }
exists le, code. split; [exact Hle|]. split; [exact Henc|exact Hdec].
Defined.

(** C6, at the listing that lands after midnight: 23:30 to 01:00 is 90
    minutes. *)
Lemma flight_duration_in_day_witness :
  ∃ r,
    filter (λ r, mask (feature_columns (engineered demo_csv)) r)
           (derived (engineered demo_csv)) !! 3%nat = Some r
    ∧ departure_minutes r = Some 1410
    ∧ arrival_minutes r = Some 60
    ∧ flight_duration r = Some 90.
Proof.
destruct (filter (λ r, mask (feature_columns (engineered demo_csv)) r)
                 (derived (engineered demo_csv)) !! 3%nat) as [r|] eqn:E.
- exists r. split; [reflexivity|].
  destruct (flight_duration_in_day no_std (cleaned demo_csv)
              (engineered demo_csv) r engineered_demo)
    as (dep & arr & dur & Hdep & Harr & Hdur & _ & Hval & _).
  { by eapply list_elem_of_lookup_2. }
  assert (Hd : departure_minutes
               <$> filter (λ r, mask (feature_columns (engineered demo_csv)) r)
                          (derived (engineered demo_csv)) !! 3%nat
               = Some (Some 1410)) by compute_done.
  assert (Ha : arrival_minutes
               <$> filter (λ r, mask (feature_columns (engineered demo_csv)) r)
                          (derived (engineered demo_csv)) !! 3%nat
               = Some (Some 60)) by compute_done.
  rewrite E in Hd, Ha. cbn [fmap option_fmap option_map] in Hd, Ha.
  apply (inj Some) in Hd, Ha. rewrite Hdep in Hd. rewrite Harr in Ha.
  apply (inj Some) in Hd, Ha. subst dep arr.
  split; [exact Hdep|]. split; [exact Harr|]. rewrite Hdur, Hval. reflexivity.
- exfalso.
  assert (Hd : is_Some (filter (λ r, mask (feature_columns (engineered demo_csv)) r)
                               (derived (engineered demo_csv)) !! 3%nat))
    by compute_done.
  rewrite E in Hd. by destruct Hd.
Defined.

(** C6 as stated fails on a listing from 00:00 to 24:00: the row survives
    feature engineering and its duration is 1440. *)
Lemma flight_duration_midnight_counterexample :
  flight_duration
  <$> filter (λ r, mask (feature_columns (engineered midnight_csv)) r)
             (derived (engineered midnight_csv))
  = [Some 1440]
  ∧ ((λ x, x !! 13%nat) <$> X (engineered midnight_csv)) = [Some (of_Z 1440)]
  ∧ ¬ (0 ≤ 1440 < 1440).
Proof. compute_done. Qed.

(** ** The cleaner *)

Lemma drop_duplicates_elem `{EqDecision A} (x : A) (l : list A) :
  x ∈ drop_duplicates l ↔ x ∈ l.
Proof.
induction l as [|a l IH]; simpl; [done|].
rewrite !elem_of_cons, list_elem_of_filter, IH.
destruct (decide (x = a)) as [->|Hne]; [by split; left|].
split; [intros [?|[_ ?]]; [done|by right]|intros [?|?]; [done|by right]].
Qed.

Lemma drop_duplicates_NoDup `{EqDecision A} (l : list A) :
  NoDup (drop_duplicates l).
Proof.
induction l as [|a l IH]; simpl; [constructor|].
apply NoDup_cons. split.
- rewrite list_elem_of_filter. by intros [? _].
- by apply NoDup_filter.
Qed.

(** Cleaning and feature engineering leave [best_model] as it was: an
    object that was only cleaned and engineered still has no model. *)
Lemma no_model_before_training to_datetime series_std self self' :
  (load_and_preprocess_data to_datetime series_std self = Ok self'
   ∨ feature_engineering series_std self = Ok self') →
  best_model self' = best_model self.
Proof.
unfold load_and_preprocess_data, feature_engineering. intros [H|H].
- destruct (csv_file self); [|done]. by apply Ok_inj in H as <-.
- destruct (df self); [|done]. by apply Ok_inj in H as <-.
Qed.

Section DataCleanerClaims.
Variable to_datetime : string → parse_result.
Variable series_std : list float → float.

Lemma clean_row_fused (rows : list RawRow) :
  filter (λ r : CleanRow, is_Some (type_of_plane r))
    (filter (λ r : CleanRow, type_of_plane r ≠ Some "")
       ((λ r : CleanRow, with_type_of_plane r (strip <$> type_of_plane r))
        <$> omap (λ r : Row Timestamp (option string),
                    with_flight_date r
                    <$> parse_flight_date to_datetime (flight_date r))
              (omap (λ r : RawRow,
                       with_create_at r
                       <$> to_datetime_coerce to_datetime (create_at r)) rows)))
  = omap (clean_row to_datetime) rows.
Proof.
induction rows as [|r rows IH]; [done|].
cbn [omap list_omap].
destruct (to_datetime_coerce to_datetime (create_at r)) as [t1|] eqn:E1;
  [|unfold clean_row at 1; rewrite E1; exact IH].
cbn [fmap option_fmap option_map omap list_omap with_create_at flight_date].
destruct (parse_flight_date to_datetime (flight_date r)) as [t2|] eqn:E2;
  [|unfold clean_row at 1; rewrite E1, E2; exact IH].
cbn [fmap option_fmap option_map list_fmap].
rewrite filter_cons.
cbn [type_of_plane with_type_of_plane with_flight_date with_create_at].
unfold clean_row at 1. rewrite E1, E2. cbn [mbind option_bind].
destruct (type_of_plane r) as [p|] eqn:E3; cbn [fmap option_fmap option_map mbind option_bind].
- destruct (decide (strip p = "")) as [Hp|Hp].
  + rewrite decide_False by (rewrite Hp; by intros ?). exact IH.
  + rewrite decide_True by congruence. rewrite filter_cons.
    cbn [type_of_plane]. rewrite decide_True by (by eexists).
    f_equal. exact IH.
- rewrite decide_True by done. rewrite filter_cons.
  cbn [type_of_plane]. rewrite decide_False by (by intros [? ?]). exact IH.
Qed.

(** C1, amended. On every table the cleaner returns. It drops exact
    duplicates, computes Q1 and Q3 on the prices of the deduplicated rows,
    drops the rows whose price is outside [[Q1 - 1.5 IQR, Q3 + 1.5 IQR]],
    records Q1 and Q3 with the minimum, maximum, mean and deviation of the
    prices that remain, and only then drops the rows whose creation
    timestamp does not parse, whose flight date fails the stricter parse,
    or whose aircraft type is empty or missing: the statistics do not
    depend on the date parser, and the table is the inliers that pass the
    three filters, in their order. *)
Theorem cleaner_computes_statistics_before_parsing self table :
  csv_file self = Some table →
  let deduplicated := drop_duplicates table in
  let Q1 := quantile (price <$> deduplicated) q25 in
  let Q3 := quantile (price <$> deduplicated) q75 in
  let IQR := Float.sub Q3 Q1 in
  let lower_bound := Float.sub Q1 (Float.mul one_and_a_half IQR) in
  let upper_bound := Float.add Q3 (Float.mul one_and_a_half IQR) in
  let inliers :=
    filter (λ r, within lower_bound upper_bound (price r)) deduplicated in
  ∃ self' stats,
    load_and_preprocess_data to_datetime series_std self = Ok self'
    ∧ price_stats self' = Some stats
    ∧ stats !! "Q1" = Some Q1
    ∧ stats !! "Q3" = Some Q3
    ∧ stats !! "min" = Some (series_min (price <$> inliers))
    ∧ stats !! "max" = Some (series_max (price <$> inliers))
    ∧ stats !! "mean" = Some (series_mean (price <$> inliers))
    ∧ stats !! "std" = Some (series_std (price <$> inliers))
    ∧ df self' = Some (omap (clean_row to_datetime) inliers).
Proof.
intros Hcsv deduplicated Q1 Q3 IQR lower_bound upper_bound inliers.
unfold load_and_preprocess_data. rewrite Hcsv.
eexists _, _. split; [reflexivity|]. cbn [price_stats df].
split; [reflexivity|].
repeat (split; [reflexivity|]).
f_equal. apply clean_row_fused.
Qed.
End DataCleanerClaims.

Lemma cleaned_stale :
  load_and_preprocess_data iso_to_datetime no_std (__init__ (Some stale_csv))
  = Ok (cleaned stale_csv).
Proof. vm_cast_no_check (eq_refl (Ok (cleaned stale_csv))). Qed.

(** C1, at the table with a stale row: the quartiles and the maximum count
    the row whose timestamp does not parse, and the table does not hold
    it. *)
Lemma cleaner_computes_statistics_before_parsing_witness :
  ∃ stats,
    price_stats (cleaned stale_csv) = Some stats
    ∧ stats !! "Q1" = Some (quantile (price <$> stale_csv) q25)
    ∧ stats !! "max" = Some (of_Z 4000000)
    ∧ length <$> df (cleaned stale_csv) = Some 3%nat.
Proof.
destruct (cleaner_computes_statistics_before_parsing iso_to_datetime no_std
            (__init__ (Some stale_csv)) stale_csv eq_refl)
  as (self' & stats & Hrun & Hstats & HQ1 & _ & _ & Hmax & _ & _ & Hdf).
rewrite cleaned_stale in Hrun. apply Ok_inj in Hrun. subst self'.
exists stats. split; [exact Hstats|].
assert (Hdd : drop_duplicates stale_csv = stale_csv) by compute_done.
rewrite Hdd in HQ1. split; [exact HQ1|]. split.
- rewrite Hmax. compute_done.
- rewrite Hdf. compute_done.
Defined.

(** C1 as stated fails on the same table: the recorded Q1 and maximum are
    1 750 000 and 4 000 000, those of the four deduplicated rows, while the
    rows that pass the timestamp, flight-date and aircraft-type filters
    have Q1 1 500 000 and maximum 3 000 000, which is what the cleaner in
    the order of the specification records. *)
Lemma cleaner_order_counterexample :
  (price_stats (cleaned stale_csv) ≫= (.!! "Q1")) = Some (of_Z 1750000)
  ∧ (price_stats (cleaned stale_csv) ≫= (.!! "max")) = Some (of_Z 4000000)
  ∧ (cleaner_in_spec_order iso_to_datetime no_std stale_csv).2 !! "Q1"
    = Some (of_Z 1500000)
  ∧ (cleaner_in_spec_order iso_to_datetime no_std stale_csv).2 !! "max"
    = Some (of_Z 3000000)
  ∧ quantile (price <$> default [] (df (cleaned stale_csv))) q25
    = of_Z 1500000
  ∧ series_max (price <$> default [] (df (cleaned stale_csv)))
    = of_Z 3000000.
Proof. compute_done. Qed.

(** * Further properties of the code *)

(** ** The cleaned table *)

Lemma series_min_spec (s : list float) :
  match series_min s with
  | Some m => Some m ∈ s ∧ ∀ x, Some x ∈ s → (m ≤ x)%Qc
  | None => ∀ x, Some x ∉ s
  end.
Proof.
unfold series_min, dropna. induction s as [|[a|] s IH]; cbn [omap list_omap id].
- intros x Hx. by apply elem_of_nil in Hx.
- cbn [foldr].
  destruct (foldr _ None (omap id s)) as [m|].
  + destruct IH as [Hm Hle]. case_bool_decide as Hlt.
    * split; [left|]. intros x [->%(inj Some)|Hx]%elem_of_cons; [apply Qcle_refl|].
      apply Qclt_le_weak. eapply Qclt_le_trans; [exact Hlt|by apply Hle].
    * split; [by right|]. intros x [->%(inj Some)|Hx]%elem_of_cons; [|by apply Hle].
      by apply Qcnot_lt_le.
  + split; [left|]. intros x [->%(inj Some)|Hx]%elem_of_cons; [apply Qcle_refl|].
    by destruct (IH x).
- destruct (foldr _ None (omap id s)) as [m|].
  + destruct IH as [Hm Hle]. split; [by right|].
    intros x [?|Hx]%elem_of_cons; [done|by apply Hle].
  + intros x [?|Hx]%elem_of_cons; [done|by apply (IH x)].
Qed.

Lemma series_max_spec (s : list float) :
  match series_max s with
  | Some m => Some m ∈ s ∧ ∀ x, Some x ∈ s → (x ≤ m)%Qc
  | None => ∀ x, Some x ∉ s
  end.
Proof.
unfold series_max, dropna. induction s as [|[a|] s IH]; cbn [omap list_omap id].
- intros x Hx. by apply elem_of_nil in Hx.
- cbn [foldr].
  destruct (foldr _ None (omap id s)) as [m|].
  + destruct IH as [Hm Hle]. case_bool_decide as Hlt.
    * split; [left|]. intros x [->%(inj Some)|Hx]%elem_of_cons; [apply Qcle_refl|].
      apply Qclt_le_weak. eapply Qcle_lt_trans; [by apply Hle|exact Hlt].
    * split; [by right|]. intros x [->%(inj Some)|Hx]%elem_of_cons; [|by apply Hle].
      by apply Qcnot_lt_le.
  + split; [left|]. intros x [->%(inj Some)|Hx]%elem_of_cons; [apply Qcle_refl|].
    by destruct (IH x).
- destruct (foldr _ None (omap id s)) as [m|].
  + destruct IH as [Hm Hle]. split; [by right|].
    intros x [?|Hx]%elem_of_cons; [done|by apply Hle].
  + intros x [?|Hx]%elem_of_cons; [done|by apply (IH x)].
Qed.

Lemma within_true lower upper p :
  within lower upper p = true →
  ∃ x, p = Some x ∧ Float.le lower p = true ∧ Float.le p upper = true.
Proof.
unfold within, Float.ge. intros [H1 H2]%andb_true_iff.
destruct p as [x|]; [by exists x|]. by destruct lower.
Qed.

Section DataCleanerFacts.
Variable to_datetime : string → parse_result.
Variable series_std : list float → float.

Lemma load_and_preprocess_data_Ok self self' :
  load_and_preprocess_data to_datetime series_std self = Ok self' →
  ∃ table,
    csv_file self = Some table
    ∧ df self' = Some (omap (clean_row to_datetime) (inlier_rows table))
    ∧ price_stats self'
      = Some (make_price_stats series_std
                (quantile (price <$> drop_duplicates table) q25)
                (quantile (price <$> drop_duplicates table) q75)
                (price <$> inlier_rows table)).
Proof.
unfold load_and_preprocess_data.
destruct (csv_file self) as [table|]; [|done].
intros <-%Ok_inj. exists table. split; [done|]. cbn [df price_stats].
split; [|reflexivity]. f_equal. apply clean_row_fused.
Qed.

Lemma clean_row_Some raw r :
  clean_row to_datetime raw = Some r →
  to_datetime_coerce to_datetime (create_at raw) = Some (create_at r)
  ∧ parse_flight_date to_datetime (flight_date raw) = Some (flight_date r)
  ∧ (∃ p, type_of_plane raw = Some p ∧ strip p ≠ ""
          ∧ type_of_plane r = Some (strip p))
  ∧ flight_number r = flight_number raw
  ∧ departure_airport r = departure_airport raw
  ∧ arrival_airport r = arrival_airport raw
  ∧ departure_time r = departure_time raw
  ∧ arrival_time r = arrival_time raw
  ∧ classes r = classes raw
  ∧ price r = price raw.
Proof.
unfold clean_row.
destruct (to_datetime_coerce to_datetime (create_at raw)) as [t1|]; [|done].
destruct (parse_flight_date to_datetime (flight_date raw)) as [t2|]; [|done].
destruct (type_of_plane raw) as [p|]; [|done].
cbn [mbind option_bind]. destruct (decide (strip p = "")) as [|Hp]; [done|].
intros [= <-]. cbn. repeat split; try done. by exists p.
Qed.

(** X1. Every row that [load_and_preprocess_data] leaves in [self.df] comes
    from a row of the CSV whose price is a number inside the outlier bounds
    [[Q1 - 1.5 IQR, Q3 + 1.5 IQR]] of the deduplicated table, whose
    [create_at] parsed, whose [flight_date] passed [parse_flight_date], and
    whose [type_of_plane] is a text that is not empty once stripped; the
    cleaned row holds the two parsed timestamps and the stripped text. *)
Theorem cleaned_rows_are_parsed_inliers self self' rows r :
  load_and_preprocess_data to_datetime series_std self = Ok self' →
  df self' = Some rows →
  r ∈ rows →
  ∃ table raw x p,
    csv_file self = Some table
    ∧ raw ∈ table
    ∧ price r = Some x
    ∧ price raw = Some x
    ∧ within (price_fence (price <$> drop_duplicates table)).1
             (price_fence (price <$> drop_duplicates table)).2 (Some x) = true
    ∧ to_datetime_coerce to_datetime (create_at raw) = Some (create_at r)
    ∧ parse_flight_date to_datetime (flight_date raw) = Some (flight_date r)
    ∧ type_of_plane raw = Some p
    ∧ type_of_plane r = Some (strip p)
    ∧ strip p ≠ "".
Proof.
intros (table & Hcsv & Hdf & _)%load_and_preprocess_data_Ok Hrows Hr.
rewrite Hdf in Hrows. apply (inj Some) in Hrows. subst rows.
apply list_elem_of_omap in Hr as (raw & Hraw & Hclean).
unfold inlier_rows in Hraw. apply list_elem_of_filter in Hraw as [Hin Hraw].
apply (proj1 (drop_duplicates_elem _ _)) in Hraw.
apply Is_true_true in Hin.
apply clean_row_Some in Hclean
  as (Hc & Hf & (p & Hp & Hne & Hp') & _ & _ & _ & _ & _ & _ & Hprice).
destruct (within_true _ _ _ Hin) as (x & Hx & _).
exists table, raw, x, p. rewrite Hprice, <- Hx. done.
Qed.

Lemma cleaned_row_price self self' rows r :
  load_and_preprocess_data to_datetime series_std self = Ok self' →
  df self' = Some rows →
  r ∈ rows →
  ∃ table x,
    csv_file self = Some table
    ∧ price r = Some x
    ∧ Some x ∈ price <$> inlier_rows table.
Proof.
intros (table & Hcsv & Hdf & _)%load_and_preprocess_data_Ok Hrows Hr.
rewrite Hdf in Hrows. apply (inj Some) in Hrows. subst rows.
apply list_elem_of_omap in Hr as (raw & Hraw & Hclean).
apply clean_row_Some in Hclean as (_ & _ & _ & _ & _ & _ & _ & _ & _ & Hprice).
pose proof Hraw as Hin. unfold inlier_rows in Hin.
apply list_elem_of_filter in Hin as [Hin _]. apply Is_true_true in Hin.
destruct (within_true _ _ _ Hin) as (x & Hx & _).
exists table, x. split; [done|]. split; [congruence|].
apply list_elem_of_fmap. exists raw. by rewrite Hx.
Qed.

Lemma inlier_price_in_fence table x :
  Some x ∈ price <$> inlier_rows table →
  Float.le (price_fence (price <$> drop_duplicates table)).1 (Some x) = true
  ∧ Float.le (Some x) (price_fence (price <$> drop_duplicates table)).2 = true.
Proof.
intros (raw & Hx & Hraw)%list_elem_of_fmap. unfold inlier_rows in Hraw.
apply list_elem_of_filter in Hraw as [Hin _]. apply Is_true_true in Hin.
destruct (within_true _ _ _ Hin) as (x' & Hx' & H1 & H2).
rewrite <- Hx in H1, H2. done.
Qed.

Lemma price_stats_min_max self self' table x :
  load_and_preprocess_data to_datetime series_std self = Ok self' →
  csv_file self = Some table →
  Some x ∈ price <$> inlier_rows table →
  ∃ stats lo hi,
    price_stats self' = Some stats
    ∧ stats !! "min" = Some (Some lo)
    ∧ stats !! "max" = Some (Some hi)
    ∧ Some lo ∈ price <$> inlier_rows table
    ∧ Some hi ∈ price <$> inlier_rows table
    ∧ (lo ≤ x)%Qc ∧ (x ≤ hi)%Qc.
Proof.
intros (table' & Hcsv & _ & Hstats)%load_and_preprocess_data_Ok Hcsv' Hx.
rewrite Hcsv' in Hcsv. apply (inj Some) in Hcsv. subst table'.
pose proof (series_min_spec (price <$> inlier_rows table)) as Hmin.
pose proof (series_max_spec (price <$> inlier_rows table)) as Hmax.
destruct (series_min (price <$> inlier_rows table)) as [lo|] eqn:Elo;
  [|by destruct (Hmin x)].
destruct (series_max (price <$> inlier_rows table)) as [hi|] eqn:Ehi;
  [|by destruct (Hmax x)].
destruct Hmin as [Hlo Hmin], Hmax as [Hhi Hmax].
eexists _, lo, hi. split; [exact Hstats|].
unfold make_price_stats. rewrite Elo, Ehi.
split; [reflexivity|]. split; [reflexivity|]. auto.
Qed.

(** X2. Whenever the cleaned table has a row, [price_stats['min']] and
    [price_stats['max']] are numbers, the price of every cleaned row lies
    between them, and both lie inside the outlier bounds. *)
Theorem price_stats_bound_the_cleaned_prices self self' rows r :
  load_and_preprocess_data to_datetime series_std self = Ok self' →
  df self' = Some rows →
  r ∈ rows →
  ∃ table stats lo hi x,
    csv_file self = Some table
    ∧ price_stats self' = Some stats
    ∧ stats !! "min" = Some (Some lo)
    ∧ stats !! "max" = Some (Some hi)
    ∧ price r = Some x
    ∧ (lo ≤ x)%Qc ∧ (x ≤ hi)%Qc
    ∧ Float.le (price_fence (price <$> drop_duplicates table)).1 (Some lo) = true
    ∧ Float.le (Some hi) (price_fence (price <$> drop_duplicates table)).2 = true.
Proof.
intros Hload Hrows Hr.
destruct (cleaned_row_price self self' rows r Hload Hrows Hr)
  as (table & x & Hcsv & Hx & Hin).
destruct (price_stats_min_max self self' table x Hload Hcsv Hin)
  as (stats & lo & hi & Hstats & Hlo & Hhi & Hlo_in & Hhi_in & H1 & H2).
exists table, stats, lo, hi, x.
repeat (split; [done|]).
split; [apply (inlier_price_in_fence table lo Hlo_in)|
        apply (inlier_price_in_fence table hi Hhi_in)].
Qed.

(** X3. The price range that [analyze_data_distribution] prints after
    [load_and_preprocess_data], when it prints two numbers, lies within
    [[price_stats['min'], price_stats['max']]]. *)
Theorem reported_price_range_within_price_stats self self' lowest highest :
  load_and_preprocess_data to_datetime series_std self = Ok self' →
  PrintPriceRange (Some lowest) (Some highest) ∈ analyze_data_distribution self' →
  ∃ stats lo hi,
    price_stats self' = Some stats
    ∧ stats !! "min" = Some (Some lo)
    ∧ stats !! "max" = Some (Some hi)
    ∧ (lo ≤ lowest)%Qc ∧ (lowest ≤ highest)%Qc ∧ (highest ≤ hi)%Qc.
Proof.
intros Hload. unfold analyze_data_distribution.
destruct (df self') as [rows|] eqn:Hdf.
2:{ intros [?|[]%elem_of_nil]%elem_of_cons. done. }
intros Hin. repeat (apply elem_of_cons in Hin as [Hin|Hin]; [try done|]).
2:{ by apply elem_of_nil in Hin. }
injection Hin as Elo Ehi.
pose proof (series_min_spec (price <$> rows)) as Hmin.
pose proof (series_max_spec (price <$> rows)) as Hmax.
rewrite <- Elo in Hmin. rewrite <- Ehi in Hmax.
destruct Hmin as [Hlo Hmin], Hmax as [Hhi Hmax].
apply list_elem_of_fmap in Hlo as (r1 & Hp1 & Hr1).
apply list_elem_of_fmap in Hhi as (r2 & Hp2 & Hr2).
destruct (cleaned_row_price self self' rows r1 Hload Hdf Hr1)
  as (table & x1 & Hcsv & Hx1 & Hin1).
destruct (cleaned_row_price self self' rows r2 Hload Hdf Hr2)
  as (table' & x2 & Hcsv' & Hx2 & Hin2).
rewrite Hcsv in Hcsv'. apply (inj Some) in Hcsv'. subst table'.
assert (x1 = lowest) as -> by congruence.
assert (x2 = highest) as -> by congruence.
destruct (price_stats_min_max self self' table lowest Hload Hcsv Hin1)
  as (stats & lo & hi & Hstats & Hlo & Hhi & _ & _ & H1 & _).
destruct (price_stats_min_max self self' table highest Hload Hcsv Hin2)
  as (stats' & lo' & hi' & Hstats' & Hlo' & Hhi' & _ & _ & _ & H2).
assert (stats' = stats) as -> by congruence.
assert (hi' = hi) as -> by congruence.
exists stats, lo, hi. repeat (split; [done|]).
split; [|done]. apply Hmin. apply list_elem_of_fmap. by exists r2.
Qed.

End DataCleanerFacts.

(** ** Duplicates *)

Lemma drop_duplicates_insert `{EqDecision A} (r : A) (l1 l2 : list A) :
  filter (λ r', r' ≠ r) (drop_duplicates (l1 ++ r :: l2))
  = filter (λ r', r' ≠ r) (drop_duplicates (l1 ++ l2)).
Proof.
induction l1 as [|a l1 IH]; cbn [app drop_duplicates].
- rewrite filter_cons_False by (by intros ?).
  apply list_filter_filter_l. done.
- rewrite !filter_cons. destruct (decide (a ≠ r)) as [Ha|Ha].
  + f_equal.
    assert (Hcomm : ∀ l : list A,
              filter (λ r', r' ≠ r) (filter (λ r', r' ≠ a) l)
              = filter (λ r', r' ≠ a) (filter (λ r', r' ≠ r) l)).
    { intros l. rewrite !list_filter_filter. apply list_filter_iff. tauto. }
    by rewrite !Hcomm, IH.
  + apply dec_stable in Ha. subst a.
    rewrite !(list_filter_filter_l (λ r', r' ≠ r) (λ r', r' ≠ r)) by done.
    exact IH.
Qed.

Lemma drop_duplicates_repeated `{EqDecision A} (r : A) (l1 l2 : list A) :
  r ∈ l1 → drop_duplicates (l1 ++ r :: l2) = drop_duplicates (l1 ++ l2).
Proof.
induction l1 as [|a l1 IH]; [by intros ?%elem_of_nil|].
intros [->|Hr]%elem_of_cons; cbn [app drop_duplicates]; f_equal.
- apply drop_duplicates_insert.
- by rewrite IH.
Qed.

(** X4. A copy of a row that already occurs earlier in the CSV changes
    neither the cleaned table nor the price statistics: duplicates are
    dropped before the quartiles are computed. *)
Theorem repeated_row_changes_nothing to_datetime series_std self1 self2 l1 r l2 :
  csv_file self1 = Some (l1 ++ r :: l2)%list →
  csv_file self2 = Some (l1 ++ l2)%list →
  r ∈ l1 →
  ∃ self1' self2',
    load_and_preprocess_data to_datetime series_std self1 = Ok self1'
    ∧ load_and_preprocess_data to_datetime series_std self2 = Ok self2'
    ∧ df self1' = df self2'
    ∧ price_stats self1' = price_stats self2'.
Proof.
intros H1 H2 Hr. unfold load_and_preprocess_data. rewrite H1, H2.
eexists _, _. split; [reflexivity|]. split; [reflexivity|].
cbn [df price_stats]. rewrite (drop_duplicates_repeated r l1 l2 Hr). done.
Qed.

(** ** The outlier filter keeps a priced row *)

Lemma fence_arithmetic_same (a b N l : Q) :
  (a <= b → 0 <= N → 0 <= l → l <= (1#4) * N →
   (a + (b - a) * ((1#4) * N - l))
   - (3#2) * ((a + (b - a) * ((3#4) * N - l)) - (a + (b - a) * ((1#4) * N - l)))
   <= a
   ∧ a <= (a + (b - a) * ((3#4) * N - l))
          + (3#2) * ((a + (b - a) * ((3#4) * N - l))
                     - (a + (b - a) * ((1#4) * N - l))))%Q.
Proof.
intros Hab HN Hl Hl'.
assert (0 <= (b - a) * ((1#2) * N + l))%Q by (apply Qmult_le_0_compat; lra).
assert (0 <= (b - a) * ((3#2) * N - l))%Q by (apply Qmult_le_0_compat; lra).
split; nra.
Qed.

Lemma fence_arithmetic_apart (a1 b1 a3 b3 f1 f3 : Q) :
  (a1 <= b1 → b1 <= a3 → a3 <= b3 → 0 <= f1 → f1 <= 1 → 0 <= f3 →
   (a1 + (b1 - a1) * f1)
   - (3#2) * ((a3 + (b3 - a3) * f3) - (a1 + (b1 - a1) * f1)) <= b1
   ∧ b1 <= (a3 + (b3 - a3) * f3)
           + (3#2) * ((a3 + (b3 - a3) * f3) - (a1 + (b1 - a1) * f1)))%Q.
Proof.
intros H1 H2 H3 H4 H5 H6.
assert (0 <= (b1 - a1) * f1)%Q by (apply Qmult_le_0_compat; lra).
assert (0 <= (b1 - a1) * (1 - f1))%Q by (apply Qmult_le_0_compat; lra).
assert (0 <= (b3 - a3) * f3)%Q by (apply Qmult_le_0_compat; lra).
split; nra.
Qed.

Lemma fence_same_Qc (a b N l : Qc) :
  (a ≤ b → 0 ≤ N → 0 ≤ l → l ≤ q25 * N →
   (a + (b - a) * (q25 * N - l))
   - Q2Qc (3#2) * ((a + (b - a) * (q75 * N - l)) - (a + (b - a) * (q25 * N - l)))
   ≤ a
   ∧ a ≤ (a + (b - a) * (q75 * N - l))
         + Q2Qc (3#2) * ((a + (b - a) * (q75 * N - l))
                         - (a + (b - a) * (q25 * N - l))))%Qc.
Proof.
intros H1 H2 H3 H4. Qc_to_Q. by apply fence_arithmetic_same.
Qed.

Lemma fence_apart_Qc (a1 b1 a3 b3 f1 f3 : Qc) :
  (a1 ≤ b1 → b1 ≤ a3 → a3 ≤ b3 → 0 ≤ f1 → f1 ≤ 1 → 0 ≤ f3 →
   (a1 + (b1 - a1) * f1)
   - Q2Qc (3#2) * ((a3 + (b3 - a3) * f3) - (a1 + (b1 - a1) * f1)) ≤ b1
   ∧ b1 ≤ (a3 + (b3 - a3) * f3)
          + Q2Qc (3#2) * ((a3 + (b3 - a3) * f3) - (a1 + (b1 - a1) * f1)))%Qc.
Proof.
intros H1 H2 H3 H4 H5 H6. Qc_to_Q. by apply fence_arithmetic_apart.
Qed.

Lemma sorted_lookup_le (v : list Qc) : ∀ i j x y,
  StronglySorted Qcle v → (i ≤ j)%nat →
  v !! i = Some x → v !! j = Some y → (x ≤ y)%Qc.
Proof.
induction v as [|a v IH]; intros i j x y Hs Hij Hi Hj; [done|].
apply StronglySorted_inv in Hs as [Hs Ha].
destruct i as [|i], j as [|j]; cbn in Hi, Hj; try lia.
- assert (x = y) as -> by congruence. apply Qcle_refl.
- injection Hi as <-. rewrite Forall_forall in Ha. apply Ha.
  by eapply list_elem_of_lookup_2.
- apply (IH i j); [done|lia|done..].
Qed.

Lemma sorted_prices (s : list float) :
  let v := merge_sort Qcle (dropna s) in
  StronglySorted Qcle v
  ∧ length v = length (dropna s)
  ∧ ∀ x, x ∈ v ↔ Some x ∈ s.
Proof.
intros v. split; [apply StronglySorted_merge_sort; apply _|].
pose proof (merge_sort_Permutation Qcle (dropna s)) as Hperm. fold v in Hperm.
split; [by rewrite Hperm|]. intros x. rewrite Hperm. unfold dropna.
rewrite list_elem_of_omap. split.
- by intros ([y|] & Hy & [= <-]).
- intros Hx. by exists (Some x).
Qed.

Lemma inject_Z_nonneg (z : Z) : (0 ≤ z)%Z → (0 <= inject_Z z)%Q.
Proof. intros H. unfold Qle. cbn [Qnum Qden inject_Z]. lia. Qed.

Lemma floor_position (q : Qc) (N : Z) :
  (0 ≤ q)%Qc → (q ≤ 1)%Qc → (0 ≤ N)%Z →
  (0 ≤ Qfloor (q * Qc_of_Z N)%Qc ≤ N)%Z
  ∧ (Qc_of_Z (Qfloor (q * Qc_of_Z N)%Qc) ≤ q * Qc_of_Z N)%Qc
  ∧ (q * Qc_of_Z N - Qc_of_Z (Qfloor (q * Qc_of_Z N)%Qc) ≤ 1)%Qc
  ∧ (0 ≤ q * Qc_of_Z N - Qc_of_Z (Qfloor (q * Qc_of_Z N)%Qc))%Qc
  ∧ (0 ≤ Qc_of_Z N)%Qc
  ∧ (0 ≤ Qc_of_Z (Qfloor (q * Qc_of_Z N)%Qc))%Qc.
Proof.
intros Hq0 Hq1 HN.
set (pos := (q * Qc_of_Z N)%Qc).
pose proof (Qfloor_le pos) as Hfl. pose proof (Qlt_floor pos) as Hlt.
rewrite inject_Z_plus in Hlt.
assert (HNq : (0 <= inject_Z N)%Q) by (by apply inject_Z_nonneg).
assert (Hpos : (pos == q * inject_Z N)%Q).
{ unfold pos. cbn [this Qcmult Q2Qc Qc_of_Z]. by rewrite !Qred_correct. }
assert (Hpos0 : (inject_Z 0 <= pos)%Q).
{ rewrite Hpos. change (inject_Z 0) with 0%Q. apply Qmult_le_0_compat; [exact Hq0|exact HNq]. }
assert (HposN : (pos <= inject_Z N)%Q).
{ rewrite Hpos. assert (Hq1' : (q <= 1)%Q) by exact Hq1.
  assert (0 <= (1 - q) * inject_Z N)%Q by (apply Qmult_le_0_compat; lra).
  nra. }
assert (Hlo : (0 ≤ Qfloor pos ≤ N)%Z).
{ pose proof (Qfloor_resp_le _ _ Hpos0) as H0.
  pose proof (Qfloor_resp_le _ _ HposN) as H1.
  rewrite Qfloor_Z in H0, H1. lia. }
split; [exact Hlo|].
assert (Hloq : (0 <= inject_Z (Qfloor pos))%Q) by (apply inject_Z_nonneg; lia).
unfold Qcle. cbn [this Qcplus Qcminus Qcmult Qcopp Q2Qc Qc_of_Z].
rewrite ?Qred_correct. fold pos.
change (this (Q2Qc 0)) with 0%Q. change (this 1%Qc) with 1%Q.
change (inject_Z 1) with 1%Q in Hlt.
repeat split; lra.
Qed.

Lemma q25_q75_bounds :
  (0 ≤ q25)%Qc ∧ (q25 ≤ 1)%Qc ∧ (0 ≤ q75)%Qc ∧ (q75 ≤ 1)%Qc ∧ (q25 ≤ q75)%Qc.
Proof. compute_done. Qed.

Lemma quantile_order_statistics (s : list float) (q : Qc) :
  (0 ≤ q)%Qc → (q ≤ 1)%Qc → (∃ x, Some x ∈ s) →
  let v := merge_sort Qcle (dropna s) in
  let N := (Z.of_nat (length v) - 1)%Z in
  let lo := Qfloor (q * Qc_of_Z N)%Qc in
  ∃ a,
    (0 ≤ N)%Z
    ∧ v !! Z.to_nat lo = Some a
    ∧ quantile s q
      = Some (a + (default a (v !! Z.to_nat (lo + 1)) - a)
                  * (q * Qc_of_Z N - Qc_of_Z lo))%Qc.
Proof.
intros Hq0 Hq1 [x Hx] v N lo.
destruct (sorted_prices s) as (_ & _ & Helem). fold v in Helem.
apply Helem in Hx.
assert (HN : (0 ≤ N)%Z).
{ unfold N. destruct v; [by apply elem_of_nil in Hx|]. cbn [length]. lia. }
destruct (floor_position q N Hq0 Hq1 HN) as (Hlo & _). fold lo in Hlo.
destruct (lookup_lt_is_Some_2 v (Z.to_nat lo)) as [a Ha]; [unfold N in Hlo; lia|].
exists a. split; [exact HN|]. split; [exact Ha|].
unfold quantile. cbv zeta. change (merge_sort Qcle (dropna s)) with v.
fold N. fold lo.
destruct v as [|x0 v'] eqn:Ev; [by apply elem_of_nil in Hx|].
rewrite <- Ev in *. rewrite !nth_lookup, Ha. reflexivity.
Qed.

Lemma next_order_statistic (v : list Qc) i a :
  StronglySorted Qcle v → v !! i = Some a →
  (a ≤ default a (v !! S i))%Qc.
Proof.
intros Hs Ha. destruct (v !! S i) as [b|] eqn:Hb; [|apply Qcle_refl].
apply (sorted_lookup_le v i (S i) a b Hs); [lia|done..].
Qed.

Lemma fence_contains_a_price (prices : list float) :
  (∃ x, Some x ∈ prices) →
  ∃ x lower upper,
    Some x ∈ prices
    ∧ price_fence prices = (Some lower, Some upper)
    ∧ (lower ≤ x)%Qc ∧ (x ≤ upper)%Qc.
Proof.
intros Hex. destruct q25_q75_bounds as (A1 & A2 & A3 & A4 & A5).
destruct (quantile_order_statistics prices q25 A1 A2 Hex) as (a1 & HN & Ha1 & HQ1).
destruct (quantile_order_statistics prices q75 A3 A4 Hex) as (a3 & _ & Ha3 & HQ3).
destruct (sorted_prices prices) as (Hsorted & _ & Helem).
cbv zeta in *.
set (v := merge_sort Qcle (dropna prices)) in *.
set (N := (Z.of_nat (length v) - 1)%Z) in *.
destruct (floor_position q25 N A1 A2 HN) as (Hlo1 & F1 & F2 & F3 & FN & FL1).
destruct (floor_position q75 N A3 A4 HN) as (Hlo3 & G1 & G2 & G3 & _ & FL3).
set (lo1 := Qfloor (q25 * Qc_of_Z N)%Qc) in *.
set (lo3 := Qfloor (q75 * Qc_of_Z N)%Qc) in *.
assert (Hlo : (lo1 ≤ lo3)%Z).
{ apply Qfloor_resp_le. by apply Qcmult_le_compat_r. }
replace (Z.to_nat (lo1 + 1)) with (S (Z.to_nat lo1)) in HQ1 by lia.
replace (Z.to_nat (lo3 + 1)) with (S (Z.to_nat lo3)) in HQ3 by lia.
pose proof (next_order_statistic v _ a1 Hsorted Ha1) as Hb1.
pose proof (next_order_statistic v _ a3 Hsorted Ha3) as Hb3.
unfold price_fence. rewrite HQ1, HQ3.
cbn [Float.sub Float.mul Float.add one_and_a_half mbind option_bind option_ret mret fst snd].
destruct (decide (lo1 = lo3)) as [Heq|Hne].
- rewrite <- Heq in *. assert (a3 = a1) as -> by congruence.
  exists a1. eexists _, _. split; [apply Helem; by eapply list_elem_of_lookup_2|].
  split; [reflexivity|]. by apply fence_same_Qc.
- destruct (lookup_lt_is_Some_2 v (S (Z.to_nat lo1))) as [b1 Hb1']; [unfold N in *; lia|].
  rewrite Hb1' in *. cbn [default] in *.
  exists b1. eexists _, _. split; [apply Helem; by eapply list_elem_of_lookup_2|].
  split; [reflexivity|]. apply fence_apart_Qc; try done.
  apply (sorted_lookup_le v (S (Z.to_nat lo1)) (Z.to_nat lo3) b1 a3 Hsorted);
    [lia|done..].
Qed.

(** X5. If the CSV has a row whose price is a number, the outlier bounds are
    numbers, the outlier filter keeps at least one row, and
    [price_stats['min']] and [price_stats['max']] are numbers with
    lower bound <= min <= max <= upper bound. *)
Theorem outlier_filter_keeps_a_priced_row
    to_datetime series_std self self' table r x :
  load_and_preprocess_data to_datetime series_std self = Ok self' →
  csv_file self = Some table →
  r ∈ table →
  price r = Some x →
  ∃ stats lo hi lower upper,
    price_fence (price <$> drop_duplicates table) = (Some lower, Some upper)
    ∧ inlier_rows table ≠ []
    ∧ price_stats self' = Some stats
    ∧ stats !! "min" = Some (Some lo)
    ∧ stats !! "max" = Some (Some hi)
    ∧ (lower ≤ lo)%Qc ∧ (lo ≤ hi)%Qc ∧ (hi ≤ upper)%Qc.
Proof.
intros Hload Hcsv Hr Hx.
destruct (fence_contains_a_price (price <$> drop_duplicates table))
  as (x' & lower & upper & Hx' & Hfence & Hlower & Hupper).
{ exists x. apply list_elem_of_fmap. exists r. split; [done|].
  by apply drop_duplicates_elem. }
apply list_elem_of_fmap in Hx' as (r' & Hprice & Hr').
assert (Hin : r' ∈ inlier_rows table).
{ unfold inlier_rows. apply list_elem_of_filter. split; [|exact Hr'].
  rewrite Hfence, <- Hprice. unfold within, Float.ge, Float.le. cbn [fst snd].
  apply andb_True. split; by apply bool_decide_pack. }
assert (Hprice_in : Some x' ∈ price <$> inlier_rows table).
{ apply list_elem_of_fmap. by exists r'. }
destruct (price_stats_min_max to_datetime series_std self self' table x'
            Hload Hcsv Hprice_in)
  as (stats & lo & hi & Hstats & Hlo & Hhi & Hlo_in & Hhi_in & H1 & H2).
destruct (inlier_price_in_fence table lo Hlo_in) as [L1 _].
destruct (inlier_price_in_fence table hi Hhi_in) as [_ L2].
rewrite Hfence in L1, L2. cbn [fst snd Float.le] in L1, L2.
exists stats, lo, hi, lower, upper.
split; [exact Hfence|]. split; [by intros E; rewrite E in Hin; apply elem_of_nil in Hin|].
repeat (split; [done|]).
split; [exact (bool_decide_eq_true_1 _ L1)|].
split; [by eapply Qcle_trans|exact (bool_decide_eq_true_1 _ L2)].
Qed.

(** ** The feature matrix *)

Lemma numeric_columns_encoded rows encoders r0 col cell :
  col ∈ categorical_cols →
  categorical_cell col r0 = Some cell →
  numeric_columns (derive rows encoders r0) !! encoded_name col
  = Some (of_Z (encoded encoders col cell)).
Proof.
intros Hcol.
repeat (apply elem_of_cons in Hcol as [->|Hcol];
        [intros [= <-]; reflexivity|]).
by apply elem_of_nil in Hcol.
Qed.

Lemma encoded_in_vocabulary encoders col le cs cell :
  encoders !! col = Some le → classes_ le = Some cs → astype_str cell ∈ cs →
  ∃ code, encoded encoders col cell = Z.of_nat code
          ∧ LabelEncoder.index_of (astype_str cell) cs = Some code
          ∧ cs !! code = Some (astype_str cell).
Proof.
intros Hle Hcs Hin. unfold encoded. rewrite Hle, Hcs.
destruct (index_of_elem _ _ Hin) as [i Hi]. exists i. rewrite Hi.
split; [done|]. split; [done|]. by apply index_of_Some.
Qed.

Lemma categorical_column_elem rows col column r cell :
  categorical_column rows col = Some column →
  r ∈ rows → categorical_cell col r = Some cell →
  astype_str cell ∈ column.
Proof.
unfold categorical_column.
destruct (mapM (categorical_cell col) rows) as [cells|] eqn:E; [|done].
intros [= <-] Hr Hcell. apply mapM_Some in E.
apply list_elem_of_lookup_1 in Hr as [i Hi].
destruct (Forall2_lookup_l _ _ _ _ _ E Hi) as (c & Hc & Hcell').
assert (c = cell) as -> by congruence.
apply list_elem_of_fmap. exists cell. split; [done|].
by eapply list_elem_of_lookup_2.
Qed.

Opaque numeric_columns all_feature_columns.

Section FeatureEngineerMore.
Variable series_std : list float → float.

(** X6. After [feature_engineering], [X] and [y] have the same number of
    rows, at most that of the table; every row of [X] has one cell per
    feature column and no NaN, and [y] has no NaN. *)
Theorem feature_matrix_has_no_missing_value self self' :
  feature_engineering series_std self = Ok self' →
  length (X self') = length (y self')
  ∧ (length (X self') ≤ length (derived self'))%nat
  ∧ Forall (λ row, length row = length (feature_columns self')
                   ∧ Forall is_Some row) (X self')
  ∧ Forall is_Some (y self').
Proof.
intros (rows & _ & _ & _ & Hcols & HX & Hy)%feature_engineering_Ok.
rewrite HX, Hy, Hcols, !length_fmap. split; [done|].
split; [apply length_filter|]. split.
- apply Forall_fmap, Forall_forall. intros r [Hmask _]%list_elem_of_filter.
  cbn [compose]. split; [unfold feature_row; by rewrite length_fmap|].
  unfold mask in Hmask. destruct (proj1 (andb_True _ _) Hmask) as [Hrow _].
  pose proof (proj1 (forallb_True _ _) Hrow) as Hall.
  eapply Forall_impl; [exact Hall|]. intros v Hv. cbn beta in Hv.
  exact (bool_decide_unpack _ Hv).
- apply Forall_fmap, Forall_forall. intros r [Hmask _]%list_elem_of_filter.
  cbn [compose]. unfold mask in Hmask.
  destruct (proj1 (andb_True _ _) Hmask) as [_ Hp].
  exact (bool_decide_unpack _ Hp).
Qed.

(** X7. For every categorical column and every row of the table after
    [feature_engineering], the value of the [_encoded] column is the
    position of the text of the cell in [classes_] of the encoder kept for
    the column: it is below [len(classes_)], [transform] of the text gives
    it and [inverse_transform] gives the text back. *)
Theorem training_codes_decode_to_the_cell_text self self' col r :
  feature_engineering series_std self = Ok self' →
  col ∈ categorical_cols →
  r ∈ derived self' →
  ∃ le cs cell code,
    label_encoders self' !! col = Some le
    ∧ classes_ le = Some cs
    ∧ categorical_cell col (src r) = Some cell
    ∧ numeric_columns r !! encoded_name col = Some (of_Z (Z.of_nat code))
    ∧ (code < length cs)%nat
    ∧ LabelEncoder.transform1 le (astype_str cell) = Ok code
    ∧ LabelEncoder.inverse_transform1 le code = Ok (astype_str cell).
Proof.
intros (rows & _ & Hencs & Hderived & _)%feature_engineering_Ok Hcol Hr.
rewrite Hderived in Hr. apply list_elem_of_fmap in Hr as (r0 & -> & Hr0).
destruct (fit_encoders_lookup rows (label_encoders self) col Hcol)
  as (column & Hcolumn & Hle).
rewrite <- Hencs in Hle.
destruct (categorical_cell_defined col r0 Hcol) as [cell Hcell].
assert (Hin : astype_str cell ∈ np_unique column).
{ apply np_unique_elem. by eapply categorical_column_elem. }
destruct (encoded_in_vocabulary (label_encoders self') col
            (LabelEncoder.fit column) (np_unique column) cell Hle eq_refl Hin)
  as (code & Hcode & Hindex & Hlookup).
exists (LabelEncoder.fit column), (np_unique column), cell, code.
split; [exact Hle|]. split; [reflexivity|]. split; [exact Hcell|].
split; [rewrite <- Hcode; by apply numeric_columns_encoded|].
split; [by eapply lookup_lt_Some|].
unfold LabelEncoder.transform1, LabelEncoder.inverse_transform1.
cbn [classes_ LabelEncoder.fit]. by rewrite Hindex, Hlookup.
Qed.

Lemma route_counts_bounds (rows : list CleanRow) r :
  r ∈ rows →
  (is_Some (departure_airport r) → is_Some (arrival_airport r) →
   1 ≤ route_counts rows (departure_airport r) (arrival_airport r)
     ≤ Z.of_nat (length rows))
  ∧ (departure_airport r = None ∨ arrival_airport r = None →
     route_counts rows (departure_airport r) (arrival_airport r) = 0).
Proof.
intros Hr. split.
- intros [d Hd] [a Ha]. rewrite Hd, Ha. cbn [route_counts].
  pose proof (length_filter (λ r, departure_airport r = Some d
                                  ∧ arrival_airport r = Some a) rows).
  assert (r ∈ filter (λ r, departure_airport r = Some d
                           ∧ arrival_airport r = Some a) rows) as Hin
    by (by apply list_elem_of_filter).
  destruct (filter _ rows); [by apply elem_of_nil in Hin|].
  cbn [length] in *. lia.
- intros [-> | ->]; [done|]. by destruct (departure_airport r).
Qed.

Lemma airline_counts_bounds (rows : list CleanRow) r :
  r ∈ rows →
  (is_Some (flight_number r) →
   1 ≤ airline_counts rows (airline_of r) ≤ Z.of_nat (length rows))
  ∧ (flight_number r = None → airline_counts rows (airline_of r) = 0).
Proof.
intros Hr. split.
- intros [n Hn]. assert (Ha : airline_of r = Some (prefix2 n))
    by (unfold airline_of; by rewrite Hn).
  rewrite Ha. cbn [airline_counts].
  pose proof (length_filter (λ r, airline_of r = Some (prefix2 n)) rows).
  assert (r ∈ filter (λ r, airline_of r = Some (prefix2 n)) rows) as Hin
    by (by apply list_elem_of_filter).
  destruct (filter _ rows); [by apply elem_of_nil in Hin|].
  cbn [length] in *. lia.
- intros Hn. unfold airline_of. by rewrite Hn.
Qed.

(** X8. [route_popularity] of a row lies between 1 and the number of rows when
    both airports are present, and is 0 when one is missing;
    [airline_popularity] lies between 1 and the number of rows when the
    flight number is present, and is 0 otherwise; rows with the same pair
    of airports have the same [route_popularity], rows with the same two
    first characters of the flight number the same [airline_popularity]. *)
Theorem popularity_counts_rows_of_the_table self self' r :
  feature_engineering series_std self = Ok self' →
  r ∈ derived self' →
  ∃ rows,
    df self = Some rows
    ∧ length (derived self') = length rows
    ∧ (is_Some (departure_airport (src r)) → is_Some (arrival_airport (src r)) →
       1 ≤ route_popularity r ≤ Z.of_nat (length rows))
    ∧ (departure_airport (src r) = None ∨ arrival_airport (src r) = None →
       route_popularity r = 0)
    ∧ (is_Some (flight_number (src r)) →
       1 ≤ airline_popularity r ≤ Z.of_nat (length rows))
    ∧ (flight_number (src r) = None → airline_popularity r = 0)
    ∧ (∀ r', r' ∈ derived self' →
         departure_airport (src r') = departure_airport (src r) →
         arrival_airport (src r') = arrival_airport (src r) →
         route_popularity r' = route_popularity r)
    ∧ (∀ r', r' ∈ derived self' →
         prefix2 <$> flight_number (src r') = prefix2 <$> flight_number (src r) →
         airline_popularity r' = airline_popularity r).
Proof.
intros (rows & Hdf & _ & Hderived & _)%feature_engineering_Ok Hr.
exists rows. split; [exact Hdf|]. rewrite Hderived, length_fmap.
split; [done|]. rewrite Hderived in Hr.
apply list_elem_of_fmap in Hr as (r0 & -> & Hr0).
cbn [src route_popularity airline_popularity derive].
destruct (route_counts_bounds rows r0 Hr0) as [H1 H2].
destruct (airline_counts_bounds rows r0 Hr0) as [H3 H4].
repeat (split; [done|]). split.
- intros r' (r1 & -> & Hr1)%list_elem_of_fmap.
  cbn [src route_popularity derive]. by intros -> ->.
- intros r' (r1 & -> & Hr1)%list_elem_of_fmap.
  cbn [src airline_popularity derive]. unfold airline_of. by intros ->.
Qed.

Lemma fit_encoders_twice rows encoders :
  fit_encoders rows (fit_encoders rows encoders) = fit_encoders rows encoders.
Proof.
apply map_eq. intros col. unfold fit_encoders at 1.
rewrite fit_encoders_step. case_decide as Hcol; [|done].
unfold fit_encoders. rewrite fit_encoders_step. by rewrite decide_True.
Qed.

(** X9. Running [feature_engineering] again on the object it produced changes
    nothing: the encoders, the derived columns, [X], [y], the feature
    columns and the popularity statistics are the same. *)
Theorem feature_engineering_is_idempotent self self' :
  feature_engineering series_std self = Ok self' →
  feature_engineering series_std self' = Ok self'.
Proof.
unfold feature_engineering at 1.
destruct (df self) as [rows|] eqn:Hdf; [|done].
intros <-%Ok_inj. unfold feature_engineering. cbn [df label_encoders].
rewrite fit_encoders_twice. reflexivity.
Qed.

(** X10. The [time_to_minutes] nested in [predict_single_flight] answers what
    the one nested in [feature_engineering] answers, with 0 in place of
    NaN. In training [departure_minutes] and [arrival_minutes] are
    [time_to_minutes] of the clock times of the row, and a row where one of
    them is NaN is removed by the mask. *)
Theorem unparsed_clock_time_is_dropped_in_training_and_zero_at_inference
    self self' :
  feature_engineering series_std self = Ok self' →
  (∀ s, Inference.time_to_minutes s
        = default 0 (Training.time_to_minutes (Some s)))
  ∧ (∀ r, r ∈ derived self' →
       departure_minutes r = Training.time_to_minutes (departure_time (src r))
       ∧ arrival_minutes r = Training.time_to_minutes (arrival_time (src r))
       ∧ (departure_minutes r = None ∨ arrival_minutes r = None →
          mask (feature_columns self') r = false)).
Proof.
intros (rows & _ & _ & Hderived & Hcols & _)%feature_engineering_Ok. split.
- intros s. unfold Inference.time_to_minutes, Training.time_to_minutes.
  destruct (split ":" s) as [|h [|m [|? ?]]]; try done.
  by destruct (py_int h), (py_int m).
- intros r Hr. rewrite Hderived in Hr.
  apply list_elem_of_fmap in Hr as (r0 & Hr0 & _).
  split; [rewrite Hr0; reflexivity|]. split; [rewrite Hr0; reflexivity|].
  rewrite Hcols. intros Hnone.
  destruct (mask all_feature_columns r) eqn:Hmask; [|done].
  destruct (mask_clock r (proj2 (Is_true_true _) Hmask)) as [[d Hd] [u Hu]].
  assert (Hf : flight_duration r
               = (λ x, if x <? 0 then x + 24 * 60 else x)
                 <$> (d ← departure_minutes r; a ← arrival_minutes r; Some (a - d)))
    by (rewrite Hr0; reflexivity).
  rewrite Hf in Hu. destruct Hnone as [Hn|Hn]; rewrite Hn in *; [done|].
  by rewrite Hd in Hu.
Qed.

End FeatureEngineerMore.

(** X11. [categorize_time_of_day] answers 0 on the minutes 360 to 719, 1 on 720
    to 1079, 2 on 1080 to 1319 and 3 on every other integer, negative or
    from 1440 on included, and on NaN; the function nested in
    [predict_single_flight] is the one nested in [feature_engineering]; the
    training table holds its value at [departure_minutes]. *)
Theorem departure_time_category_partition (m : Z) :
  (Training.categorize_time_of_day (Some m) = 0 ↔ 360 ≤ m < 720)
  ∧ (Training.categorize_time_of_day (Some m) = 1 ↔ 720 ≤ m < 1080)
  ∧ (Training.categorize_time_of_day (Some m) = 2 ↔ 1080 ≤ m < 1320)
  ∧ (Training.categorize_time_of_day (Some m) = 3 ↔ m < 360 ∨ 1320 ≤ m)
  ∧ Inference.categorize_time_of_day m
    = Training.categorize_time_of_day (Some m)
  ∧ Training.categorize_time_of_day None = 3
  ∧ (∀ rows encoders r,
       departure_time_category (derive rows encoders r)
       = Training.categorize_time_of_day (departure_minutes (derive rows encoders r))).
Proof.
unfold Training.categorize_time_of_day, Inference.categorize_time_of_day.
pose proof (Z.div_mod m 60 ltac:(lia)) as Hm.
pose proof (Z.mod_pos_bound m 60 ltac:(lia)) as Hr.
destruct (Z.leb_spec 6 (m / 60)), (Z.ltb_spec (m / 60) 12),
  (Z.leb_spec 12 (m / 60)), (Z.ltb_spec (m / 60) 18),
  (Z.leb_spec 18 (m / 60)), (Z.ltb_spec (m / 60) 22);
  cbn [andb]; repeat split; intros; try reflexivity; try discriminate; lia.
Qed.

(** ** Training and inference compute the same features *)

Lemma time_to_minutes_parsed s m :
  Training.time_to_minutes (Some s) = Some m → Inference.time_to_minutes s = m.
Proof.
unfold Inference.time_to_minutes, Training.time_to_minutes.
destruct (split ":" s) as [|h [|mm [|? ?]]]; try done.
destruct (py_int h), (py_int mm); try done. by intros [= <-].
Qed.

Lemma base_frame_clock_and_calendar flight_data t1 t2 departure_time
    arrival_time route_mean flight_number airline_mean :
  let df_input := base_frame flight_data (CTime t1) (CTime t2) departure_time
                    arrival_time route_mean flight_number airline_mean in
  df_input !! "create_hour" = Some (CNum (of_Z (dt.hour t1)))
  ∧ df_input !! "create_day_of_week" = Some (CNum (of_Z (dt.dayofweek t1)))
  ∧ df_input !! "create_month" = Some (CNum (of_Z (dt.month t1)))
  ∧ df_input !! "flight_month" = Some (CNum (of_Z (dt.month t2)))
  ∧ df_input !! "flight_day_of_week" = Some (CNum (of_Z (dt.dayofweek t2)))
  ∧ df_input !! "days_in_advance" = Some (CNum (of_Z (dt.days t2 t1)))
  ∧ df_input !! "departure_minutes"
    = Some (CNum (of_Z (Inference.time_to_minutes departure_time)))
  ∧ df_input !! "flight_duration"
    = Some (CNum (of_Z (duration_of departure_time arrival_time)))
  ∧ df_input !! "is_weekend_booking"
    = Some (CNum (of_Z (flag (5 <=? dt.dayofweek t1))))
  ∧ df_input !! "is_weekend_flight"
    = Some (CNum (of_Z (flag (5 <=? dt.dayofweek t2))))
  ∧ df_input !! "booking_category"
    = Some (CNum (of_Z (Inference.categorize_advance_booking
                          (Some (dt.days t2 t1)))))
  ∧ df_input !! "departure_time_category"
    = Some (CNum (of_Z (Inference.categorize_time_of_day
                          (Inference.time_to_minutes departure_time)))).
Proof.
unfold base_frame. repeat split;
  repeat (rewrite lookup_insert; case_decide; [try done|]; try done).
Qed.

(** X12. A request that carries the [create_at], [flight_date],
    [departure_time] and [arrival_time] of a table row whose clock times
    parse gets, in each of the twelve calendar and clock feature columns,
    the value [feature_engineering] gives to that row. *)
Theorem inference_recomputes_the_clock_and_calendar_features
    to_datetime self flight_data out df_input rows encoders (r : CleanRow)
    c f dep arr col :
  base_columns to_datetime self flight_data = (out, Ok df_input) →
  flight_data !! "create_at" = Some c →
  to_datetime c = Parsed (create_at r) →
  flight_data !! "flight_date" = Some f →
  to_datetime f = Parsed (flight_date r) →
  flight_data !! "departure_time" = Some dep →
  departure_time r = Some dep →
  flight_data !! "arrival_time" = Some arr →
  arrival_time r = Some arr →
  is_Some (Training.time_to_minutes (Some dep)) →
  is_Some (Training.time_to_minutes (Some arr)) →
  col ∈ clock_and_calendar_columns →
  df_input !! col = CNum <$> (numeric_columns (derive rows encoders r) !! col).
Proof.
intros Hbase Hc Hpc Hf Hpf Hfdep Hdep Hfarr Harr [d Hd] [a Ha] Hcol.
apply base_columns_Ok in Hbase
  as (c' & create_at' & f' & flight_date' & dep' & arr' & rm & fn & am
      & Hc' & Hsc & Hf' & Hsf & Hd' & Ha' & _ & _ & _ & _ & ->).
assert (c' = c) as -> by congruence.
assert (f' = f) as -> by congruence.
assert (dep' = dep) as -> by congruence.
assert (arr' = arr) as -> by congruence.
unfold to_datetime_strict in Hsc, Hsf. rewrite Hpc in Hsc. rewrite Hpf in Hsf.
injection Hsc as <-. injection Hsf as <-.
pose proof (time_to_minutes_parsed dep d Hd) as E1.
pose proof (time_to_minutes_parsed arr a Ha) as E2.
destruct (base_frame_clock_and_calendar flight_data (create_at r) (flight_date r)
            dep arr rm fn am)
  as (H1 & H2 & H3 & H4 & H5 & H6 & H7 & H8 & H9 & H10 & H11 & H12).
apply elem_of_cons in Hcol as [->|Hcol]; [rewrite H1; reflexivity|].
apply elem_of_cons in Hcol as [->|Hcol]; [rewrite H2; reflexivity|].
apply elem_of_cons in Hcol as [->|Hcol]; [rewrite H3; reflexivity|].
apply elem_of_cons in Hcol as [->|Hcol]; [rewrite H4; reflexivity|].
apply elem_of_cons in Hcol as [->|Hcol]; [rewrite H5; reflexivity|].
apply elem_of_cons in Hcol as [->|Hcol]; [rewrite H6; reflexivity|].
apply elem_of_cons in Hcol as [->|Hcol].
{ rewrite H7, E1.
  transitivity (CNum <$> Some (Qc_of_Z <$> Training.time_to_minutes (departure_time r)));
    [|reflexivity].
  rewrite Hdep, Hd. reflexivity. }
apply elem_of_cons in Hcol as [->|Hcol].
{ rewrite H8. unfold duration_of. rewrite E1, E2.
  transitivity (CNum <$> Some (Qc_of_Z
                  <$> ((λ x, if x <? 0 then x + 24 * 60 else x)
                       <$> (d ← Training.time_to_minutes (departure_time r);
                            a ← Training.time_to_minutes (arrival_time r);
                            Some (a - d)))));
    [|reflexivity].
  rewrite Hdep, Harr, Hd, Ha. reflexivity. }
apply elem_of_cons in Hcol as [->|Hcol]; [rewrite H9; reflexivity|].
apply elem_of_cons in Hcol as [->|Hcol]; [rewrite H10; reflexivity|].
apply elem_of_cons in Hcol as [->|Hcol].
{ rewrite H11, categorize_advance_booking_same. reflexivity. }
apply elem_of_cons in Hcol as [->|Hcol].
{ rewrite H12, E1.
  transitivity (CNum <$> Some (of_Z (Training.categorize_time_of_day
                                       (Training.time_to_minutes (departure_time r)))));
    [|reflexivity].
  rewrite Hdep, Hd. reflexivity. }
by apply elem_of_nil in Hcol.
Qed.

(** ** Codes at inference *)

Opaque numeric_columns all_feature_columns.

(** X13. For a row of the training table and a categorical column, a request
    frame that holds the text of the row in that column is encoded at
    inference with the code of the training table, and no warning. *)
Theorem inference_reuses_the_training_codes series_std self self' col r cell
    df_input :
  feature_engineering series_std self = Ok self' →
  col ∈ categorical_cols →
  r ∈ derived self' →
  categorical_cell col (src r) = Some cell →
  df_input !! col = Some (CStr (astype_str cell)) →
  ∃ code,
    numeric_columns r !! encoded_name col = Some code
    ∧ encode_categorical self' df_input col
      = ([], Ok (<[encoded_name col := CNum code]> df_input)).
Proof.
intros (rows & _ & Hencs & Hderived & _)%feature_engineering_Ok Hcol Hr Hcell Hdf.
rewrite Hderived in Hr. apply list_elem_of_fmap in Hr as (r0 & -> & Hr0).
cbn [src derive] in Hcell.
destruct (fit_encoders_lookup rows (label_encoders self) col Hcol)
  as (column & Hcolumn & Hle).
rewrite <- Hencs in Hle.
assert (Hin : astype_str cell ∈ np_unique column).
{ apply np_unique_elem. by eapply categorical_column_elem. }
destruct (encoded_in_vocabulary (label_encoders self') col
            (LabelEncoder.fit column) (np_unique column) cell Hle eq_refl Hin)
  as (code & Hcode & Hindex & _).
exists (of_Z (Z.of_nat code)).
split; [rewrite <- Hcode; by apply numeric_columns_encoded|].
unfold encode_categorical. rewrite Hdf, Hle. cbn [text_of].
unfold encode_column, LabelEncoder.transform1.
cbn [classes_ LabelEncoder.fit]. rewrite Hindex. reflexivity.
Qed.

Transparent numeric_columns all_feature_columns.

(** ** An unseen category and the first class of the vocabulary *)

Lemma bind_snd {A B} (m : M A) (k : A → M B) :
  (bind m k).2 = match m.2 with
                 | Ok a => (k a).2
                 | Raise e => Raise e
                 end.
Proof. destruct m as [out [a|e]]; [|done]. cbn. by destruct (k a). Qed.

Lemma encode_column_first_class le col c cs :
  classes_ le = Some (c :: cs) → encode_column le col c = ([], Ok 0).
Proof.
intros Hcs. unfold encode_column, LabelEncoder.transform1, LabelEncoder.index_of.
rewrite Hcs. cbn [list_find]. by rewrite decide_True.
Qed.

Lemma lookup_insert_ext {V} (m1 m2 : gmap string V) i x k :
  m1 !! k = m2 !! k → <[i := x]> m1 !! k = <[i := x]> m2 !! k.
Proof. intros H. rewrite !lookup_insert. by case_decide. Qed.

Lemma raw_prediction_snd to_datetime self m flight_data :
  (raw_prediction to_datetime self m flight_data).2
  = match (base_columns to_datetime self flight_data).2 with
    | Raise e => Raise e
    | Ok df0 =>
        match (encode_categoricals self df0 categorical_cols).2 with
        | Raise e => Raise e
        | Ok df_input =>
            match (select_columns df_input (feature_columns self)).2 with
            | Raise e => Raise e
            | Ok X_input => predict m X_input
            end
        end
    end.
Proof.
unfold raw_prediction. rewrite bind_snd. cbn [print snd]. rewrite bind_snd.
destruct (base_columns to_datetime self flight_data).2 as [df0|]; [|done].
rewrite bind_snd.
destruct (encode_categoricals self df0 categorical_cols).2 as [df_input|]; [|done].
rewrite bind_snd. cbn [print snd]. rewrite bind_snd.
destruct (print_features_total df_input (feature_columns self)) as (o & -> & _).
cbn [snd]. rewrite bind_snd.
destruct (select_columns df_input (feature_columns self)).2 as [X_input|]; [|done].
rewrite bind_snd. cbn [print snd]. rewrite bind_snd. cbn [print snd].
rewrite bind_snd. cbn [lift snd]. destruct (predict m X_input); [|done].
rewrite bind_snd. reflexivity.
Qed.

Lemma predict_single_flight_snd to_datetime self flight_data :
  (predict_single_flight to_datetime self flight_data).2
  = match best_model self with
    | None => Raise (ValueError "? model đâu ??")
    | Some m =>
        match (raw_prediction to_datetime self m flight_data).2 with
        | Raise e => Raise e
        | Ok prediction => (clip_prediction self prediction).2
        end
    end.
Proof.
unfold predict_single_flight. destruct (best_model self); [|done].
by rewrite bind_snd.
Qed.

Section FirstClass.
Variable to_datetime : string → parse_result.
Variable self : FlightPricePredictor.
Variables (col v c : string) (le : LabelEncoder) (cs : list string).
Hypothesis Hcol : col ∈ plain_categorical_cols.
Hypothesis Hle : label_encoders self !! col = Some le.
Hypothesis Hcs : classes_ le = Some (c :: cs).
Hypothesis Hv : v ∉ c :: cs.


Lemma plain_categorical : col ∈ categorical_cols.
Proof.
clear -Hcol. revert Hcol. generalize col. apply Forall_forall. compute_done.
Qed.

Lemma base_frame_twins (flight_data : gmap string string) ca fdate dep arr rm fn am :
  twin_frames col v c (base_frame (<[col := v]> flight_data) ca fdate dep arr rm fn am)
        (base_frame (<[col := c]> flight_data) ca fdate dep arr rm fn am).
Proof.
clear Hle Hcs Hv. split.
- intros k Hk. unfold base_frame.
  repeat apply lookup_insert_ext.
  rewrite !lookup_fmap, !lookup_insert_ne by done. reflexivity.
- unfold base_frame.
  repeat (apply elem_of_cons in Hcol as [->|Hcol];
          [split;
           repeat (rewrite lookup_insert; case_decide; [try done|]; try done);
           by rewrite lookup_fmap, lookup_insert_eq|]).
  by apply elem_of_nil in Hcol.
Qed.

Lemma related_bind {A} (m : M A) k1 k2 :
  (∀ a, twin_runs col v c (k1 a) (k2 a)) → twin_runs col v c (bind m k1) (bind m k2).
Proof.
intros H. unfold twin_runs. rewrite !bind_snd. destruct m.2; [apply H|done].
Qed.

Lemma base_columns_twins (flight_data : gmap string string) :
  twin_runs col v c (base_columns to_datetime self (<[col := v]> flight_data))
          (base_columns to_datetime self (<[col := c]> flight_data)).
Proof.
assert (Hne : Forall (λ k, col ≠ k)
                ["create_at"; "flight_date"; "departure_time"; "arrival_time";
                 "flight_number"]).
{ clear -Hcol. revert Hcol. generalize col. apply Forall_forall. compute_done. }
apply Forall_cons in Hne as [N1 Hne]. apply Forall_cons in Hne as [N2 Hne].
apply Forall_cons in Hne as [N3 Hne]. apply Forall_cons in Hne as [N4 Hne].
apply Forall_cons in Hne as [N5 _].
rewrite !base_columns_unfold. unfold lookup_or_raise.
rewrite !(lookup_insert_ne _ col "create_at"),
        !(lookup_insert_ne _ col "flight_date"),
        !(lookup_insert_ne _ col "departure_time"),
        !(lookup_insert_ne _ col "arrival_time"),
        !(lookup_insert_ne _ col "flight_number") by done.
repeat (apply related_bind; intros ?).
unfold twin_runs. cbn [ret snd]. apply base_frame_twins.
Qed.

Lemma twins_insert d1 d2 k x :
  k ≠ col → twin_frames col v c d1 d2 → twin_frames col v c (<[k := x]> d1) (<[k := x]> d2).
Proof.
intros Hk (H & H1 & H2). split; [|by rewrite !lookup_insert_ne].
intros k' Hk'. apply lookup_insert_ext. by apply H.
Qed.

Lemma encode_categorical_twins d1 d2 col' :
  col' ∈ categorical_cols → twin_frames col v c d1 d2 →
  twin_runs col v c (encode_categorical self d1 col') (encode_categorical self d2 col').
Proof.
intros Hcol' Htwins. pose proof Htwins as (H & H1 & H2).
assert (Hname : encoded_name col' ≠ col).
{ intros E. eapply (categorical_not_encoded col col');
    [apply plain_categorical|exact Hcol'|by symmetry]. }
unfold twin_runs, encode_categorical. destruct (decide (col' = col)) as [->|Hne].
- rewrite H1, H2, Hle. cbn [text_of].
  rewrite (encode_column_unseen le col v c cs Hcs Hv),
          (encode_column_first_class le col c cs Hcs).
  cbn. by apply twins_insert.
- rewrite (H col' Hne).
  destruct (d2 !! col') as [cl|]; [|exact Htwins].
  destruct (label_encoders self !! col') as [le'|]; [|exact Htwins].
  destruct (encode_column_total le' col' (text_of cl)) as (o & code & ->).
  cbn. by apply twins_insert.
Qed.

Lemma encode_categoricals_twins cols : ∀ d1 d2,
  cols ⊆ categorical_cols → twin_frames col v c d1 d2 →
  twin_runs col v c (encode_categoricals self d1 cols) (encode_categoricals self d2 cols).
Proof.
induction cols as [|col' cols IH]; intros d1 d2 Hsub Htwins.
- exact Htwins.
- cbn [encode_categoricals]. unfold twin_runs. rewrite !bind_snd.
  assert (Hin : col' ∈ categorical_cols) by (apply Hsub; left).
  pose proof (encode_categorical_twins d1 d2 col' Hin Htwins) as Hstep.
  unfold twin_runs in Hstep.
  destruct (encode_categorical self d1 col').2 as [d1'|],
           (encode_categorical self d2 col').2 as [d2'|]; try done.
  apply IH; [|exact Hstep]. intros k Hk. apply Hsub. by right.
Qed.

Lemma select_columns_twins d1 d2 cols :
  (∀ k, k ≠ col → d1 !! k = d2 !! k) → col ∉ cols →
  select_columns d1 cols = select_columns d2 cols.
Proof.
intros H. induction cols as [|k cols IH]; [done|].
intros [Hk Hcols]%not_elem_of_cons. cbn [select_columns].
unfold lookup_or_raise. rewrite (H k) by done. by rewrite IH.
Qed.

(** X14. Take one of [departure_airport], [arrival_airport], [classes],
    [type_of_plane], with an encoder fitted on a vocabulary that is not
    empty, the column itself being no feature. A value that is not in the
    vocabulary gets code 0 with a warning, the first class of the
    vocabulary gets code 0 without one, and [predict_single_flight] answers
    the same (price or exception) on two requests that differ by having
    the one or the other in that column. *)
Theorem unseen_category_is_priced_as_the_first_class flight_data :
  col ∉ feature_columns self →
  encode_column le col v = ([PrintWarning v col], Ok 0)
  ∧ encode_column le col c = ([], Ok 0)
  ∧ (predict_single_flight to_datetime self (<[col := v]> flight_data)).2
    = (predict_single_flight to_datetime self (<[col := c]> flight_data)).2.
Proof.
intros Hfeat.
split; [exact (encode_column_unseen le col v c cs Hcs Hv)|].
split; [exact (encode_column_first_class le col c cs Hcs)|].
rewrite !predict_single_flight_snd. destruct (best_model self) as [m|]; [|done].
rewrite !raw_prediction_snd.
pose proof (base_columns_twins flight_data) as Hbase. unfold twin_runs in Hbase.
destruct (base_columns to_datetime self (<[col := v]> flight_data)).2 as [d1|e1],
         (base_columns to_datetime self (<[col := c]> flight_data)).2 as [d2|e2];
  try done; [|by rewrite Hbase].
pose proof (encode_categoricals_twins categorical_cols d1 d2 (λ _ H, H) Hbase)
  as Henc.
unfold twin_runs in Henc.
destruct (encode_categoricals self d1 categorical_cols).2 as [d1'|],
         (encode_categoricals self d2 categorical_cols).2 as [d2'|];
  try done; [|by rewrite Henc].
destruct Henc as [Hsame _].
by rewrite (select_columns_twins d1' d2' (feature_columns self) Hsame Hfeat).
Qed.
End FirstClass.

(** ** Requests that cannot be served *)

Lemma py_max_floor lo :
  ∃ fl, py_max (Some lo) MIN_PRICE_FLOOR = Some fl
        ∧ (lo ≤ fl)%Qc ∧ (Qc_of_Z 100000 ≤ fl)%Qc
        ∧ (fl = lo ∨ fl = Qc_of_Z 100000).
Proof.
unfold py_max, Float.gt, Float.lt, MIN_PRICE_FLOOR, of_Z.
case_bool_decide as H; eexists; (split; [reflexivity|]).
- split; [by apply Qclt_le_weak|]. split; [apply Qcle_refl|by right].
- split; [apply Qcle_refl|]. split; [by apply Qcnot_lt_le|by left].
Qed.

Lemma py_min_ceiling hi :
  ∃ ce, py_min (Some hi) MAX_PRICE_CEILING = Some ce
        ∧ (ce ≤ hi)%Qc ∧ (ce ≤ Qc_of_Z 50000000)%Qc
        ∧ (ce = hi ∨ ce = Qc_of_Z 50000000).
Proof.
unfold py_min, Float.lt, MAX_PRICE_CEILING, of_Z.
case_bool_decide as H; eexists; (split; [reflexivity|]).
- split; [by apply Qclt_le_weak|]. split; [apply Qcle_refl|by right].
- split; [apply Qcle_refl|]. split; [by apply Qcnot_lt_le|by left].
Qed.

Lemma np_clip_Some x lo hi :
  ∃ p, np_clip (Some x) (Some lo) (Some hi) = Some p
       ∧ (p ≤ hi)%Qc
       ∧ ((lo ≤ hi)%Qc → (lo ≤ p)%Qc)
       ∧ ((hi < lo)%Qc → p = hi).
Proof.
unfold np_clip, np_maximum, np_minimum. cbn [mbind option_bind].
destruct (bool_decide_reflect (x < lo)%Qc) as [H1|H1];
  [destruct (bool_decide_reflect (hi < lo)%Qc) as [H2|H2]
  |destruct (bool_decide_reflect (hi < x)%Qc) as [H2|H2]];
  eexists; (split; [reflexivity|]);
  unfold Qclt, Qcle in *; repeat split; intros; try reflexivity; try lra;
  exfalso; lra.
Qed.

Section PredictorMore.
Variable to_datetime : string → parse_result.

(** X15. [predict_single_flight] raises on a request that lacks [create_at],
    [flight_date], [departure_time], [arrival_time] or [flight_number];
    with a model loaded and [create_at] missing the exception is
    [KeyError('create_at')], raised once the request was printed. *)
Theorem request_without_a_required_key_raises self flight_data key :
  key ∈ required_keys →
  flight_data !! key = None →
  (∃ e, (predict_single_flight to_datetime self flight_data).2 = Raise e)
  ∧ (is_Some (best_model self) → key = "create_at" →
     predict_single_flight to_datetime self flight_data
     = ([PrintInputData flight_data], Raise (KeyError "create_at"))).
Proof.
intros Hkey Hnone. split.
- rewrite predict_single_flight_snd. destruct (best_model self) as [m|];
    [|by eexists].
  rewrite raw_prediction_snd.
  destruct (base_columns to_datetime self flight_data) as [o [d|e]] eqn:E;
    [|by eexists].
  exfalso. apply base_columns_Ok in E
    as (? & ? & ? & ? & ? & ? & ? & ? & ? & H1 & _ & H2 & _ & H3 & H4 & _ & H5 & _).
  repeat (apply elem_of_cons in Hkey as [->|Hkey]; [congruence|]).
  by apply elem_of_nil in Hkey.
- intros [m Hm] ->. rewrite (predict_single_flight_unfold _ _ m _ Hm).
  unfold raw_prediction. rewrite base_columns_unfold.
  unfold lookup_or_raise. rewrite Hnone. reflexivity.
Qed.

(** X16. With numbers for [price_stats['min']], [price_stats['max']] and the
    raw prediction, the price returned is printed as clipped, is at most
    [max] and at most 50 000 000; it is [max] whatever the model answers
    when [max] is below 100 000; and when [max] is at least 100 000 and
    [min <= max], it is at least 100 000 and at least [min], unless [min]
    exceeds 50 000 000. *)
Theorem clipped_price_never_exceeds_the_ceiling
    self m flight_data out raw stats lo hi :
  best_model self = Some m →
  raw_prediction to_datetime self m flight_data = (out, Ok (Some raw)) →
  price_stats self = Some stats →
  stats !! "min" = Some (Some lo) →
  stats !! "max" = Some (Some hi) →
  ∃ p,
    predict_single_flight to_datetime self flight_data
    = ((out ++ [PrintClippedPrediction (Some p)])%list, Ok (Some p))
    ∧ (p ≤ hi)%Qc
    ∧ (p ≤ Qc_of_Z 50000000)%Qc
    ∧ ((hi < Qc_of_Z 100000)%Qc → p = hi)
    ∧ ((Qc_of_Z 100000 ≤ hi)%Qc → (lo ≤ hi)%Qc →
       (Qc_of_Z 100000 ≤ p)%Qc ∧ (lo ≤ p)%Qc ∨ (Qc_of_Z 50000000 < lo)%Qc).
Proof.
intros Hm Hraw Hstats Hlo Hhi.
pose proof (clip_prediction_applied self stats (Some lo) (Some hi) (Some raw)
              Hstats Hlo Hhi) as Hclip.
cbv zeta in Hclip.
destruct (py_max_floor lo) as (fl & Hfl & F1 & F2 & F3).
destruct (py_min_ceiling hi) as (ce & Hce & C1 & C2 & C3).
destruct (np_clip_Some raw fl ce) as (p & Hp & P1 & P2 & P3).
rewrite Hfl, Hce, Hp in Hclip. exists p. split.
{ rewrite (predict_single_flight_unfold _ _ m _ Hm).
  exact (bind_Ok _ _ _ _ _ _ Hraw Hclip). }
clear -F1 F2 F3 C1 C2 C3 P1 P2 P3.
assert (Hconst : ¬ (Qc_of_Z 50000000 < Qc_of_Z 100000)%Qc) by compute_done.
split; [exact (Qcle_trans _ _ _ P1 C1)|].
split; [exact (Qcle_trans _ _ _ P1 C2)|]. split.
- intros Hlow. assert (ce = hi) as ->.
  { destruct C3 as [->| ->]; [done|]. exfalso.
    apply Hconst. by eapply Qcle_lt_trans. }
  apply P3. by eapply Qclt_le_trans.
- intros Hbig Hord. destruct (Qclt_le_dec ce fl) as [Hlt|Hle].
  + right. destruct F3 as [->| ->], C3 as [->| ->].
    * exfalso. revert Hlt Hord. unfold Qclt, Qcle. lra.
    * done.
    * exfalso. revert Hlt Hbig. unfold Qclt, Qcle. lra.
    * by exfalso.
  + left. specialize (P2 Hle).
    split; [exact (Qcle_trans _ _ _ F2 P2)|exact (Qcle_trans _ _ _ F1 P2)].
Qed.

End PredictorMore.

(** ** The artifact *)

(** X17. [load_model] on what [save_model] wrote succeeds on every object, and
    the object it leaves answers [predict_single_flight] as the object
    that was saved: same lines, same price or exception. Saving it again
    writes the same dictionary, and the data and the results of the
    loading object are untouched. *)
Theorem saved_model_predicts_like_the_trained_object
    to_datetime self0 self flight_data :
  ∃ self',
    load_model self0 (save_model self) = Ok self'
    ∧ predict_single_flight to_datetime self' flight_data
      = predict_single_flight to_datetime self flight_data
    ∧ save_model self' = save_model self
    ∧ csv_file self' = csv_file self0
    ∧ df self' = df self0
    ∧ results self' = results self0.
Proof.
eexists. split; [reflexivity|]. split; [reflexivity|].
split; [reflexivity|]. by repeat split.
Qed.

(** X18. [load_model] raises [KeyError] with the first of [model],
    [model_type], [feature_columns], [label_encoders], [scaler] that the
    pickled dictionary lacks. With the five present it succeeds whatever
    else is missing: [price_stats] is the empty dictionary when the key is
    absent and the stored value otherwise, and [csv_file], [df] and
    [results] are untouched. *)
Theorem load_model_needs_the_five_mandatory_keys self model_data :
  match first_missing_key model_data with
  | Some key => load_model self model_data = Raise (KeyError key)
  | None =>
      ∃ self', load_model self model_data = Ok self'
        ∧ (md_price_stats model_data = None → price_stats self' = Some ∅)
        ∧ (∀ stats, md_price_stats model_data = Some stats →
                    price_stats self' = stats)
        ∧ csv_file self' = csv_file self
        ∧ df self' = df self
        ∧ results self' = results self
  end.
Proof.
unfold first_missing_key, load_model.
destruct (md_model model_data); [|done].
destruct (md_model_type model_data); [|done].
destruct (md_feature_columns model_data); [|done].
destruct (md_label_encoders model_data); [|done].
destruct (md_scaler model_data); [|done].
cbn. eexists. split; [reflexivity|]. cbn.
split; [by intros ->|]. split; [by intros stats ->|]. done.
Qed.

(** ** Ties in the selection *)

Lemma min_from_first {A} (key : A → Qc) rest : ∀ best,
  ∃ i, (best :: rest) !! i = Some (min_from key best rest)
       ∧ ∀ j b, (j < i)%nat → (best :: rest) !! j = Some b →
                (key (min_from key best rest) < key b)%Qc.
Proof.
induction rest as [|x rest IH]; intros best; cbn [min_from].
- exists 0%nat. split; [done|]. intros j b Hj. lia.
- case_bool_decide as Hlt.
  + destruct (IH x) as (i & Hi & Hfirst). exists (S i). split; [exact Hi|].
    intros [|j] b Hj Hb.
    * injection Hb as <-. eapply Qcle_lt_trans; [|exact Hlt].
      apply (proj1 (min_from_le key rest x)).
    * apply (Hfirst j b); [lia|exact Hb].
  + destruct (IH best) as ([|i] & Hi & Hfirst).
    * exists 0%nat. split; [exact Hi|]. intros j b Hj. lia.
    * exists (S (S i)). split; [exact Hi|].
      assert (Hbest : (key (min_from key best rest) < key best)%Qc)
        by (apply (Hfirst 0%nat best); [lia|done]).
      intros [|[|j]] b Hj Hb.
      -- by injection Hb as <-.
      -- injection Hb as <-. eapply Qclt_le_trans; [exact Hbest|].
         by apply Qcnot_lt_le.
      -- apply (Hfirst (S j) b); [lia|exact Hb].
Qed.

Section ModelTrainerMore.
Let matrix : Type := list (list float).
Variable train_test_split : matrix → list float → matrix * matrix * list float * list float.
Variable cross_val_score : string → matrix → list float → list Qc.
Variable fit : string → matrix → list float → Model.
Variable mean_absolute_error : Model → matrix → list float → Qc.
Variable root_mean_squared_error : Model → matrix → list float → Qc.
Variable r2_score : Model → matrix → list float → Qc.
Variable np_std : list Qc → Qc.

(** X19. From an empty [results], after [train_and_evaluate_models] the keys
    of [results] are Random Forest, Gradient Boosting, Decision Tree in
    that order, and the cross-validated error of the selected candidate is
    at most that of every candidate and strictly below that of every
    candidate before it: a tie goes to the earlier one. *)
Theorem cross_validation_ties_go_to_the_earlier_candidate self self' :
  results self = [] →
  train_and_evaluate_models train_test_split cross_val_score fit
    mean_absolute_error root_mean_squared_error r2_score np_std self = Ok self' →
  let cv name :=
    (- np_mean (cross_val_score name
                  (train_test_split (X self) (y self)).1.1.1
                  (train_test_split (X self) (y self)).1.2))%Qc in
  dict_keys (results self') = model_names
  ∧ ∃ i name,
      model_type self' = Some name
      ∧ model_names !! i = Some name
      ∧ (∀ name', name' ∈ model_names → (cv name ≤ cv name')%Qc)
      ∧ (∀ j name', (j < i)%nat → model_names !! j = Some name' →
                    (cv name < cv name')%Qc).
Proof.
intros Hres. unfold train_and_evaluate_models. rewrite Hres.
destruct (train_test_split (X self) (y self)) as [[[X_train X_test] y_train] y_test].
cbn [fst snd]. intros Hrun.
set (results' := foldl _ [] model_names) in Hrun.
assert (Hkeys : dict_keys results' = model_names) by reflexivity.
assert (Hcv : ∀ k, k ∈ model_names →
          default 0%Qc (cv_mae_mean <$> dict_get k results')
          = (- np_mean (cross_val_score k X_train y_train))%Qc).
{ intros k Hk.
  repeat (apply elem_of_cons in Hk as [->|Hk]; [reflexivity|]).
  by apply elem_of_nil in Hk. }
unfold best_model_name in Hrun. rewrite Hkeys in Hrun.
change (py_min_by ?key model_names)
  with (Some (min_from key "Random Forest" ["Gradient Boosting"; "Decision Tree"]))
  in Hrun.
cbv beta iota in Hrun.
set (key := λ k, default 0%Qc (cv_mae_mean <$> dict_get k results')) in *.
set (name := min_from key "Random Forest" ["Gradient Boosting"; "Decision Tree"]) in *.
destruct (min_from_first key ["Gradient Boosting"; "Decision Tree"] "Random Forest")
  as (i & Hi & Hfirst).
fold name in Hi, Hfirst.
assert (Hname : name ∈ model_names) by (by eapply list_elem_of_lookup_2).
destruct (dict_get name results') as [r|] eqn:Hr; [|done].
apply Ok_inj in Hrun. subst self'. cbn [results model_type].
split; [exact Hkeys|]. exists i, name. split; [done|]. split; [exact Hi|].
split.
- intros name' Hname'. rewrite <- (Hcv name Hname), <- (Hcv name' Hname').
  apply elem_of_cons in Hname' as [->|Hname'].
  + apply (proj1 (min_from_le key ["Gradient Boosting"; "Decision Tree"]
                               "Random Forest")).
  + by apply (proj2 (min_from_le key ["Gradient Boosting"; "Decision Tree"]
                                  "Random Forest")).
- intros j name' Hj Hname'.
  rewrite <- (Hcv name Hname),
          <- (Hcv name' (list_elem_of_lookup_2 _ _ _ Hname')).
  by apply (Hfirst j).
Qed.
End ModelTrainerMore.

(** ** From the pipeline to a served request *)

Lemma base_frame_has flight_data ca fdate dep arr rm fn am k :
  is_Some (flight_data !! k)
  ∨ k ∈ ["airline_popularity"; "airline"; "route_popularity";
         "departure_time_category"; "flight_duration"; "arrival_minutes";
         "departure_minutes"; "booking_category"; "is_weekend_flight";
         "is_weekend_booking"; "days_in_advance"; "flight_day_of_week";
         "flight_month"; "create_month"; "create_day_of_week"; "create_hour";
         "flight_date"; "create_at"] →
  is_Some (base_frame flight_data ca fdate dep arr rm fn am !! k).
Proof.
unfold base_frame. intros [Hk|Hk].
- repeat (apply lookup_insert_is_Some'; right).
  rewrite lookup_fmap. by apply fmap_is_Some.
- repeat (apply lookup_insert_is_Some';
          apply elem_of_cons in Hk as [->|Hk]; [by left|right]).
  by apply elem_of_nil in Hk.
Qed.

Section PredictorTotal.
Variable to_datetime : string → parse_result.

Lemma base_columns_complete self flight_data c f :
  flight_data !! "create_at" = Some c → to_datetime c ≠ ParseError →
  flight_data !! "flight_date" = Some f → to_datetime f ≠ ParseError →
  is_Some (flight_data !! "departure_time") →
  is_Some (flight_data !! "arrival_time") →
  is_Some (flight_data !! "flight_number") →
  is_Some (route_popularity_stats self !! "mean") →
  is_Some (airline_popularity_stats self !! "mean") →
  ∃ ca fdate dep arr rm fn am,
    base_columns to_datetime self flight_data
    = ([], Ok (base_frame flight_data ca fdate dep arr rm fn am)).
Proof.
intros Hc Hpc Hf Hpf [dep Hdep] [arr Harr] [fn Hfn] [rm Hrm] [am Ham].
rewrite base_columns_unfold. unfold lookup_or_raise, to_datetime_strict.
rewrite Hc, Hf, Hdep, Harr, Hfn, Hrm, Ham.
rewrite bind_ret_l.
destruct (to_datetime c) as [t1| |]; [| |done]; rewrite !bind_ret_l;
  (destruct (to_datetime f) as [t2| |]; [| |done]); rewrite !bind_ret_l.
- by exists (CTime t1), (CTime t2), dep, arr, rm, fn, am.
- by exists (CTime t1), CNaT, dep, arr, rm, fn, am.
- by exists CNaT, (CTime t2), dep, arr, rm, fn, am.
- by exists CNaT, CNaT, dep, arr, rm, fn, am.
Qed.

Lemma predict_single_flight_clipped self m flight_data df0 stats lo hi :
  best_model self = Some m →
  base_columns to_datetime self flight_data = ([], Ok df0) →
  features_derivable self df0 →
  model_accepts self m →
  price_stats self = Some stats →
  stats !! "min" = Some lo → stats !! "max" = Some hi →
  ∃ out raw,
    raw_prediction to_datetime self m flight_data = (out, Ok raw)
    ∧ predict_single_flight to_datetime self flight_data
      = ((out ++ [PrintClippedPrediction
                    (np_clip raw (py_max lo MIN_PRICE_FLOOR)
                             (py_min hi MAX_PRICE_CEILING))])%list,
         Ok (np_clip raw (py_max lo MIN_PRICE_FLOOR)
                     (py_min hi MAX_PRICE_CEILING))).
Proof.
intros Hm Hbase Hfeat Hmodel Hstats Hlo Hhi.
destruct (encode_categoricals_total self categorical_cols df0)
  as (out_enc & df_input & Henc & _ & Hkeep).
destruct (select_columns_Ok df_input (feature_columns self)) as (X_input & Hsel & _).
{ intros f Hf. unfold features_derivable in Hfeat.
  rewrite Forall_forall in Hfeat.
  destruct (Hfeat f Hf) as [Hbase_col | (col' & Hc' & -> & Hcell' & Hle')%Exists_exists].
  - by apply Hkeep.
  - by eapply (encode_categoricals_defined self col' categorical_cols df0). }
destruct (Hmodel X_input) as [raw Hraw];
  [by destruct (select_columns_length _ _ _ _ Hsel)|].
destruct (raw_prediction_run to_datetime self m flight_data df0 out_enc df_input
            X_input raw Hbase Henc Hsel Hraw) as (out & Hrun & _).
exists out, raw. split; [exact Hrun|].
rewrite (predict_single_flight_unfold _ _ m _ Hm).
eapply bind_Ok; [exact Hrun|].
exact (clip_prediction_applied self stats lo hi raw Hstats Hlo Hhi).
Qed.
End PredictorTotal.

Lemma make_price_stats_bounds series_std Q1 Q3 prices :
  make_price_stats series_std Q1 Q3 prices !! "min" = Some (series_min prices)
  ∧ make_price_stats series_std Q1 Q3 prices !! "max" = Some (series_max prices).
Proof. split; reflexivity. Qed.

Lemma popularity_stats_mean series_std column :
  popularity_stats series_std column !! "mean" = Some (series_mean column).
Proof. reflexivity. Qed.

Lemma test_flight_complete :
  test_flight !! "create_at" = Some "2025-06-23 22:13:00"
  ∧ test_flight !! "flight_date" = Some "2025-08-15T17:00:00.000"
  ∧ Forall (λ key, is_Some (test_flight !! key)) request_keys.
Proof. split; [reflexivity|]. split; [reflexivity|]. compute_done. Qed.

Section PipelineFacts.
Let matrix : Type := list (list float).
Variable to_datetime : string → parse_result.
Variable series_std : list float → float.
Variable train_test_split : matrix → list float → matrix * matrix * list float * list float.
Variable cross_val_score : string → matrix → list float → list Qc.
Variable fit : string → matrix → list float → Model.
Variable mean_absolute_error : Model → matrix → list float → Qc.
Variable root_mean_squared_error : Model → matrix → list float → Qc.
Variable r2_score : Model → matrix → list float → Qc.
Variable np_std : list Qc → Qc.

Let train := train_and_evaluate_models train_test_split cross_val_score fit
               mean_absolute_error root_mean_squared_error r2_score np_std.
Let run := run_complete_pipeline to_datetime series_std train_test_split
             cross_val_score fit mean_absolute_error root_mean_squared_error
             r2_score np_std.

Lemma feature_engineering_frame self self' :
  feature_engineering series_std self = Ok self' →
  price_stats self' = price_stats self
  ∧ best_model self' = best_model self
  ∧ is_Some (route_popularity_stats self' !! "mean")
  ∧ is_Some (airline_popularity_stats self' !! "mean").
Proof.
unfold feature_engineering. destruct (df self); [|done].
intros <-%Ok_inj. cbn. rewrite !popularity_stats_mean. by repeat split.
Qed.

Lemma train_and_evaluate_models_frame self self' :
  train self = Ok self' →
  is_Some (best_model self')
  ∧ feature_columns self' = feature_columns self
  ∧ label_encoders self' = label_encoders self
  ∧ price_stats self' = price_stats self
  ∧ route_popularity_stats self' = route_popularity_stats self
  ∧ airline_popularity_stats self' = airline_popularity_stats self
  ∧ df self' = df self
  ∧ X self' = X self
  ∧ y self' = y self.
Proof.
unfold train, train_and_evaluate_models.
destruct (train_test_split (X self) (y self)) as [[[X_train X_test] y_train] y_test].
destruct (best_model_name _) as [name|]; [|done].
destruct (dict_get name _) as [r|]; [|done].
intros <-%Ok_inj. cbn. by repeat split.
Qed.

Lemma run_complete_pipeline_Ok self report self' model_data returned :
  run self = (report, Ok (self', model_data, returned)) →
  ∃ cleaned engineered,
    load_and_preprocess_data to_datetime series_std self = Ok cleaned
    ∧ report = analyze_data_distribution cleaned
    ∧ feature_engineering series_std cleaned = Ok engineered
    ∧ train engineered = Ok self'
    ∧ model_data = save_model self'
    ∧ returned = (best_model self', results self').
Proof.
unfold run, run_complete_pipeline.
destruct (load_and_preprocess_data to_datetime series_std self) as [s1|]; [|done].
destruct (feature_engineering series_std s1) as [s2|] eqn:E2; [|done].
fold train.
destruct (train s2) as [s3|] eqn:E3; [|done].
intros [= <- <- <- <-]. by exists s1, s2.
Qed.

Lemma pipeline_bundle self report self' model_data returned :
  run self = (report, Ok (self', model_data, returned)) →
  model_data = save_model self'
  ∧ is_Some (best_model self')
  ∧ feature_columns self' = all_feature_columns
  ∧ (∀ col, col ∈ categorical_cols → is_Some (label_encoders self' !! col))
  ∧ (∃ stats, price_stats self' = Some stats
              ∧ is_Some (stats !! "min") ∧ is_Some (stats !! "max"))
  ∧ is_Some (route_popularity_stats self' !! "mean")
  ∧ is_Some (airline_popularity_stats self' !! "mean").
Proof.
intros (s1 & s2 & Hload & _ & Hfe & Htrain & -> & _)%run_complete_pipeline_Ok.
apply train_and_evaluate_models_frame in Htrain
  as (Hm & Hcols & Hencs & Hstats & Hroute & Hair & _).
pose proof (feature_engineering_frame s1 s2 Hfe) as (Hstats2 & _ & Hroute2 & Hair2).
apply feature_engineering_Ok in Hfe as (rows & _ & Hencs2 & _ & Hcols2 & _).
apply load_and_preprocess_data_Ok in Hload as (table & _ & _ & Hstats1).
split; [done|]. split; [done|]. split; [congruence|]. split.
{ intros col Hcol. rewrite Hencs, Hencs2.
  destruct (fit_encoders_lookup rows (label_encoders s1) col Hcol)
    as (column & _ & ->). done. }
split.
{ eexists. rewrite Hstats, Hstats2. split; [exact Hstats1|].
  destruct (make_price_stats_bounds series_std
              (quantile (price <$> drop_duplicates table) q25)
              (quantile (price <$> drop_duplicates table) q75)
              (price <$> inlier_rows table)) as [-> ->]. done. }
split; congruence.
Qed.

Lemma pipeline_bundle_predicts
    self report self' model_data returned m flight_data c f :
  run self = (report, Ok (self', model_data, returned)) →
  best_model self' = Some m →
  model_accepts self' m →
  flight_data !! "create_at" = Some c → to_datetime c ≠ ParseError →
  flight_data !! "flight_date" = Some f → to_datetime f ≠ ParseError →
  Forall (λ key, is_Some (flight_data !! key)) request_keys →
  ∃ predictor out p,
    load_model (__init__ None) model_data = Ok predictor
    ∧ feature_columns predictor = all_feature_columns
    ∧ predict_single_flight to_datetime predictor flight_data = (out, Ok p)
    ∧ PrintClippedPrediction p ∈ out.
Proof.
intros (-> & _ & Hcols & Hencs & (stats & Hstats & [lo Hlo] & [hi Hhi])
        & Hroute & Hair)%pipeline_bundle Hm Hmodel Hc Hpc Hf Hpf Hkeys.
eexists. cbn [load_model save_model getitem md_model md_model_type
               md_feature_columns md_label_encoders md_scaler].
set (predictor := mkPredictor _ _ _ _ _ _ _ _ _ _ _ _ _).
assert (Hk : ∀ key, key ∈ request_keys → is_Some (flight_data !! key))
  by (by apply Forall_forall).
destruct (base_columns_complete to_datetime predictor flight_data c f Hc Hpc Hf Hpf)
  as (ca & fdate & dep & arr & rm & fn & am & Hbase);
  [apply Hk; compute_done..| exact Hroute | exact Hair |].
destruct (predict_single_flight_clipped to_datetime predictor m flight_data
            _ stats lo hi Hm Hbase) as (out & raw & _ & Hrun);
  [|exact Hmodel|exact Hstats|exact Hlo|exact Hhi|].
{ unfold features_derivable. change (feature_columns predictor) with (feature_columns self').
  rewrite Hcols. apply Forall_forall. intros feature Hfeature.
  assert (Hcat : ∀ col, col ∈ categorical_cols →
            is_Some (base_frame flight_data ca fdate dep arr rm fn am !! col)).
  { intros col Hcol. apply base_frame_has.
    repeat (apply elem_of_cons in Hcol as [->|Hcol];
            [first [left; apply Hk; compute_done | right; compute_done]|]).
    by apply elem_of_nil in Hcol. }
  assert (Hright : ∀ col, col ∈ categorical_cols →
            Exists (λ col', encoded_name col = encoded_name col'
                            ∧ is_Some (base_frame flight_data ca fdate dep arr rm
                                         fn am !! col')
                            ∧ is_Some (label_encoders predictor !! col'))
                   categorical_cols).
  { intros col Hcol. apply Exists_exists. exists col.
    split; [exact Hcol|]. split; [done|]. split; [by apply Hcat|by apply Hencs]. }
  apply elem_of_cons in Hfeature as [->|Hfeature];
    [right; apply (Hright "flight_number"); compute_done|].
  apply elem_of_cons in Hfeature as [->|Hfeature];
    [right; apply (Hright "departure_airport"); compute_done|].
  apply elem_of_cons in Hfeature as [->|Hfeature];
    [right; apply (Hright "arrival_airport"); compute_done|].
  apply elem_of_cons in Hfeature as [->|Hfeature];
    [right; apply (Hright "classes"); compute_done|].
  apply elem_of_cons in Hfeature as [->|Hfeature];
    [right; apply (Hright "type_of_plane"); compute_done|].
  apply elem_of_cons in Hfeature as [->|Hfeature];
    [right; apply (Hright "airline"); compute_done|].
  left. apply base_frame_has. right.
  repeat (apply elem_of_cons in Hfeature as [->|Hfeature]; [compute_done|]).
  by apply elem_of_nil in Hfeature. }
eexists _, _. split; [reflexivity|]. split; [exact Hcols|].
split; [exact Hrun|]. apply elem_of_app. right. by left.
Qed.

End PipelineFacts.

(** ** The test of the saved model and the script *)

Lemma load_model_first_missing_key self model_data :
  match first_missing_key model_data with
  | Some key => load_model self model_data = Raise (KeyError key)
  | None => ∃ self', load_model self model_data = Ok self'
  end.
Proof.
unfold first_missing_key, load_model.
destruct (md_model model_data); [|done].
destruct (md_model_type model_data); [|done].
destruct (md_feature_columns model_data); [|done].
destruct (md_label_encoders model_data); [|done].
destruct (md_scaler model_data); [|done].
cbn. by eexists.
Qed.

Section SavedModelFacts.
Variable to_datetime : string → parse_result.

(** X21. [test_saved_model] raises [KeyError] with the first mandatory key the
    pickle lacks, [load_model] being called outside the [try]. Otherwise
    it returns normally: when [predict_single_flight] returns a price, the
    last line printed is the predicted price and no failure is printed;
    when it raises, the exception is caught and the last line printed is
    the failure with that exception. *)
Theorem test_saved_model_reports_a_failed_prediction model_data :
  match first_missing_key model_data with
  | Some key =>
      test_saved_model to_datetime model_data = ([], Raise (KeyError key))
  | None =>
      ∃ predictor lines,
        load_model (__init__ None) model_data = Ok predictor
        ∧ test_saved_model to_datetime model_data = (lines, Ok ())
        ∧ match (predict_single_flight to_datetime predictor test_flight).2 with
          | Ok price =>
              last lines = Some (PrintPredictedPrice price)
              ∧ ∀ e, PrintTestFailed e ∉ lines
          | Raise e =>
              last lines = Some (PrintTestFailed e)
              ∧ ∀ price, PrintPredictedPrice price ∉ lines
          end
  end.
Proof.
pose proof (load_model_first_missing_key (__init__ None) model_data) as Hload.
unfold test_saved_model.
destruct (first_missing_key model_data) as [key|]; [by rewrite Hload|].
destruct Hload as [predictor Hload]. rewrite Hload.
exists predictor.
destruct (predict_single_flight to_datetime predictor test_flight)
  as [out [price|e]]; eexists; (split; [reflexivity|]); (split; [reflexivity|]);
  cbn [snd]; split.
- by rewrite last_app.
- intros e [(o & ? & _)%list_elem_of_fmap|Hin]%elem_of_app; [done|].
  repeat (apply elem_of_cons in Hin as [?|Hin]; [done|]).
  by apply elem_of_nil in Hin.
- by rewrite last_app.
- intros price [(o & ? & _)%list_elem_of_fmap|Hin]%elem_of_app; [done|].
  repeat (apply elem_of_cons in Hin as [?|Hin]; [done|]).
  by apply elem_of_nil in Hin.
Qed.
End SavedModelFacts.

Section MainFacts.
Let matrix : Type := list (list float).
Variable to_datetime : string → parse_result.
Variable series_std : list float → float.
Variable train_test_split : matrix → list float → matrix * matrix * list float * list float.
Variable cross_val_score : string → matrix → list float → list Qc.
Variable fit : string → matrix → list float → Model.
Variable mean_absolute_error : Model → matrix → list float → Qc.
Variable root_mean_squared_error : Model → matrix → list float → Qc.
Variable r2_score : Model → matrix → list float → Qc.
Variable np_std : list Qc → Qc.

(** X22. When the pipeline of the script returns, the selected model accepts
    every row of as many cells as there are feature columns and the parser
    accepts the two timestamps of the test flight, the script ends
    normally: it prints the report of the pipeline, then the lines of the
    test, the last of which is the predicted price, which is the clipped
    prediction; no failure is printed. *)
Theorem script_prints_a_predicted_price
    csv report self' model_data returned m :
  run_complete_pipeline to_datetime series_std train_test_split
    cross_val_score fit mean_absolute_error root_mean_squared_error r2_score
    np_std (__init__ (Some csv)) = (report, Ok (self', model_data, returned)) →
  best_model self' = Some m →
  model_accepts self' m →
  to_datetime "2025-06-23 22:13:00" ≠ ParseError →
  to_datetime "2025-08-15T17:00:00.000" ≠ ParseError →
  ∃ lines price,
    __main__ to_datetime series_std train_test_split cross_val_score fit
      mean_absolute_error root_mean_squared_error r2_score np_std csv
    = (report, lines, Ok ())
    ∧ last lines = Some (PrintPredictedPrice price)
    ∧ Predicting (PrintClippedPrediction price) ∈ lines
    ∧ ∀ e, PrintTestFailed e ∉ lines.
Proof.
intros Hrun Hm Hmodel Hpc Hpf.
destruct test_flight_complete as (Hc & Hf & Hkeys).
destruct (pipeline_bundle_predicts to_datetime series_std
            train_test_split cross_val_score fit mean_absolute_error
            root_mean_squared_error r2_score np_std (__init__ (Some csv))
            report self' model_data returned m test_flight _ _
            Hrun Hm Hmodel Hc Hpc Hf Hpf Hkeys)
  as (predictor & out & p & Hload & _ & Hpredict & Hclip).
unfold __main__. rewrite Hrun. unfold test_saved_model.
rewrite Hload, Hpredict. eexists _, p. split; [reflexivity|].
split; [by rewrite last_app|]. split.
- apply elem_of_app. left. apply list_elem_of_fmap. by exists (PrintClippedPrediction p).
- intros e [(o & ? & _)%list_elem_of_fmap|Hin]%elem_of_app; [done|].
  repeat (apply elem_of_cons in Hin as [?|Hin]; [done|]).
  by apply elem_of_nil in Hin.
Qed.
End MainFacts.

(** ** More on the frame of a request *)

Lemma base_frame_popularity flight_data ca fdate dep arr rm fn am :
  let df_input := base_frame flight_data ca fdate dep arr rm fn am in
  df_input !! "route_popularity" = Some (CNum rm)
  ∧ df_input !! "airline_popularity" = Some (CNum am)
  ∧ df_input !! "airline" = Some (CStr (prefix2 fn)).
Proof.
unfold base_frame. repeat split;
  repeat (rewrite lookup_insert; case_decide; [try done|]; try done).
Qed.

Lemma base_frame_null_creation flight_data fdate dep arr rm fn am :
  let df_input := base_frame flight_data CNaT fdate dep arr rm fn am in
  df_input !! "create_hour" = Some (CNum NaN)
  ∧ df_input !! "create_day_of_week" = Some (CNum NaN)
  ∧ df_input !! "create_month" = Some (CNum NaN)
  ∧ df_input !! "days_in_advance" = Some (CNum NaN)
  ∧ df_input !! "is_weekend_booking" = Some (CNum (of_Z 0))
  ∧ df_input !! "booking_category" = Some (CNum (of_Z 3)).
Proof.
unfold base_frame. repeat split;
  repeat (rewrite lookup_insert; case_decide; [try done|]; try done);
  by destruct fdate.
Qed.

(** X23. In the frame of a request, [route_popularity] and
    [airline_popularity] are the means of the two columns of the training
    table, whatever the route and the flight number of the request. *)
Theorem inference_popularity_is_the_training_mean
    series_std to_datetime self self' flight_data out df_input :
  feature_engineering series_std self = Ok self' →
  base_columns to_datetime self' flight_data = (out, Ok df_input) →
  df_input !! "route_popularity"
  = Some (CNum (series_mean ((λ r, of_Z (route_popularity r)) <$> derived self')))
  ∧ df_input !! "airline_popularity"
    = Some (CNum (series_mean ((λ r, of_Z (airline_popularity r))
                               <$> derived self'))).
Proof.
intros Hfe Hbase.
apply base_columns_Ok in Hbase
  as (c & ca & f & fdate & dep & arr & rm & fn & am
      & _ & _ & _ & _ & _ & _ & Hrm & _ & Ham & _ & ->).
destruct (base_frame_popularity flight_data ca fdate dep arr rm fn am)
  as (-> & -> & _).
unfold feature_engineering in Hfe. destruct (df self) as [rows|]; [|done].
apply Ok_inj in Hfe. subst self'.
cbn [route_popularity_stats airline_popularity_stats derived] in *.
rewrite popularity_stats_mean in Hrm, Ham.
by injection Hrm as <-; injection Ham as <-.
Qed.

(** X24. When the [create_at] of a request is a null spelling, which the
    parser turns into NaT, the frame holds NaN in [create_hour],
    [create_day_of_week], [create_month] and [days_in_advance], 0 in
    [is_weekend_booking] and 3 in [booking_category], and selecting one of
    the four NaN columns with [fillna(0)] gives 0. *)
Theorem null_creation_timestamp_is_served_as_zeros
    to_datetime self flight_data c out df_input :
  flight_data !! "create_at" = Some c →
  to_datetime c = NaT →
  base_columns to_datetime self flight_data = (out, Ok df_input) →
  df_input !! "create_hour" = Some (CNum NaN)
  ∧ df_input !! "create_day_of_week" = Some (CNum NaN)
  ∧ df_input !! "create_month" = Some (CNum NaN)
  ∧ df_input !! "days_in_advance" = Some (CNum NaN)
  ∧ df_input !! "is_weekend_booking" = Some (CNum (of_Z 0))
  ∧ df_input !! "booking_category" = Some (CNum (of_Z 3))
  ∧ ∀ col, col ∈ ["create_hour"; "create_day_of_week"; "create_month";
                  "days_in_advance"] →
      select_columns df_input [col] = ([], Ok [CNum (of_Z 0)]).
Proof.
intros Hc Hnat Hbase.
apply base_columns_Ok in Hbase
  as (c' & ca & f & fdate & dep & arr & rm & fn & am
      & Hc' & Hca & _ & _ & _ & _ & _ & _ & _ & _ & ->).
assert (c' = c) as -> by congruence.
unfold to_datetime_strict in Hca. rewrite Hnat in Hca. injection Hca as <-.
destruct (base_frame_null_creation flight_data fdate dep arr rm fn am)
  as (H1 & H2 & H3 & H4 & H5 & H6).
repeat (split; [done|]).
intros col Hcol. cbn [select_columns]. unfold lookup_or_raise.
repeat (apply elem_of_cons in Hcol as [->|Hcol];
        [first [rewrite H1|rewrite H2|rewrite H3|rewrite H4]; reflexivity|]).
by apply elem_of_nil in Hcol.
Qed.

(** ** What the model receives *)

Lemma fillna0_not_missing c : fillna0 c ≠ CNaT ∧ fillna0 c ≠ CNum NaN.
Proof. by destruct c as [| |[]|]. Qed.

(** X25. Whenever a raw prediction is obtained, the model was called on the
    row printed as the input values; that row has one cell per feature
    column, none of them NaN or NaT. *)
Theorem model_input_has_no_missing_value
    to_datetime self m flight_data out raw :
  raw_prediction to_datetime self m flight_data = (out, Ok raw) →
  ∃ X_input,
    PrintInputValues X_input ∈ out
    ∧ predict m X_input = Ok raw
    ∧ length X_input = length (feature_columns self)
    ∧ Forall (λ c, c ≠ CNaT ∧ c ≠ CNum NaN) X_input.
Proof.
unfold raw_prediction. intros H.
apply bind_Ok_inv in H as (o1 & [] & o2 & _ & H & ->).
apply bind_Ok_inv in H as (o3 & df0 & o4 & _ & H & ->).
apply bind_Ok_inv in H as (o5 & df_input & o6 & _ & H & ->).
apply bind_Ok_inv in H as (o7 & [] & o8 & _ & H & ->).
apply bind_Ok_inv in H as (o9 & [] & o10 & _ & H & ->).
apply bind_Ok_inv in H as (o11 & X_input & o12 & Hsel & H & ->).
apply bind_Ok_inv in H as (o13 & [] & o14 & _ & H & ->).
apply bind_Ok_inv in H as (o15 & [] & o16 & Hprint & H & ->).
apply bind_Ok_inv in H as (o17 & prediction & o18 & Hpredict & H & ->).
apply bind_Ok_inv in H as (o19 & [] & o20 & _ & H & ->).
injection H as <- <-. injection Hprint as <-.
unfold lift in Hpredict. injection Hpredict as <- Hpredict.
destruct (select_columns_length _ _ _ _ Hsel) as [-> Hlen].
exists X_input. split.
{ rewrite !elem_of_app. do 7 right. left. by left. }
split; [exact Hpredict|]. split; [exact Hlen|].
pose proof (select_columns_in_order _ _ _ Hsel) as Hall.
clear -Hall. induction Hall as [|col c cols X_input Hc _ IH]; [done|].
constructor; [|exact IH].
destruct (df_input !! col) as [c'|]; [|done]. injection Hc as <-.
apply fillna0_not_missing.
Qed.

(** X26. The loop over the categorical columns of [predict_single_flight]
    never raises: it answers a frame that keeps every column, differs from
    the frame it started from in [_encoded] columns only, and it prints
    nothing but warnings about the columns it went through. *)
Theorem encoding_loop_never_raises self cols : ∀ df_input,
  ∃ out df',
    encode_categoricals self df_input cols = (out, Ok df')
    ∧ (∀ k, k ∉ encoded_name <$> cols → df' !! k = df_input !! k)
    ∧ (∀ k, is_Some (df_input !! k) → is_Some (df' !! k))
    ∧ (∀ o, o ∈ out → ∃ v col, o = PrintWarning v col ∧ col ∈ cols).
Proof.
induction cols as [|col cols IH]; intros df_input.
- exists [], df_input. repeat split; try done. by intros o ?%elem_of_nil.
- cbn [encode_categoricals].
  assert (∃ out1 df1,
            encode_categorical self df_input col = (out1, Ok df1)
            ∧ (∀ k, k ≠ encoded_name col → df1 !! k = df_input !! k)
            ∧ (∀ k, is_Some (df_input !! k) → is_Some (df1 !! k))
            ∧ (∀ o, o ∈ out1 → ∃ v, o = PrintWarning v col))
    as (out1 & df1 & E1 & Hsame1 & Hkeep1 & Hout1).
  { unfold encode_categorical.
    destruct (df_input !! col) as [c|]; [|by exists [], df_input; repeat split;
                                           try done; intros o ?%elem_of_nil].
    destruct (label_encoders self !! col) as [le|];
      [|by exists [], df_input; repeat split; try done; intros o ?%elem_of_nil].
    assert (∃ out code, encode_column le col (text_of c) = (out, Ok code)
                        ∧ ∀ o, o ∈ out → o = PrintWarning (text_of c) col)
      as (out & code & -> & Hout).
    { unfold encode_column.
      destruct (LabelEncoder.transform1 le (text_of c)) as [i|e] eqn:Et.
      - exists [], (Z.of_nat i). split; [done|]. by intros o ?%elem_of_nil.
      - unfold LabelEncoder.transform1 in Et.
        destruct (classes_ le) as [[|c0 cs]|]; [..|by injection Et as <-; exists [], 0;
                                                   split; [|intros o ?%elem_of_nil]].
        + destruct (LabelEncoder.index_of _ _); [done|]. injection Et as <-.
          exists [], 0. split; [done|]. by intros o ?%elem_of_nil.
        + destruct (LabelEncoder.index_of _ _); [done|]. injection Et as <-.
          exists [PrintWarning (text_of c) col], 0. split; [done|].
          by intros o ->%list_elem_of_singleton. }
    eexists _, _. split; [reflexivity|]. rewrite app_nil_r.
    split; [by intros k Hk; rewrite lookup_insert_ne|].
    split; [|by intros o Ho; eexists; apply Hout].
    intros k Hk. apply lookup_insert_is_Some'. by right. }
  destruct (IH df1) as (out2 & df2 & E2 & Hsame2 & Hkeep2 & Hout2).
  exists (out1 ++ out2)%list, df2. split; [by eapply bind_Ok|].
  split; [|split].
  + intros k Hk. rewrite fmap_cons in Hk. apply not_elem_of_cons in Hk as [Hk1 Hk2].
    rewrite Hsame2 by done. by apply Hsame1.
  + intros k Hk. by apply Hkeep2, Hkeep1.
  + intros o [Ho|Ho]%elem_of_app.
    * destruct (Hout1 o Ho) as [v ->]. exists v, col. split; [done|left].
    * destruct (Hout2 o Ho) as (v & col' & -> & Hcol'). exists v, col'.
      split; [done|by right].
Qed.

(** ** [demo_predictions] *)

Lemma dbind_Ok_inv {A B} (m : D A) (k : A → D B) out b :
  dbind m k = (out, Ok b) →
  ∃ out1 a out2, m = (out1, Ok a) ∧ k a = (out2, Ok b) ∧ out = (out1 ++ out2)%list.
Proof.
destruct m as [out1 [a|e]]; [|done]. cbn.
destruct (k a) as [out2 r] eqn:E. intros [= <- ->]. by exists out1, a, out2.
Qed.

Lemma dbind_snd {A B} (m : D A) (k : A → D B) :
  (dbind m k).2 = match m.2 with
                  | Ok a => (k a).2
                  | Raise e => Raise e
                  end.
Proof. destruct m as [out [a|e]]; [|done]. cbn. by destruct (k a). Qed.

Section DemoFacts.
Variable to_datetime : string → parse_result.

Lemma predict_single_flight_Ok self flight_data out price :
  predict_single_flight to_datetime self flight_data = (out, Ok price) →
  ∃ df_input, base_columns to_datetime self flight_data = ([], Ok df_input).
Proof.
unfold predict_single_flight. destruct (best_model self) as [m|]; [|done].
intros (o1 & raw & o2 & Hraw & _ & _)%bind_Ok_inv.
unfold raw_prediction in Hraw.
apply bind_Ok_inv in Hraw as (o3 & [] & o4 & _ & Hraw & _).
apply bind_Ok_inv in Hraw as (o5 & df0 & o6 & Hbase & _ & _).
exists df0.
destruct (base_columns_Ok _ _ _ _ _ Hbase)
  as (? & ? & ? & ? & ? & ? & ? & ? & ? & _ & _ & _ & _ & _ & _ & _ & _ & _ & -> & _).
exact Hbase.
Qed.

(** X27. When the body of the loop of [demo_predictions] completes for a
    flight, the number of days it prints as advance booking is the value
    of [days_in_advance] in the frame the prediction was made from, the
    booking category of the frame is that of this number, and the last
    line printed is the price that [predict_single_flight] returned. *)
Theorem demo_flight_prints_the_advance_the_model_saw self name flight lines :
  demo_flight to_datetime self name flight = (lines, Ok ()) →
  ∃ out df_input advance_days price,
    predict_single_flight to_datetime self flight = (out, Ok price)
    ∧ base_columns to_datetime self flight = ([], Ok df_input)
    ∧ df_input !! "days_in_advance" = Some (CNum (Qc_of_Z <$> advance_days))
    ∧ df_input !! "booking_category"
      = Some (CNum (of_Z (Inference.categorize_advance_booking advance_days)))
    ∧ PrintAdvanceBooking advance_days ∈ lines
    ∧ last lines = Some (PrintDemoPrice price).
Proof.
unfold demo_flight. intros H.
apply dbind_Ok_inv in H as (o1 & price & o2 & Hpredict & H & ->).
destruct (predict_single_flight to_datetime self flight) as [out r] eqn:Epredict.
injection Hpredict as <- ->.
apply dbind_Ok_inv in H as (o3 & f & o4 & Hf & H & ->).
apply dbind_Ok_inv in H as (o5 & t2 & o6 & Ht2 & H & ->).
apply dbind_Ok_inv in H as (o7 & c & o8 & Hc & H & ->).
apply dbind_Ok_inv in H as (o9 & t1 & o10 & Ht1 & H & ->).
apply dbind_Ok_inv in H as (o11 & [] & o12 & _ & H & ->).
apply dbind_Ok_inv in H as (o13 & dep & o14 & _ & H & ->).
apply dbind_Ok_inv in H as (o15 & arr & o16 & _ & H & ->).
apply dbind_Ok_inv in H as (o17 & [] & o18 & _ & H & ->).
apply dbind_Ok_inv in H as (o19 & dt' & o20 & _ & H & ->).
apply dbind_Ok_inv in H as (o21 & at' & o22 & _ & H & ->).
apply dbind_Ok_inv in H as (o23 & [] & o24 & _ & H & ->).
apply dbind_Ok_inv in H as (o25 & cl & o26 & _ & H & ->).
apply dbind_Ok_inv in H as (o27 & [] & o28 & _ & H & ->).
apply dbind_Ok_inv in H as (o29 & tp & o30 & _ & H & ->).
apply dbind_Ok_inv in H as (o31 & [] & o32 & _ & H & ->).
apply dbind_Ok_inv in H as (o33 & [] & o34 & Hadv & H & ->).
injection H as <-. injection Hadv as <-.
destruct (predict_single_flight_Ok self flight out price Epredict) as [df_input Hbase].
pose proof (base_columns_Ok _ _ _ _ _ Hbase)
  as (c' & ca & f' & fdate & dep' & arr' & rm & fn & am
      & Hc' & Hca & Hf' & Hfdate & _ & _ & _ & _ & _ & _ & Hframe).
unfold demo_key in Hf, Hc. rewrite Hf' in Hf. rewrite Hc' in Hc.
injection Hf as <- <-. injection Hc as <- <-.
assert (Hdays : days_between fdate ca
                = t2' ← t2; t1' ← t1; Some (dt.days t2' t1')).
{ unfold to_datetime_strict in Hca, Hfdate. unfold scalar_to_datetime in Ht1, Ht2.
  destruct (to_datetime c'); try done; destruct (to_datetime f'); try done;
    injection Hca as <-; injection Hfdate as <-;
    injection Ht1 as <- <-; injection Ht2 as <- <-; reflexivity. }
destruct (base_frame_days flight ca fdate dep' arr' rm fn am) as [D1 D2].
rewrite <- Hframe in D1, D2. rewrite Hdays in D1, D2.
eexists out, df_input, _, price.
split; [reflexivity|]. split; [exact Hbase|]. split; [exact D1|]. split; [exact D2|].
split.
- rewrite !elem_of_app. do 16 right. left. by left.
- rewrite !app_assoc. by rewrite last_snoc.
Qed.

(** X28. The loop of [demo_predictions] catches nothing: when the flights
    before one complete and that one fails, in [predict_single_flight] or
    later in the body, the loop raises the same exception, having printed
    the lines of the flights before and those of the failed flight; the
    flights after it are not reached. *)
Theorem demo_loop_stops_at_the_first_failure
    self flights1 name flight flights2 e :
  Forall (λ nf, (demo_flight to_datetime self nf.1 nf.2).2 = Ok ()) flights1 →
  (predict_single_flight to_datetime self flight).2 = Raise e
  ∨ (demo_flight to_datetime self name flight).2 = Raise e →
  ∃ lines,
    demo_loop to_datetime self flights1 = (lines, Ok ())
    ∧ demo_loop to_datetime self (flights1 ++ (name, flight) :: flights2)
      = ((lines ++ (demo_flight to_datetime self name flight).1)%list, Raise e).
Proof.
intros Hall Hfail.
assert (Hbody : (demo_flight to_datetime self name flight).2 = Raise e).
{ destruct Hfail as [Hp|Hd]; [|exact Hd].
  unfold demo_flight. rewrite dbind_snd.
  destruct (predict_single_flight to_datetime self flight) as [out r].
  cbn in Hp. subst r. reflexivity. }
clear Hfail. induction Hall as [|[name' flight'] flights1 Hhead _ IH].
- exists []. split; [done|]. cbn [app demo_loop].
  destruct (demo_flight to_datetime self name flight) as [out r].
  cbn in Hbody. subst r. reflexivity.
- destruct IH as (lines & Hloop & Hrun). cbn [fst snd] in Hhead.
  destruct (demo_flight to_datetime self name' flight') as [out' r'] eqn:E.
  cbn in Hhead. subst r'.
  exists (out' ++ lines)%list. cbn [app demo_loop]. rewrite E. cbn [dbind].
  rewrite Hloop, Hrun. split; [done|]. by rewrite app_assoc.
Qed.
End DemoFacts.

(** ** The served price and the training prices *)

Lemma clip_to_a_number raw lo hi p :
  np_clip raw (py_max lo MIN_PRICE_FLOOR) (py_min hi MAX_PRICE_CEILING) = Some p →
  ∃ h, hi = Some h ∧ (p ≤ h)%Qc ∧ (p ≤ Qc_of_Z 50000000)%Qc.
Proof.
destruct hi as [h|].
2:{ unfold np_clip, np_minimum, py_min, Float.lt, MAX_PRICE_CEILING, of_Z.
    cbn. by destruct (np_maximum _ _). }
destruct lo as [l|].
2:{ unfold np_clip, np_maximum, py_max, Float.gt, Float.lt. cbn.
    by destruct raw. }
destruct raw as [x|]; [|done].
destruct (py_max_floor l) as (fl & -> & _).
destruct (py_min_ceiling h) as (ce & -> & C1 & C2 & _).
destruct (np_clip_Some x fl ce) as (p' & -> & P1 & _).
intros [= ->]. exists h. split; [done|].
split; [exact (Qcle_trans _ _ _ P1 C1)|exact (Qcle_trans _ _ _ P1 C2)].
Qed.

Section ServedPrice.
Let matrix : Type := list (list float).
Variable to_datetime : string → parse_result.
Variable series_std : list float → float.
Variable train_test_split : matrix → list float → matrix * matrix * list float * list float.
Variable cross_val_score : string → matrix → list float → list Qc.
Variable fit : string → matrix → list float → Model.
Variable mean_absolute_error : Model → matrix → list float → Qc.
Variable root_mean_squared_error : Model → matrix → list float → Qc.
Variable r2_score : Model → matrix → list float → Qc.
Variable np_std : list Qc → Qc.

(** X29. When [run_complete_pipeline] returned and a predictor that loaded
    the saved dictionary returns a price that is a number, that price was
    printed as clipped, is at most 50 000 000, and is at most the price of
    a row of the CSV, one that passed the outlier filter. *)
Theorem served_price_is_at_most_the_highest_training_price
    self report self' model_data returned predictor flight_data out p :
  run_complete_pipeline to_datetime series_std train_test_split
    cross_val_score fit mean_absolute_error root_mean_squared_error r2_score
    np_std self = (report, Ok (self', model_data, returned)) →
  load_model (__init__ None) model_data = Ok predictor →
  predict_single_flight to_datetime predictor flight_data = (out, Ok (Some p)) →
  ∃ table r highest,
    csv_file self = Some table
    ∧ r ∈ table
    ∧ price r = Some highest
    ∧ Some highest ∈ price <$> inlier_rows table
    ∧ (p ≤ highest)%Qc
    ∧ (p ≤ Qc_of_Z 50000000)%Qc
    ∧ PrintClippedPrediction (Some p) ∈ out.
Proof.
intros Hrun Hload Hpredict.
apply run_complete_pipeline_Ok in Hrun
  as (s1 & s2 & Hclean & _ & Hfe & Htrain & -> & _).
apply train_and_evaluate_models_frame in Htrain as (_ & _ & _ & Hstats3 & _).
pose proof (feature_engineering_frame series_std s1 s2 Hfe) as (Hstats2 & _).
apply load_and_preprocess_data_Ok in Hclean as (table & Hcsv & _ & Hstats1).
assert (Hstats : price_stats predictor
                 = Some (make_price_stats series_std
                           (quantile (price <$> drop_duplicates table) q25)
                           (quantile (price <$> drop_duplicates table) q75)
                           (price <$> inlier_rows table))).
{ cbn in Hload. apply Ok_inj in Hload. subst predictor. cbn [price_stats].
  congruence. }
clear Hload Hstats1 Hstats2 Hstats3 Hfe.
unfold predict_single_flight in Hpredict.
destruct (best_model predictor) as [m|]; [|done].
apply bind_Ok_inv in Hpredict as (o1 & raw & o2 & _ & Hclip & ->).
destruct (make_price_stats_bounds series_std
            (quantile (price <$> drop_duplicates table) q25)
            (quantile (price <$> drop_duplicates table) q75)
            (price <$> inlier_rows table)) as [Hlo Hhi].
rewrite (clip_prediction_applied predictor _ _ _ raw Hstats Hlo Hhi) in Hclip.
injection Hclip as <- Hclip.
destruct (clip_to_a_number _ _ _ _ Hclip) as (h & Hmax & P1 & P2).
pose proof (series_max_spec (price <$> inlier_rows table)) as Hspec.
rewrite Hmax in Hspec. destruct Hspec as [Hin _].
pose proof Hin as (r & Hprice & Hr)%list_elem_of_fmap.
unfold inlier_rows in Hr. apply list_elem_of_filter in Hr as [_ Hr].
apply (proj1 (drop_duplicates_elem _ _)) in Hr.
exists table, r, h. repeat (split; [done|]).
apply elem_of_app. right. rewrite Hclip. by left.
Qed.
End ServedPrice.

(** ** At the demonstration table *)

Lemma cleaned_demo :
  load_and_preprocess_data iso_to_datetime no_std (__init__ (Some demo_csv))
  = Ok (cleaned demo_csv).
Proof. vm_cast_no_check (eq_refl (Ok (cleaned demo_csv))). Qed.

Lemma df_cleaned_demo : df (cleaned demo_csv) = Some demo_rows.
Proof. vm_cast_no_check (eq_refl (Some demo_rows)). Qed.

Lemma demo_row_cleaned : demo_row ∈ demo_rows.
Proof. compute_done. Qed.

Lemma df_cleaned_stale :
  df (cleaned stale_csv) = Some (default [] (df (cleaned stale_csv))).
Proof. vm_cast_no_check (eq_refl (df (cleaned stale_csv))). Qed.

Lemma stale_report :
  PrintPriceRange (of_Z 1000000) (of_Z 3000000)
  ∈ analyze_data_distribution (cleaned stale_csv).
Proof. compute_done. Qed.

(** X1, at the first listing of the demonstration table. *)
Lemma cleaned_rows_are_parsed_inliers_witness :
  ∃ table raw x p,
    csv_file (__init__ (Some demo_csv)) = Some table
    ∧ raw ∈ table
    ∧ price demo_row = Some x
    ∧ price raw = Some x
    ∧ within (price_fence (price <$> drop_duplicates table)).1
             (price_fence (price <$> drop_duplicates table)).2 (Some x) = true
    ∧ to_datetime_coerce iso_to_datetime (create_at raw) = Some (create_at demo_row)
    ∧ parse_flight_date iso_to_datetime (flight_date raw)
      = Some (flight_date demo_row)
    ∧ type_of_plane raw = Some p
    ∧ type_of_plane demo_row = Some (strip p)
    ∧ strip p ≠ "".
Proof.
exact (cleaned_rows_are_parsed_inliers iso_to_datetime no_std
         (__init__ (Some demo_csv)) (cleaned demo_csv) demo_rows demo_row
         cleaned_demo df_cleaned_demo demo_row_cleaned).
Defined.

(** X2, at the first listing of the demonstration table. *)
Lemma price_stats_bound_the_cleaned_prices_witness :
  ∃ table stats lo hi x,
    csv_file (__init__ (Some demo_csv)) = Some table
    ∧ price_stats (cleaned demo_csv) = Some stats
    ∧ stats !! "min" = Some (Some lo)
    ∧ stats !! "max" = Some (Some hi)
    ∧ price demo_row = Some x
    ∧ (lo ≤ x)%Qc ∧ (x ≤ hi)%Qc
    ∧ Float.le (price_fence (price <$> drop_duplicates table)).1 (Some lo) = true
    ∧ Float.le (Some hi) (price_fence (price <$> drop_duplicates table)).2 = true.
Proof.
exact (price_stats_bound_the_cleaned_prices iso_to_datetime no_std
         (__init__ (Some demo_csv)) (cleaned demo_csv) demo_rows demo_row
         cleaned_demo df_cleaned_demo demo_row_cleaned).
Defined.

(** X3, at the table with a stale row: the range printed is 1 000 000 - 3 000 000. *)
Lemma reported_price_range_within_price_stats_witness :
  ∃ stats lo hi,
    price_stats (cleaned stale_csv) = Some stats
    ∧ stats !! "min" = Some (Some lo)
    ∧ stats !! "max" = Some (Some hi)
    ∧ (lo ≤ Qc_of_Z 1000000)%Qc
    ∧ (Qc_of_Z 1000000 ≤ Qc_of_Z 3000000)%Qc
    ∧ (Qc_of_Z 3000000 ≤ hi)%Qc.
Proof.
exact (reported_price_range_within_price_stats iso_to_datetime no_std
         (__init__ (Some stale_csv)) (cleaned stale_csv)
         (Qc_of_Z 1000000) (Qc_of_Z 3000000) cleaned_stale stale_report).
Defined.

Lemma demo_csv_head : raw_row "2024-01-15 10:30:00" "VJ1198" "Airbus A321" "SGN"
    "HAN" "2024-01-20T08:00:00" "08:00" "10:15" "Eco" 1500000 ∈ demo_csv.
Proof. compute_done. Qed.

(** X4, with the first listing of the demonstration table repeated at its end. *)
Lemma repeated_row_changes_nothing_witness :
  ∃ self1' self2',
    load_and_preprocess_data iso_to_datetime no_std
      (__init__ (Some (demo_csv
                       ++ [raw_row "2024-01-15 10:30:00" "VJ1198" "Airbus A321"
                             "SGN" "HAN" "2024-01-20T08:00:00" "08:00" "10:15"
                             "Eco" 1500000])%list)) = Ok self1'
    ∧ load_and_preprocess_data iso_to_datetime no_std
        (__init__ (Some (demo_csv ++ [])%list)) = Ok self2'
    ∧ df self1' = df self2'
    ∧ price_stats self1' = price_stats self2'.
Proof.
exact (repeated_row_changes_nothing iso_to_datetime no_std
         (__init__ (Some (demo_csv ++ [_])%list))
         (__init__ (Some (demo_csv ++ [])%list))
         demo_csv _ [] eq_refl eq_refl demo_csv_head).
Defined.

(** X5, at the demonstration table. *)
Lemma outlier_filter_keeps_a_priced_row_witness :
  ∃ stats lo hi lower upper,
    price_fence (price <$> drop_duplicates demo_csv) = (Some lower, Some upper)
    ∧ inlier_rows demo_csv ≠ []
    ∧ price_stats (cleaned demo_csv) = Some stats
    ∧ stats !! "min" = Some (Some lo)
    ∧ stats !! "max" = Some (Some hi)
    ∧ (lower ≤ lo)%Qc ∧ (lo ≤ hi)%Qc ∧ (hi ≤ upper)%Qc.
Proof.
exact (outlier_filter_keeps_a_priced_row iso_to_datetime no_std
         (__init__ (Some demo_csv)) (cleaned demo_csv) demo_csv _
         (Qc_of_Z 1500000) cleaned_demo eq_refl demo_csv_head eq_refl).
Defined.

(** ** At the demonstration table, after feature engineering *)

Lemma demo_feature_row_derived : demo_feature_row ∈ derived (engineered demo_csv).
Proof. compute_done. Qed.

Lemma classes_is_categorical : "classes" ∈ categorical_cols.
Proof. compute_done. Qed.

(** X6, at the demonstration table. *)
Lemma feature_matrix_has_no_missing_value_witness :
  length (X (engineered demo_csv)) = length (y (engineered demo_csv))
  ∧ (length (X (engineered demo_csv)) ≤ length (derived (engineered demo_csv)))%nat
  ∧ Forall (λ row, length row = length (feature_columns (engineered demo_csv))
                   ∧ Forall is_Some row) (X (engineered demo_csv))
  ∧ Forall is_Some (y (engineered demo_csv)).
Proof.
exact (feature_matrix_has_no_missing_value no_std (cleaned demo_csv)
         (engineered demo_csv) engineered_demo).
Defined.

(** X7, at the fare class of the first listing of the demonstration table. *)
Lemma training_codes_decode_to_the_cell_text_witness :
  ∃ le cs cell code,
    label_encoders (engineered demo_csv) !! "classes" = Some le
    ∧ classes_ le = Some cs
    ∧ categorical_cell "classes" (src demo_feature_row) = Some cell
    ∧ numeric_columns demo_feature_row !! encoded_name "classes"
      = Some (of_Z (Z.of_nat code))
    ∧ (code < length cs)%nat
    ∧ LabelEncoder.transform1 le (astype_str cell) = Ok code
    ∧ LabelEncoder.inverse_transform1 le code = Ok (astype_str cell).
Proof.
exact (training_codes_decode_to_the_cell_text no_std (cleaned demo_csv)
         (engineered demo_csv) "classes" demo_feature_row engineered_demo
         classes_is_categorical demo_feature_row_derived).
Defined.

(** X8, at the first listing of the demonstration table. *)
Lemma popularity_counts_rows_of_the_table_witness :
  ∃ rows,
    df (cleaned demo_csv) = Some rows
    ∧ length (derived (engineered demo_csv)) = length rows
    ∧ (is_Some (departure_airport (src demo_feature_row)) →
       is_Some (arrival_airport (src demo_feature_row)) →
       1 ≤ route_popularity demo_feature_row ≤ Z.of_nat (length rows))
    ∧ (departure_airport (src demo_feature_row) = None
       ∨ arrival_airport (src demo_feature_row) = None →
       route_popularity demo_feature_row = 0)
    ∧ (is_Some (flight_number (src demo_feature_row)) →
       1 ≤ airline_popularity demo_feature_row ≤ Z.of_nat (length rows))
    ∧ (flight_number (src demo_feature_row) = None →
       airline_popularity demo_feature_row = 0)
    ∧ (∀ r', r' ∈ derived (engineered demo_csv) →
         departure_airport (src r') = departure_airport (src demo_feature_row) →
         arrival_airport (src r') = arrival_airport (src demo_feature_row) →
         route_popularity r' = route_popularity demo_feature_row)
    ∧ (∀ r', r' ∈ derived (engineered demo_csv) →
         prefix2 <$> flight_number (src r')
         = prefix2 <$> flight_number (src demo_feature_row) →
         airline_popularity r' = airline_popularity demo_feature_row).
Proof.
exact (popularity_counts_rows_of_the_table no_std (cleaned demo_csv)
         (engineered demo_csv) demo_feature_row engineered_demo
         demo_feature_row_derived).
Defined.

(** X9, at the demonstration table, where three listings share the route of the first. *)
Lemma feature_engineering_is_idempotent_witness :
  route_popularity demo_feature_row = 3
  ∧ feature_engineering no_std (engineered demo_csv) = Ok (engineered demo_csv).
Proof.
split; [reflexivity|].
exact (feature_engineering_is_idempotent no_std (cleaned demo_csv)
         (engineered demo_csv) engineered_demo).
Defined.

(** X10, at the demonstration table. *)
Lemma unparsed_clock_time_is_dropped_in_training_and_zero_at_inference_witness :
  (∀ s, Inference.time_to_minutes s
        = default 0 (Training.time_to_minutes (Some s)))
  ∧ (∀ r, r ∈ derived (engineered demo_csv) →
       departure_minutes r = Training.time_to_minutes (departure_time (src r))
       ∧ arrival_minutes r = Training.time_to_minutes (arrival_time (src r))
       ∧ (departure_minutes r = None ∨ arrival_minutes r = None →
          mask (feature_columns (engineered demo_csv)) r = false)).
Proof.
exact (unparsed_clock_time_is_dropped_in_training_and_zero_at_inference no_std
         (cleaned demo_csv) (engineered demo_csv) engineered_demo).
Defined.

Lemma demo_request_classes :
  frame_of (engineered demo_csv) flight1 !! "classes"
  = Some (CStr (astype_str (Some "Eco"))).
Proof. compute_done. Qed.

(** X13, at the fare class of the first listing and the first request. *)
Lemma inference_reuses_the_training_codes_witness :
  ∃ code,
    numeric_columns demo_feature_row !! encoded_name "classes" = Some code
    ∧ encode_categorical (engineered demo_csv)
        (frame_of (engineered demo_csv) flight1) "classes"
      = ([], Ok (<[encoded_name "classes" := CNum code]>
                   (frame_of (engineered demo_csv) flight1))).
Proof.
exact (inference_reuses_the_training_codes no_std (cleaned demo_csv)
         (engineered demo_csv) "classes" demo_feature_row (Some "Eco")
         (frame_of (engineered demo_csv) flight1) engineered_demo
         classes_is_categorical demo_feature_row_derived eq_refl
         demo_request_classes).
Defined.

Lemma engineered_frame_derives :
  base_columns iso_to_datetime (engineered demo_csv) flight1
  = ([], Ok (frame_of (engineered demo_csv) flight1)).
Proof.
vm_cast_no_check
  (eq_refl (A := M (gmap string cell))
           (x := ([], Ok (frame_of (engineered demo_csv) flight1)))).
Qed.

(** X23, at the demonstration table and the first request. *)
Lemma inference_popularity_is_the_training_mean_witness :
  frame_of (engineered demo_csv) flight1 !! "route_popularity"
  = Some (CNum (series_mean ((λ r, of_Z (route_popularity r))
                             <$> derived (engineered demo_csv))))
  ∧ frame_of (engineered demo_csv) flight1 !! "airline_popularity"
    = Some (CNum (series_mean ((λ r, of_Z (airline_popularity r))
                               <$> derived (engineered demo_csv)))).
Proof.
exact (inference_popularity_is_the_training_mean no_std iso_to_datetime
         (cleaned demo_csv) (engineered demo_csv) flight1 []
         (frame_of (engineered demo_csv) flight1) engineered_demo
         engineered_frame_derives).
Defined.

(** ** At the requests of the demonstration *)

Lemma flight1_timestamps :
  iso_to_datetime "2024-01-15 10:30:00" = Parsed (create_at demo_row)
  ∧ iso_to_datetime "2024-01-20T08:00:00" = Parsed (flight_date demo_row).
Proof. split; compute_done. Qed.

Lemma demo_clock_times :
  is_Some (Training.time_to_minutes (Some "08:00"))
  ∧ is_Some (Training.time_to_minutes (Some "10:15")).
Proof. split; compute_done. Qed.

Lemma flight_duration_recomputed : "flight_duration" ∈ clock_and_calendar_columns.
Proof. compute_done. Qed.

(** X12, at the first request of [demo_predictions] and the first listing of the table, in the duration column. *)
Lemma inference_recomputes_the_clock_and_calendar_features_witness :
  flight1_frame !! "flight_duration"
  = CNum <$> (numeric_columns (derive demo_rows ∅ demo_row) !! "flight_duration").
Proof.
exact (inference_recomputes_the_clock_and_calendar_features iso_to_datetime
         usual_predictor flight1 [] flight1_frame demo_rows ∅ demo_row
         "2024-01-15 10:30:00" "2024-01-20T08:00:00" "08:00" "10:15"
         "flight_duration" flight1_frame_derives eq_refl
         (proj1 flight1_timestamps) eq_refl (proj2 flight1_timestamps)
         eq_refl eq_refl eq_refl eq_refl (proj1 demo_clock_times)
         (proj2 demo_clock_times) flight_duration_recomputed).
Defined.

Lemma usual_aircraft_encoder :
  "type_of_plane" ∈ plain_categorical_cols
  ∧ label_encoders usual_predictor !! "type_of_plane"
    = Some (LabelEncoder.fit ["Airbus A320"])
  ∧ classes_ (LabelEncoder.fit ["Airbus A320"]) = Some ["Airbus A320"]
  ∧ ("Airbus A321" ∉ ["Airbus A320"])
  ∧ ("type_of_plane" ∉ feature_columns usual_predictor).
Proof. compute_done. Qed.

(** X14, at the aircraft type of the first request. *)
Lemma unseen_category_is_priced_as_the_first_class_witness :
  encode_column (LabelEncoder.fit ["Airbus A320"]) "type_of_plane" "Airbus A321"
  = ([PrintWarning "Airbus A321" "type_of_plane"], Ok 0)
  ∧ encode_column (LabelEncoder.fit ["Airbus A320"]) "type_of_plane" "Airbus A320"
    = ([], Ok 0)
  ∧ (predict_single_flight iso_to_datetime usual_predictor
       (<["type_of_plane" := "Airbus A321"]> flight1)).2
    = (predict_single_flight iso_to_datetime usual_predictor
         (<["type_of_plane" := "Airbus A320"]> flight1)).2.
Proof.
destruct usual_aircraft_encoder as (H1 & H2 & H3 & H4 & H5).
exact (unseen_category_is_priced_as_the_first_class iso_to_datetime
         usual_predictor "type_of_plane" "Airbus A321" "Airbus A320"
         (LabelEncoder.fit ["Airbus A320"]) [] H1 H2 H3 H4 flight1 H5).
Defined.

Lemma request_without_create_at_lacks_it :
  "create_at" ∈ required_keys
  ∧ request_without_create_at !! "create_at" = None.
Proof. compute_done. Qed.

(** X15, at the first request without its creation timestamp. *)
Lemma request_without_a_required_key_raises_witness :
  (∃ e, (predict_single_flight iso_to_datetime usual_predictor
           request_without_create_at).2 = Raise e)
  ∧ (is_Some (best_model usual_predictor) → "create_at" = "create_at" →
     predict_single_flight iso_to_datetime usual_predictor
       request_without_create_at
     = ([PrintInputData request_without_create_at],
        Raise (KeyError "create_at"))).
Proof.
exact (request_without_a_required_key_raises iso_to_datetime usual_predictor
         request_without_create_at "create_at"
         (proj1 request_without_create_at_lacks_it)
         (proj2 request_without_create_at_lacks_it)).
Defined.

Lemma cheap_raw_prediction :
  raw_prediction iso_to_datetime cheap_predictor (constant_model 60000) flight2
  = ((raw_prediction iso_to_datetime cheap_predictor (constant_model 60000)
        flight2).1,
     Ok (Some (Qc_of_Z 60000))).
Proof.
vm_cast_no_check
  (eq_refl (raw_prediction iso_to_datetime cheap_predictor
              (constant_model 60000) flight2)).
Qed.

Lemma cheap_price_stats :
  price_stats cheap_predictor = Some (price_stats_of 50000 80000)
  ∧ price_stats_of 50000 80000 !! "min" = Some (Some (Qc_of_Z 50000))
  ∧ price_stats_of 50000 80000 !! "max" = Some (Some (Qc_of_Z 80000)).
Proof. compute_done. Qed.

(** X16, at a bundle trained on fares from 50 000 to 80 000. *)
Lemma clipped_price_never_exceeds_the_ceiling_witness :
  ∃ p,
    predict_single_flight iso_to_datetime cheap_predictor flight2
    = (((raw_prediction iso_to_datetime cheap_predictor (constant_model 60000)
           flight2).1
        ++ [PrintClippedPrediction (Some p)])%list, Ok (Some p))
    ∧ (p ≤ Qc_of_Z 80000)%Qc
    ∧ (p ≤ Qc_of_Z 50000000)%Qc
    ∧ ((Qc_of_Z 80000 < Qc_of_Z 100000)%Qc → p = Qc_of_Z 80000)
    ∧ ((Qc_of_Z 100000 ≤ Qc_of_Z 80000)%Qc → (Qc_of_Z 50000 ≤ Qc_of_Z 80000)%Qc →
       (Qc_of_Z 100000 ≤ p)%Qc ∧ (Qc_of_Z 50000 ≤ p)%Qc
       ∨ (Qc_of_Z 50000000 < Qc_of_Z 50000)%Qc).
Proof.
destruct cheap_price_stats as (H1 & H2 & H3).
exact (clipped_price_never_exceeds_the_ceiling iso_to_datetime cheap_predictor
         (constant_model 60000) flight2 _ (Qc_of_Z 60000)
         (price_stats_of 50000 80000) (Qc_of_Z 50000) (Qc_of_Z 80000)
         eq_refl cheap_raw_prediction H1 H2 H3).
Defined.

Lemma null_create_at_request :
  request_with_null_create_at !! "create_at" = Some "NaT"
  ∧ iso_to_datetime "NaT" = NaT.
Proof. compute_done. Qed.

Lemma null_create_at_frame_derives :
  base_columns iso_to_datetime usual_predictor request_with_null_create_at
  = ([], Ok (frame_of usual_predictor request_with_null_create_at)).
Proof.
vm_cast_no_check
  (eq_refl (A := M (gmap string cell))
           (x := ([], Ok (frame_of usual_predictor request_with_null_create_at)))).
Qed.

(** X24, at the first request with [NaT] for its creation timestamp. *)
Lemma null_creation_timestamp_is_served_as_zeros_witness :
  frame_of usual_predictor request_with_null_create_at !! "create_hour"
  = Some (CNum NaN)
  ∧ frame_of usual_predictor request_with_null_create_at !! "create_day_of_week"
    = Some (CNum NaN)
  ∧ frame_of usual_predictor request_with_null_create_at !! "create_month"
    = Some (CNum NaN)
  ∧ frame_of usual_predictor request_with_null_create_at !! "days_in_advance"
    = Some (CNum NaN)
  ∧ frame_of usual_predictor request_with_null_create_at !! "is_weekend_booking"
    = Some (CNum (of_Z 0))
  ∧ frame_of usual_predictor request_with_null_create_at !! "booking_category"
    = Some (CNum (of_Z 3))
  ∧ ∀ col, col ∈ ["create_hour"; "create_day_of_week"; "create_month";
                  "days_in_advance"] →
      select_columns (frame_of usual_predictor request_with_null_create_at) [col]
      = ([], Ok [CNum (of_Z 0)]).
Proof.
exact (null_creation_timestamp_is_served_as_zeros iso_to_datetime
         usual_predictor request_with_null_create_at "NaT" []
         (frame_of usual_predictor request_with_null_create_at)
         (proj1 null_create_at_request) (proj2 null_create_at_request)
         null_create_at_frame_derives).
Defined.

(** X25, at the second request on a small bundle. *)
Lemma model_input_has_no_missing_value_witness :
  ∃ X_input,
    PrintInputValues X_input
    ∈ (raw_prediction iso_to_datetime cheap_predictor (constant_model 60000)
         flight2).1
    ∧ predict (constant_model 60000) X_input = Ok (Some (Qc_of_Z 60000))
    ∧ length X_input = length (feature_columns cheap_predictor)
    ∧ Forall (λ c, c ≠ CNaT ∧ c ≠ CNum NaN) X_input.
Proof.
exact (model_input_has_no_missing_value iso_to_datetime cheap_predictor
         (constant_model 60000) flight2 _ _ cheap_raw_prediction).
Defined.

(** ** At the demonstration table, through the whole pipeline *)

Lemma tied_training :
  results (engineered demo_csv) = []
  ∧ train_and_evaluate_models demo_train_test_split tied_cross_val_score
      demo_fit demo_metric demo_metric demo_metric demo_np_std
      (engineered demo_csv)
    = Ok (trained tied_cross_val_score demo_csv).
Proof.
split; [reflexivity|].
vm_cast_no_check (eq_refl (Ok (trained tied_cross_val_score demo_csv))).
Qed.

(** X19, with the three candidates tied: Random Forest is selected. *)
Lemma cross_validation_ties_go_to_the_earlier_candidate_witness :
  model_type (trained tied_cross_val_score demo_csv) = Some "Random Forest"
  ∧ dict_keys (results (trained tied_cross_val_score demo_csv)) = model_names
  ∧ ∃ i name,
      model_type (trained tied_cross_val_score demo_csv) = Some name
      ∧ model_names !! i = Some name
      ∧ (∀ name', name' ∈ model_names →
           (- np_mean (tied_cross_val_score name
                         (demo_train_test_split (X (engineered demo_csv))
                            (y (engineered demo_csv))).1.1.1
                         (demo_train_test_split (X (engineered demo_csv))
                            (y (engineered demo_csv))).1.2)
            ≤ - np_mean (tied_cross_val_score name'
                           (demo_train_test_split (X (engineered demo_csv))
                              (y (engineered demo_csv))).1.1.1
                           (demo_train_test_split (X (engineered demo_csv))
                              (y (engineered demo_csv))).1.2))%Qc)
      ∧ (∀ j name', (j < i)%nat → model_names !! j = Some name' →
           (- np_mean (tied_cross_val_score name
                         (demo_train_test_split (X (engineered demo_csv))
                            (y (engineered demo_csv))).1.1.1
                         (demo_train_test_split (X (engineered demo_csv))
                            (y (engineered demo_csv))).1.2)
            < - np_mean (tied_cross_val_score name'
                           (demo_train_test_split (X (engineered demo_csv))
                              (y (engineered demo_csv))).1.1.1
                           (demo_train_test_split (X (engineered demo_csv))
                              (y (engineered demo_csv))).1.2))%Qc).
Proof.
split; [reflexivity|].
exact (cross_validation_ties_go_to_the_earlier_candidate demo_train_test_split
         tied_cross_val_score demo_fit demo_metric demo_metric demo_metric
         demo_np_std (engineered demo_csv) (trained tied_cross_val_score demo_csv)
         (proj1 tied_training) (proj2 tied_training)).
Defined.

Lemma pipeline_demo :
  run_complete_pipeline iso_to_datetime no_std demo_train_test_split
    demo_cross_val_score demo_fit demo_metric demo_metric demo_metric
    demo_np_std (__init__ (Some demo_csv))
  = (analyze_data_distribution (cleaned demo_csv),
     Ok (trained demo_cross_val_score demo_csv,
         save_model (trained demo_cross_val_score demo_csv),
         (best_model (trained demo_cross_val_score demo_csv),
          results (trained demo_cross_val_score demo_csv)))).
Proof.
vm_cast_no_check
  (eq_refl (analyze_data_distribution (cleaned demo_csv),
            Ok (trained demo_cross_val_score demo_csv,
                save_model (trained demo_cross_val_score demo_csv),
                (best_model (trained demo_cross_val_score demo_csv),
                 results (trained demo_cross_val_score demo_csv))))).
Qed.

Lemma trained_demo_model :
  best_model (trained demo_cross_val_score demo_csv)
  = Some (constant_model 1500000)
  ∧ model_type (trained demo_cross_val_score demo_csv)
    = Some "Gradient Boosting".
Proof.
split; [|reflexivity].
vm_cast_no_check (eq_refl (Some (constant_model 1500000))).
Qed.

Lemma constant_model_accepts self p : model_accepts self (constant_model p).
Proof. intros X_input _. by eexists. Qed.

Lemma demo_requests_parse :
  iso_to_datetime "2024-01-15 10:30:00" ≠ ParseError
  ∧ iso_to_datetime "2024-01-20T08:00:00" ≠ ParseError
  ∧ iso_to_datetime "2025-06-23 22:13:00" ≠ ParseError
  ∧ iso_to_datetime "2025-08-15T17:00:00.000" ≠ ParseError
  ∧ Forall (λ key, is_Some (flight1 !! key)) request_keys.
Proof. compute_done. Qed.


(** X22, at the demonstration table. *)
Lemma script_prints_a_predicted_price_witness :
  ∃ lines price,
    __main__ iso_to_datetime no_std demo_train_test_split demo_cross_val_score
      demo_fit demo_metric demo_metric demo_metric demo_np_std demo_csv
    = (analyze_data_distribution (cleaned demo_csv), lines, Ok ())
    ∧ last lines = Some (PrintPredictedPrice price)
    ∧ Predicting (PrintClippedPrediction price) ∈ lines
    ∧ ∀ e, PrintTestFailed e ∉ lines.
Proof.
destruct demo_requests_parse as (_ & _ & H3 & H4 & _).
exact (script_prints_a_predicted_price iso_to_datetime no_std
         demo_train_test_split demo_cross_val_score demo_fit demo_metric
         demo_metric demo_metric demo_np_std demo_csv _ _ _ _
         (constant_model 1500000) pipeline_demo (proj1 trained_demo_model)
         (constant_model_accepts _ _) H3 H4).
Defined.

(** ** At the flights of [demo_predictions] *)

Lemma demo_first_flight :
  demo_flight iso_to_datetime usual_predictor "Economy SGN-HAN" flight1
  = ((demo_flight iso_to_datetime usual_predictor "Economy SGN-HAN" flight1).1,
     Ok ()).
Proof.
vm_cast_no_check
  (eq_refl (demo_flight iso_to_datetime usual_predictor "Economy SGN-HAN" flight1)).
Qed.

(** X27, at the first flight of [demo_predictions]. *)
Lemma demo_flight_prints_the_advance_the_model_saw_witness :
  ∃ out df_input advance_days price,
    predict_single_flight iso_to_datetime usual_predictor flight1 = (out, Ok price)
    ∧ base_columns iso_to_datetime usual_predictor flight1 = ([], Ok df_input)
    ∧ df_input !! "days_in_advance" = Some (CNum (Qc_of_Z <$> advance_days))
    ∧ df_input !! "booking_category"
      = Some (CNum (of_Z (Inference.categorize_advance_booking advance_days)))
    ∧ PrintAdvanceBooking advance_days
      ∈ (demo_flight iso_to_datetime usual_predictor "Economy SGN-HAN" flight1).1
    ∧ last (demo_flight iso_to_datetime usual_predictor "Economy SGN-HAN"
              flight1).1
      = Some (PrintDemoPrice price).
Proof.
exact (demo_flight_prints_the_advance_the_model_saw iso_to_datetime
         usual_predictor "Economy SGN-HAN" flight1 _ demo_first_flight).
Defined.

Lemma demo_second_flight_fails :
  Forall (λ nf, (demo_flight iso_to_datetime usual_predictor nf.1 nf.2).2 = Ok ())
         [("Economy SGN-HAN", flight1)]
  ∧ (predict_single_flight iso_to_datetime usual_predictor
       request_without_classes).2
    = Raise (KeyError "classes_encoded").
Proof. compute_done. Qed.

(** X28, with the second flight stripped of its fare class. *)
Lemma demo_loop_stops_at_the_first_failure_witness :
  PrintAdvanceBooking (Some 4)
  ∈ (demo_loop iso_to_datetime usual_predictor [("Economy SGN-HAN", flight1)]).1
  ∧ ∃ lines,
      demo_loop iso_to_datetime usual_predictor [("Economy SGN-HAN", flight1)]
      = (lines, Ok ())
      ∧ demo_loop iso_to_datetime usual_predictor
          ([("Economy SGN-HAN", flight1)]
           ++ ("book vé sớm", request_without_classes)
              :: [("Business class", flight3)])%list
        = ((lines ++ (demo_flight iso_to_datetime usual_predictor "book vé sớm"
                        request_without_classes).1)%list,
           Raise (KeyError "classes_encoded")).
Proof.
split; [compute_done|].
exact (demo_loop_stops_at_the_first_failure iso_to_datetime usual_predictor
         [("Economy SGN-HAN", flight1)] "book vé sớm" request_without_classes
         [("Business class", flight3)] (KeyError "classes_encoded")
         (proj1 demo_second_flight_fails)
         (or_introl (proj2 demo_second_flight_fails))).
Defined.

(** ** At the bundle of the demonstration table *)

Lemma demo_bundle_loads :
  load_model (__init__ None) (save_model (trained demo_cross_val_score demo_csv))
  = Ok (loaded (save_model (trained demo_cross_val_score demo_csv))).
Proof.
vm_cast_no_check
  (eq_refl (Ok (loaded (save_model (trained demo_cross_val_score demo_csv))))).
Qed.

Lemma demo_bundle_predicts :
  predict_single_flight iso_to_datetime
    (loaded (save_model (trained demo_cross_val_score demo_csv))) flight1
  = ((predict_single_flight iso_to_datetime
        (loaded (save_model (trained demo_cross_val_score demo_csv))) flight1).1,
     Ok (Some (Qc_of_Z 1500000))).
Proof.
vm_cast_no_check
  (eq_refl (predict_single_flight iso_to_datetime
              (loaded (save_model (trained demo_cross_val_score demo_csv)))
              flight1)).
Qed.

(** X29, at the demonstration table and the first request. *)
Lemma served_price_is_at_most_the_highest_training_price_witness :
  ∃ table r highest,
    csv_file (__init__ (Some demo_csv)) = Some table
    ∧ r ∈ table
    ∧ price r = Some highest
    ∧ Some highest ∈ price <$> inlier_rows table
    ∧ (Qc_of_Z 1500000 ≤ highest)%Qc
    ∧ (Qc_of_Z 1500000 ≤ Qc_of_Z 50000000)%Qc
    ∧ PrintClippedPrediction (Some (Qc_of_Z 1500000))
      ∈ (predict_single_flight iso_to_datetime
           (loaded (save_model (trained demo_cross_val_score demo_csv)))
           flight1).1.
Proof.
exact (served_price_is_at_most_the_highest_training_price iso_to_datetime no_std
         demo_train_test_split demo_cross_val_score demo_fit demo_metric
         demo_metric demo_metric demo_np_std (__init__ (Some demo_csv)) _ _ _ _
         _ flight1 _ (Qc_of_Z 1500000) pipeline_demo demo_bundle_loads
         demo_bundle_predicts).
Defined.
